(** * distortos: STM32 SPIv2 low-level SPI master drivers and the DMAv2 channel handle

    A shallow embedding of
    - [source/chip/STM32/peripherals/SPIv2/STM32-SPIv2-ChipSpiMasterLowLevel.cpp]
      (the interrupt-based driver),
    - [source/chip/STM32/peripherals/SPIv2/STM32-SPIv2-SpiMasterLowLevelDmaBased.cpp]
      (the DMA-based driver),
    - [source/chip/STM32/peripherals/DMAv2/include/distortos/chip/DmaChannel.hpp]
      ([DmaChannel::UniqueHandle]),
    followed by the properties of these drivers.

    Conventions.  Unsigned C++ integers are [Z] values kept in range by an
    explicit wrap ([u8], [u16], [u32], [size_t]); pointers are [option]
    addresses ([None] is [nullptr]); memory is a map from addresses to bytes;
    every member function takes the object it works on and returns the
    updated object next to its C++ return value.  Undefined behaviour of the
    C++ code (division by zero, a failed [assert]) is an explicit [Crash]. *)

From Stdlib Require Import ZArith List Bool Lia.
Import ListNotations.
Local Open Scope Z_scope.

(** ** Machine integers *)

Definition u8 (x : Z) : Z := x mod 2 ^ 8.
Definition u16 (x : Z) : Z := x mod 2 ^ 16.
Definition u32 (x : Z) : Z := x mod 2 ^ 32.

(** [size_t] of the target (ARM Cortex-M) is 32 bits wide. *)
Definition SIZE_MODULUS : Z := 2 ^ 32.
Definition size_t (x : Z) : Z := x mod SIZE_MODULUS.

(** [(x & mask) != 0] *)
Definition flagSet (x mask : Z) : bool := negb (Z.land x mask =? 0).

(** [x & ~mask] and [x | mask] on register values *)
Definition clearBits (x mask : Z) : Z := Z.land x (Z.lnot mask).
Definition setBits (x mask : Z) : Z := Z.lor x mask.

Definition Z_of_bool (b : bool) : Z := if b then 1 else 0.

(** [__builtin_clz] on a non-zero 32-bit value: the number of leading zero
    bits.  (Its result for 0 is undefined; the driver never passes 0.) *)
Definition builtin_clz (x : Z) : Z := 31 - Z.log2 x.

(** ** Outcomes of C++ code *)

Inductive Fault : Type :=
| DivisionByZero
| AssertionFailed.

Inductive Result (A : Type) : Type :=
| Ok (a : A)
| Crash (f : Fault).
Arguments Ok {A} a.
Arguments Crash {A} f.

Definition bind {A B : Type} (r : Result A) (k : A -> Result B) : Result B :=
  match r with
  | Ok a => k a
  | Crash f => Crash f
  end.

(** ** Error codes of <cerrno> (newlib values; only their being distinct and
    non-zero matters) *)

Module Errno.
Definition EBADF : Z := 9.
Definition EBUSY : Z := 16.
Definition EINVAL : Z := 22.
Definition ENOTSUP : Z := 134.
End Errno.
Import Errno.

(** ** Register bit definitions

    The CMSIS device header that defines the [SPI_CR1_*], [SPI_CR2_*] and
    [SPI_SR_*] macros is not part of the sources; the values below are the
    ones of the STM32 SPIv2 peripheral (reference manual, SPI registers). *)

Module Cmsis.
Definition SPI_CR1_CPHA_Pos : Z := 0.
Definition SPI_CR1_CPOL_Pos : Z := 1.
Definition SPI_CR1_BR_Pos : Z := 3.
Definition SPI_CR1_LSBFIRST_Pos : Z := 7.
Definition SPI_CR1_CPHA : Z := Z.shiftl 1 SPI_CR1_CPHA_Pos.
Definition SPI_CR1_CPOL : Z := Z.shiftl 1 SPI_CR1_CPOL_Pos.
Definition SPI_CR1_MSTR : Z := Z.shiftl 1 2.
Definition SPI_CR1_BR : Z := Z.shiftl 7 SPI_CR1_BR_Pos.
Definition SPI_CR1_SPE : Z := Z.shiftl 1 6.
Definition SPI_CR1_LSBFIRST : Z := Z.shiftl 1 SPI_CR1_LSBFIRST_Pos.
Definition SPI_CR1_SSI : Z := Z.shiftl 1 8.
Definition SPI_CR1_SSM : Z := Z.shiftl 1 9.

Definition SPI_CR2_RXDMAEN : Z := Z.shiftl 1 0.
Definition SPI_CR2_TXDMAEN : Z := Z.shiftl 1 1.
Definition SPI_CR2_ERRIE : Z := Z.shiftl 1 5.
Definition SPI_CR2_RXNEIE : Z := Z.shiftl 1 6.
Definition SPI_CR2_TXEIE : Z := Z.shiftl 1 7.
Definition SPI_CR2_DS_Pos : Z := 8.
Definition SPI_CR2_DS : Z := Z.shiftl 15 SPI_CR2_DS_Pos.
Definition SPI_CR2_FRXTH_Pos : Z := 12.
Definition SPI_CR2_FRXTH : Z := Z.shiftl 1 SPI_CR2_FRXTH_Pos.

Definition SPI_SR_RXNE : Z := Z.shiftl 1 0.
Definition SPI_SR_TXE : Z := Z.shiftl 1 1.
Definition SPI_SR_OVR : Z := Z.shiftl 1 6.
Definition SPI_SR_BSY : Z := Z.shiftl 1 7.
End Cmsis.
Import Cmsis.

(** ** Shared types of the SPI master drivers *)

(** [devices::SpiMode] *)
Inductive SpiMode : Type :=
| cpol0cpha0
| cpol0cpha1
| cpol1cpha0
| cpol1cpha1.

(** A [devices::SpiMasterBase] object is identified by its address. *)
Definition SpiMasterBase : Type := nat.

(** Byte-addressed memory holding the caller's buffers. *)
Definition Memory : Type := Z -> Z.

Definition store (m : Memory) (address value : Z) : Memory :=
  fun a => if a =? address then u8 value else m a.

(** What a driver does to the outside while it runs: writes to the SPI data
    register (8-bit or 16-bit access) and the call of the observer. *)
Inductive Event : Type :=
| WriteDr8 (value : Z)
| WriteDr16 (value : Z)
| TransferCompleteEvent (spiMasterBase : SpiMasterBase) (bytesTransfered : Z).

(** ** The interrupt-based driver: [ChipSpiMasterLowLevel] *)

Module ChipSpiMasterLowLevel.

(** Word length limits.  The class header is not part of the sources; the
    values are the ones documented at [getWordLength] ("bits, [4; 16]"). *)
Definition minWordLength : Z := 4.
Definition maxWordLength : Z := 16.

(** The driver object together with the registers of its SPI peripheral
    that the driver writes ([CR1], [CR2]) and the peripheral's clock. *)
Record t : Type := mk {
  CR1 : Z;
  CR2 : Z;
  peripheralFrequency : Z;
  spiMasterBase_ : option SpiMasterBase;
  readBuffer_ : option Z;
  writeBuffer_ : option Z;
  size_ : Z;
  readPosition_ : Z;
  writePosition_ : Z;
  dummyData_ : Z;
  started_ : bool
}.

(** What the peripheral presents when the handler reads [SR] and [DR]. *)
Record Hardware : Type := mkHardware {
  SR : Z;
  DR : Z
}.

(** A freshly constructed driver for a peripheral clocked at
    [frequency]. *)
Definition constructed (frequency : Z) : t :=
  mk 0 0 frequency None None None 0 0 0 0 false.

Definition getWordLength (cr2 : Z) : Z :=
  u8 (Z.shiftr (Z.land (u16 cr2) SPI_CR2_DS) SPI_CR2_DS_Pos + 1).

(** Modelled from the spec: the class header with the inline members
    [isStarted] and [isTransferInProgress] is not part of the sources.
    Section 3, the lifecycle: the driver is started from [start] to [stop]
    (the flag [started_] that these two write), and busy from a successful
    [startTransfer] until the completion has cleared the transfer state.
    [startTransfer] stores the non-zero size in [size_] and the completion
    resets it, so a transfer is in progress exactly while [size_] is
    non-zero; the observer pointer is set and cleared at the same places
    (see [coherent]), so testing it instead gives the same answers. *)
Definition isStarted (s : t) : bool := started_ s.
Definition isTransferInProgress (s : t) : bool := negb (size_ s =? 0).

(** The bit-rate field [br] computed from the clock divider. *)
Definition bitRate (divider : Z) : Z :=
  if divider <=? 2 then 0 else 31 - builtin_clz (divider - 1).

Definition configure (s : t) (mode : SpiMode) (clockFrequency wordLength : Z)
    (lsbFirst : bool) (dummyData : Z) : Result (Z * Z * t) :=
  if (wordLength <? minWordLength) || (maxWordLength <? wordLength) then
    Ok (EINVAL, 0, s)
  else if negb (isStarted s) then
    Ok (EBADF, 0, s)
  else if isTransferInProgress s then
    Ok (EBUSY, 0, s)
  else
    let peripheralFrequency := peripheralFrequency s in
    if clockFrequency =? 0 then Crash DivisionByZero else
    let divider := u32 (peripheralFrequency + clockFrequency - 1) / clockFrequency in
    if 256 <? divider then
      Ok (EINVAL, 0, s)
    else
      let br := bitRate divider in
      let cpol := match mode with cpol1cpha0 | cpol1cpha1 => true | _ => false end in
      let cpha := match mode with cpol0cpha1 | cpol1cpha1 => true | _ => false end in
      let cr1 :=
        Z.lor (Z.lor (Z.lor (Z.lor
          (clearBits (CR1 s)
             (Z.lor (Z.lor (Z.lor SPI_CR1_LSBFIRST SPI_CR1_BR) SPI_CR1_CPOL) SPI_CR1_CPHA))
          (Z.shiftl (Z_of_bool lsbFirst) SPI_CR1_LSBFIRST_Pos))
          (Z.shiftl br SPI_CR1_BR_Pos))
          (Z.shiftl (Z_of_bool cpol) SPI_CR1_CPOL_Pos))
          (Z.shiftl (Z_of_bool cpha) SPI_CR1_CPHA_Pos) in
      let cr2 :=
        Z.lor (Z.lor
          (clearBits (CR2 s) (Z.lor SPI_CR2_FRXTH SPI_CR2_DS))
          (Z.shiftl (Z_of_bool (wordLength <=? 8)) SPI_CR2_FRXTH_Pos))
          (Z.shiftl (wordLength - 1) SPI_CR2_DS_Pos) in
      Ok (0, peripheralFrequency / Z.shiftl 1 (br + 1),
          mk cr1 cr2 peripheralFrequency (spiMasterBase_ s) (readBuffer_ s)
             (writeBuffer_ s) (size_ s) (readPosition_ s) (writePosition_ s)
             dummyData (started_ s)).

Definition start (s : t) : Z * t :=
  if isStarted s then (EBADF, s)
  else
    (0, mk (Z.lor (Z.lor (Z.lor (Z.lor SPI_CR1_SSM SPI_CR1_SSI) SPI_CR1_SPE)
                     SPI_CR1_BR) SPI_CR1_MSTR)
           (Z.lor SPI_CR2_FRXTH (Z.shiftl (8 - 1) SPI_CR2_DS_Pos))
           (peripheralFrequency s) (spiMasterBase_ s) (readBuffer_ s)
           (writeBuffer_ s) (size_ s) (readPosition_ s) (writePosition_ s)
           (dummyData_ s) true).

Definition startTransfer (s : t) (spiMasterBase : SpiMasterBase)
    (writeBuffer readBuffer : option Z) (size : Z) : Z * t :=
  if size =? 0 then (EINVAL, s)
  else if negb (isStarted s) then (EBADF, s)
  else if isTransferInProgress s then (EBUSY, s)
  else if negb (size mod ((getWordLength (CR2 s) + 8 - 1) / 8) =? 0) then (EINVAL, s)
  else
    (0, mk (CR1 s)
           (setBits (CR2 s) (Z.lor (Z.lor SPI_CR2_TXEIE SPI_CR2_RXNEIE) SPI_CR2_ERRIE))
           (peripheralFrequency s) (Some spiMasterBase) readBuffer writeBuffer
           size 0 0 (dummyData_ s) (started_ s)).

Definition stop (s : t) : Z * t :=
  if negb (isStarted s) then (EBADF, s)
  else if isTransferInProgress s then (EBUSY, s)
  else
    (0, mk 0 0 (peripheralFrequency s) (spiMasterBase_ s) (readBuffer_ s)
           (writeBuffer_ s) (size_ s) (readPosition_ s) (writePosition_ s)
           (dummyData_ s) false).

(** Field updates used by the interrupt handler. *)
Definition set_CR2 (s : t) (cr2 : Z) : t :=
  mk (CR1 s) cr2 (peripheralFrequency s) (spiMasterBase_ s) (readBuffer_ s)
     (writeBuffer_ s) (size_ s) (readPosition_ s) (writePosition_ s)
     (dummyData_ s) (started_ s).
Definition set_readPosition (s : t) (readPosition : Z) : t :=
  mk (CR1 s) (CR2 s) (peripheralFrequency s) (spiMasterBase_ s) (readBuffer_ s)
     (writeBuffer_ s) (size_ s) readPosition (writePosition_ s)
     (dummyData_ s) (started_ s).
Definition set_writePosition (s : t) (writePosition : Z) : t :=
  mk (CR1 s) (CR2 s) (peripheralFrequency s) (spiMasterBase_ s) (readBuffer_ s)
     (writeBuffer_ s) (size_ s) (readPosition_ s) writePosition
     (dummyData_ s) (started_ s).

(** The driver, the memory with the caller's buffers, and what happened so
    far (oldest first). *)
Definition World : Type := (t * Memory * list Event)%type.

(** The body of an observer's virtual [transferCompleteEvent]: it runs in
    the middle of the handler and may call back into the driver. *)
Definition Callback : Type := SpiMasterBase -> Z -> World -> Result World.

(** An observer that only takes note of the event. *)
Definition passive : Callback := fun _ _ w => Ok w.

(** The read branch stores the received word into the read buffer, if there
    is one, low byte first; it returns the advanced read position. *)
Definition storeWord (s : t) (memory : Memory) (wordLength word : Z) : Z * Memory :=
  match readBuffer_ s with
  | Some readBuffer =>
      let memory := store memory (readBuffer + readPosition_ s) word in
      let readPosition := size_t (readPosition_ s + 1) in
      if 8 <? wordLength then
        (size_t (readPosition + 1),
         store memory (readBuffer + readPosition) (Z.shiftr word 8))
      else
        (readPosition, memory)
  | None =>
      (size_t (readPosition_ s + (wordLength + 8 - 1) / 8), memory)
  end.

(** The write branch takes the next word from the write buffer, if there is
    one, low byte first, and the dummy data otherwise; it returns the
    advanced write position and the word. *)
Definition loadWord (s : t) (memory : Memory) (wordLength : Z) : Z * Z :=
  match writeBuffer_ s with
  | Some writeBuffer =>
      let characterLow := u8 (memory (writeBuffer + writePosition_ s)) in
      let writePosition := size_t (writePosition_ s + 1) in
      if 8 <? wordLength then
        let characterHigh := u8 (memory (writeBuffer + writePosition)) in
        (size_t (writePosition + 1),
         u16 (Z.lor characterLow (Z.shiftl characterHigh 8)))
      else
        (writePosition, u16 (Z.lor characterLow (Z.shiftl 0 8)))
  | None =>
      (size_t (writePosition_ s + (wordLength + 8 - 1) / 8), u16 (dummyData_ s))
  end.

(** The three-way branch of the handler on the status flags; returns the
    local [done] next to the updated world. *)
Definition interruptHandlerBranch (w : World) (hw : Hardware) : bool * World :=
  let '(s, memory, events) := w in
  let sr := SR hw in
  let cr2 := CR2 s in
  let wordLength := getWordLength cr2 in
  if flagSet sr SPI_SR_OVR && flagSet cr2 SPI_CR2_ERRIE then
    (* overrun error: DR and SR are read, which clears OVR *)
    let s := set_CR2 s (clearBits (CR2 s) SPI_CR2_TXEIE) in
    (negb (flagSet sr SPI_SR_BSY), (s, memory, events))
  else if flagSet sr SPI_SR_RXNE && flagSet cr2 SPI_CR2_RXNEIE then
    let word := if wordLength <=? 8 then u16 (u8 (DR hw)) else u16 (DR hw) in
    let '(readPosition, memory) := storeWord s memory wordLength word in
    let s := set_readPosition s readPosition in
    if readPosition =? size_ s then
      (true, (s, memory, events))
    else
      (false, (set_CR2 s (setBits (CR2 s) SPI_CR2_TXEIE), memory, events))
  else if flagSet sr SPI_SR_TXE && flagSet cr2 SPI_CR2_TXEIE then
    let '(writePosition, word) := loadWord s memory wordLength in
    let s := set_writePosition s writePosition in
    let write := if wordLength <=? 8 then WriteDr8 (u8 word) else WriteDr16 word in
    (false, (set_CR2 s (clearBits (CR2 s) SPI_CR2_TXEIE), memory, events ++ [write]))
  else
    (false, w).

(** The tail of the handler, run when [done]: the driver's state at the
    moment the observer is called is the world handed to [callback]. *)
Definition transferFinished (callback : Callback) (w : World) : Result World :=
  let '(s, memory, events) := w in
  let cr2 :=
    clearBits (CR2 s) (Z.lor (Z.lor SPI_CR2_TXEIE SPI_CR2_RXNEIE) SPI_CR2_ERRIE) in
  let bytesTransfered := readPosition_ s in
  let spiMasterBase := spiMasterBase_ s in
  let s :=
    mk (CR1 s) cr2 (peripheralFrequency s) None None None 0 0 0
       (dummyData_ s) (started_ s) in
  match spiMasterBase with
  | None => Crash AssertionFailed
  | Some spiMasterBase =>
      callback spiMasterBase bytesTransfered
        (s, memory, events ++ [TransferCompleteEvent spiMasterBase bytesTransfered])
  end.

Definition interruptHandler (callback : Callback) (w : World) (hw : Hardware)
    : Result World :=
  let '(done, w) := interruptHandlerBranch w hw in
  if done then transferFinished callback w else Ok w.

(** The platform's interrupt dispatcher calls the handler once per
    interrupt; [interrupts] lists what the peripheral presents each
    time. *)
Fixpoint run (callback : Callback) (w : World) (interrupts : list Hardware)
    : Result World :=
  match interrupts with
  | [] => Ok w
  | hw :: interrupts =>
      bind (interruptHandler callback w hw) (fun w => run callback w interrupts)
  end.

(** The observer calls recorded in a list of events. *)
Definition isTransferCompleteEvent (e : Event) : bool :=
  match e with
  | TransferCompleteEvent _ _ => true
  | _ => false
  end.
Definition transferCompleteEvents (events : list Event) : list Event :=
  filter isTransferCompleteEvent events.

(** [size_] and the observer pointer are set and cleared together. *)
Definition coherent (s : t) : Prop :=
  size_ s = 0 <-> spiMasterBase_ s = None.

(** The data size in bytes of the configured word length, and the states in
    which the handler ignores every interrupt. *)
Definition dataSize (s : t) : Z := (getWordLength (CR2 s) + 8 - 1) / 8.

Definition quiet (s : t) : Prop :=
  size_ s = 0 /\
  flagSet (CR2 s) SPI_CR2_ERRIE = false /\
  flagSet (CR2 s) SPI_CR2_RXNEIE = false /\
  flagSet (CR2 s) SPI_CR2_TXEIE = false.

(** The halfwords the peripheral hands over in a series of interrupts (the
    data register at each interrupt that has RXNE set), the series without
    overrun, and the memory after halfwords were stored from [address] on,
    low byte first. *)
Definition received (interrupts : list Hardware) : list Z :=
  map (fun hw => u16 (DR hw)) (filter (fun hw => flagSet (SR hw) SPI_SR_RXNE) interrupts).

Definition noOverrun (interrupts : list Hardware) : bool :=
  forallb (fun hw => negb (flagSet (SR hw) SPI_SR_OVR)) interrupts.

Fixpoint storeHalfwords (memory : Memory) (address : Z) (words : list Z) : Memory :=
  match words with
  | [] => memory
  | word :: words =>
      storeHalfwords
        (store (store memory address word) (address + 1) (Z.shiftr word 8))
        (address + 2) words
  end.

(** The states of a transfer of [count] halfwords into the buffer at
    [readBuffer] after [done] of them were received. *)
Definition reading (spiMasterBase : SpiMasterBase) (readBuffer count done : Z) (s : t)
    : Prop :=
  spiMasterBase_ s = Some spiMasterBase /\ size_ s = 2 * count /\
  readBuffer_ s = Some readBuffer /\ readPosition_ s = 2 * done /\
  8 < getWordLength (CR2 s) /\ flagSet (CR2 s) SPI_CR2_RXNEIE = true /\
  0 <= done < count /\ 2 * count < SIZE_MODULUS.

(** A driver on an 80 MHz peripheral clock after [start], and after a
    following [configure] to 10 MHz with the given word length. *)
Definition exampleStarted : t := snd (start (constructed 80000000)).

Definition exampleConfigured (wordLength : Z) : t :=
  match configure exampleStarted cpol0cpha0 10000000 wordLength false 54549 with
  | Ok (_, _, s) => s
  | Crash _ => exampleStarted
  end.

(** The interrupts of a full-duplex transfer in which the peripheral hands
    over [words]: before each word a TXE interrupt, then the RXNE interrupt
    with the word in the data register. *)
Definition duplex (words : list Z) : list Hardware :=
  flat_map (fun word => [mkHardware SPI_SR_TXE 0; mkHardware SPI_SR_RXNE word]) words.

(** The same driver with a transfer started for the observer at address 1,
    and a memory of zeros. *)
Definition exampleTransfer (wordLength : Z) (writeBuffer readBuffer : option Z) (size : Z)
    : t :=
  snd (startTransfer (exampleConfigured wordLength) 1%nat writeBuffer readBuffer size).

Definition zeroMemory : Memory := fun _ => 0.

(** *** Transfers of words of either size

    [wide] says that the configured word length exceeds 8 bits, so that a
    word takes two bytes of a buffer and is moved with a 16-bit access. *)
Definition bytesPerWord (wide : bool) : Z := if wide then 2 else 1.

(** The word the read branch of the handler takes from the data register. *)
Definition wordRead (wide : bool) (hw : Hardware) : Z :=
  if wide then u16 (DR hw) else u16 (u8 (DR hw)).

(** The words handed over in a series of interrupts: one at each interrupt
    that has RXNE set. *)
Definition receivedWords (wide : bool) (interrupts : list Hardware) : list Z :=
  map (wordRead wide) (filter (fun hw => flagSet (SR hw) SPI_SR_RXNE) interrupts).

(** The memory after [words] were stored from [address] on, low byte
    first. *)
Fixpoint storeWords (wide : bool) (memory : Memory) (address : Z) (words : list Z)
    : Memory :=
  match words with
  | [] => memory
  | word :: words =>
      if wide then
        storeWords wide
          (store (store memory address word) (address + 1) (Z.shiftr word 8))
          (address + 2) words
      else
        storeWords wide (store memory address word) (address + 1) words
  end.

(** The memory after [words] were received as the words number [done],
    [done + 1], ... of a transfer: stored into the read buffer, or dropped
    when there is none. *)
Definition storeReceived (wide : bool) (memory : Memory) (readBuffer : option Z)
    (done : Z) (words : list Z) : Memory :=
  match readBuffer with
  | Some readBuffer => storeWords wide memory (readBuffer + bytesPerWord wide * done) words
  | None => memory
  end.

(** The states of a transfer of [count] words for the observer
    [spiMasterBase] with the given buffers after [done] of the words were
    received. *)
Definition exchanging (spiMasterBase : SpiMasterBase) (writeBuffer readBuffer : option Z)
    (dummyData : Z) (wide : bool) (count done : Z) (s : t) : Prop :=
  spiMasterBase_ s = Some spiMasterBase /\
  writeBuffer_ s = writeBuffer /\ readBuffer_ s = readBuffer /\
  dummyData_ s = dummyData /\
  (8 <? getWordLength (CR2 s)) = wide /\
  size_ s = bytesPerWord wide * count /\
  readPosition_ s = bytesPerWord wide * done /\
  flagSet (CR2 s) SPI_CR2_RXNEIE = true /\
  flagSet (CR2 s) SPI_CR2_ERRIE = true /\
  0 <= done < count /\ bytesPerWord wide * count < SIZE_MODULUS.

(** The end of a transfer of [count] words as the hardware brings it
    about, after [received] of the words were handed over: the transfer
    ends with the interrupt that hands over its last word, or with an
    overrun error that finds the peripheral no longer busy (an overrun
    error discards what the data register holds).  [completion] is the
    number of words received when the transfer ends, if it ends in
    [interrupts]. *)
Fixpoint completion (count received : Z) (interrupts : list Hardware) : option Z :=
  match interrupts with
  | [] => None
  | hw :: interrupts =>
      if flagSet (SR hw) SPI_SR_OVR then
        if flagSet (SR hw) SPI_SR_BSY then completion count received interrupts
        else Some received
      else if flagSet (SR hw) SPI_SR_RXNE then
        if received + 1 =? count then Some count
        else completion count (received + 1) interrupts
      else completion count received interrupts
  end.

(** The access to the data register that sends word number [index] of a
    transfer: the word of the write buffer, low byte first, or the dummy
    data when there is no write buffer. *)
Definition expectedWrite (wide : bool) (memory : Memory) (writeBuffer : option Z)
    (dummyData : Z) (index : Z) : Event :=
  if wide then
    WriteDr16
      match writeBuffer with
      | Some writeBuffer =>
          u8 (memory (writeBuffer + 2 * index))
          + 256 * u8 (memory (writeBuffer + 2 * index + 1))
      | None => u16 dummyData
      end
  else
    WriteDr8
      match writeBuffer with
      | Some writeBuffer => u8 (memory (writeBuffer + index))
      | None => u8 dummyData
      end.

(** The accesses that send the words number [first], [first + 1], ... *)
Fixpoint expectedWrites (wide : bool) (memory : Memory) (writeBuffer : option Z)
    (dummyData : Z) (first : Z) (words : nat) : list Event :=
  match words with
  | O => []
  | S words =>
      expectedWrite wide memory writeBuffer dummyData first
      :: expectedWrites wide memory writeBuffer dummyData (first + 1) words
  end.

(** The accesses to the data register recorded in a list of events. *)
Definition dataRegisterWrites (events : list Event) : list Event :=
  filter (fun e => negb (isTransferCompleteEvent e)) events.

(** A write buffer from which the words still to be sent are not
    overwritten by the words received before them: it starts at or after
    the read buffer (both may be the same buffer), or it ends before it. *)
Definition sendable (writeBuffer readBuffer : option Z) (size : Z) : Prop :=
  match writeBuffer, readBuffer with
  | Some writeBuffer, Some readBuffer =>
      readBuffer <= writeBuffer \/ writeBuffer + size <= readBuffer
  | _, _ => True
  end.

(** The two buffers of [size] bytes do not overlap. *)
Definition separate (writeBuffer readBuffer : option Z) (size : Z) : Prop :=
  match writeBuffer, readBuffer with
  | Some writeBuffer, Some readBuffer =>
      writeBuffer + size <= readBuffer \/ readBuffer + size <= writeBuffer
  | _, _ => True
  end.

(** [memory] still holds in the write buffer of [count] words what
    [memory0] held there. *)
Definition unwritten (writeBuffer : option Z) (wide : bool) (count : Z)
    (memory0 memory : Memory) : Prop :=
  forall buffer a,
    writeBuffer = Some buffer ->
    buffer <= a < buffer + bytesPerWord wide * count ->
    memory a = memory0 a.

(** The read buffer of [size] bytes does not contain the address [a]. *)
Definition outside (readBuffer : option Z) (size a : Z) : Prop :=
  match readBuffer with
  | Some readBuffer => a < readBuffer \/ readBuffer + size <= a
  | None => True
  end.

End ChipSpiMasterLowLevel.

(** ** The DMA channel driver: [DmaChannel] and [DmaChannel::UniqueHandle] *)

Module DmaChannel.

(** [enum class DmaChannelFlags : uint32_t] *)
Module Flags.
Definition transferCompleteInterruptDisable : Z := Z.shiftl 0 4.
Definition transferCompleteInterruptEnable : Z := Z.shiftl 1 4.
Definition dmaFlowController : Z := Z.shiftl 0 5.
Definition peripheralFlowController : Z := Z.shiftl 1 5.
Definition peripheralToMemory : Z := Z.shiftl 0 6.
Definition memoryToPeripheral : Z := Z.shiftl 1 6.
Definition peripheralFixed : Z := Z.shiftl 0 9.
Definition peripheralIncrement : Z := Z.shiftl 1 9.
Definition memoryFixed : Z := Z.shiftl 0 10.
Definition memoryIncrement : Z := Z.shiftl 1 10.
Definition peripheralDataSize1 : Z := Z.shiftl 0 11.
Definition peripheralDataSize2 : Z := Z.shiftl 1 11.
Definition peripheralDataSize4 : Z := Z.shiftl 2 11.
Definition memoryDataSize1 : Z := Z.shiftl 0 13.
Definition memoryDataSize2 : Z := Z.shiftl 1 13.
Definition memoryDataSize4 : Z := Z.shiftl 2 13.
Definition lowPriority : Z := Z.shiftl 0 16.
Definition mediumPriority : Z := Z.shiftl 1 16.
Definition highPriority : Z := Z.shiftl 2 16.
Definition veryHighPriority : Z := Z.shiftl 3 16.
Definition peripheralBurstSize1 : Z := Z.shiftl 0 21.
Definition peripheralBurstSize4 : Z := Z.shiftl 1 21.
Definition peripheralBurstSize8 : Z := Z.shiftl 2 21.
Definition peripheralBurstSize16 : Z := Z.shiftl 3 21.
Definition memoryBurstSize1 : Z := Z.shiftl 0 23.
Definition memoryBurstSize4 : Z := Z.shiftl 1 23.
Definition memoryBurstSize8 : Z := Z.shiftl 2 23.
Definition memoryBurstSize16 : Z := Z.shiftl 3 23.
Definition dataSize1 : Z := Z.lor peripheralDataSize1 memoryDataSize1.
Definition dataSize2 : Z := Z.lor peripheralDataSize2 memoryDataSize2.
Definition dataSize4 : Z := Z.lor peripheralDataSize4 memoryDataSize4.
Definition burstSize1 : Z := Z.lor peripheralBurstSize1 memoryBurstSize1.
Definition burstSize4 : Z := Z.lor peripheralBurstSize4 memoryBurstSize4.
Definition burstSize8 : Z := Z.lor peripheralBurstSize8 memoryBurstSize8.
Definition burstSize16 : Z := Z.lor peripheralBurstSize16 memoryBurstSize16.
End Flags.

(** The [DmaChannelFunctor] objects a channel can notify: the two member
    functors of the DMA-based SPI driver, or the functor of some other
    user of the channel. *)
Inductive DmaChannelFunctor : Type :=
| RxDmaChannelFunctor
| TxDmaChannelFunctor
| OtherFunctor (address : nat).

(** The channel object ([functor_], [request_]) together with the state of
    its raw channel peripheral: whether a transfer is active, the
    remaining-transactions counter and the programmed parameters. *)
Record t : Type := mk {
  functor_ : option DmaChannelFunctor;
  request_ : Z;
  enabled : bool;
  transactionsLeft : Z;
  memoryAddress : Z;
  peripheralAddress : Z;
  flags : Z
}.

(** constexpr constructor: [functor_{}], [request_{}] on an idle channel *)
Definition constructed : t := mk None 0 false 0 0 0 0.

Definition maxRequest : Z := 15.

(** Data and burst sizes encoded in the flags. *)
Definition peripheralDataSize (flags : Z) : Z :=
  Z.shiftl 1 (Z.land (Z.shiftr flags 11) 3).
Definition memoryDataSize (flags : Z) : Z :=
  Z.shiftl 1 (Z.land (Z.shiftr flags 13) 3).
Definition burstBeats (field : Z) : Z :=
  if field =? 0 then 1 else Z.shiftl 2 field.
Definition peripheralBurstSize (flags : Z) : Z :=
  burstBeats (Z.land (Z.shiftr flags 21) 3).
Definition memoryBurstSize (flags : Z) : Z :=
  burstBeats (Z.land (Z.shiftr flags 23) 3).

(** Modelled from the spec: the implementation file of [DmaChannel]
    ([reserve], [release], [configureTransfer], [getTransactionsLeft],
    [startTransfer], [stopTransfer]) is not part of the sources; only
    their declarations and documented error codes are.  Section 4.1:
    "[reserve] fails if the channel is already reserved (busy) or the
    request id is out of range.  A successful reservation stores the
    observer and request id into the channel.  [release] clears both." *)
Definition reserve (c : t) (request : Z) (functor : DmaChannelFunctor) : Z * t :=
  match functor_ c with
  | Some _ => (EBUSY, c)
  | None =>
      if maxRequest <? request then (EINVAL, c)
      else
        (0, mk (Some functor) request (enabled c) (transactionsLeft c)
               (memoryAddress c) (peripheralAddress c) (flags c))
  end.

Definition release (c : t) : t :=
  mk None 0 (enabled c) (transactionsLeft c) (memoryAddress c)
     (peripheralAddress c) (flags c).

(** Modelled from the spec (the header documents the error codes: [EBUSY],
    transfer is in progress; [EINVAL], an argument is invalid; [ENOTSUP],
    more than 65535 transactions are not supported).  Section 4.1: "fails
    with transfer in progress
    if a transfer is active; fails with invalid argument if memoryAddress
    is not aligned to (memoryDataSize x memoryBurstSize, capped at 16
    bytes), or peripheralAddress is not aligned to (peripheralDataSize x
    peripheralBurstSize), or transactions = 0; fails with unsupported if
    transactions > 65535; otherwise stores the parameters into the
    channel's control registers without starting it." *)
Definition configureTransfer (c : t) (memoryAddress peripheralAddress transactions
    flags : Z) : Z * t :=
  if enabled c then (EBUSY, c)
  else if negb (memoryAddress mod
                  Z.min (memoryDataSize flags * memoryBurstSize flags) 16 =? 0)
          || negb (peripheralAddress mod
                     (peripheralDataSize flags * peripheralBurstSize flags) =? 0)
          || (transactions =? 0) then
    (EINVAL, c)
  else if 65535 <? transactions then (ENOTSUP, c)
  else
    (0, mk (functor_ c) (request_ c) false transactions memoryAddress
           peripheralAddress flags).

(** Modelled from the spec: "returns the current value of the hardware
    remaining-transactions counter". *)
Definition getTransactionsLeft (c : t) : Z := transactionsLeft c.

(** Modelled from the spec: "[startTransfer] enables the channel; fails
    with busy if already running.  [stopTransfer] is idempotent: disables
    the channel and clears pending flags." *)
Definition startTransfer (c : t) : Z * t :=
  if enabled c then (EBUSY, c)
  else
    (0, mk (functor_ c) (request_ c) true (transactionsLeft c) (memoryAddress c)
           (peripheralAddress c) (flags c)).

Definition stopTransfer (c : t) : t :=
  mk (functor_ c) (request_ c) false (transactionsLeft c) (memoryAddress c)
     (peripheralAddress c) (flags c).

(** The [DmaChannel] objects of the chip, found through their address.
    Drivers hold references into this store and may share channels. *)
Definition Channels : Type := nat -> t.

Definition update (channels : Channels) (channel : nat) (c : t) : Channels :=
  fun i => if Nat.eqb i channel then c else channels i.

(** [DmaChannel::UniqueHandle]: [channel_] points to the reserved channel
    or is null. *)
Module UniqueHandle.

Record t : Type := mk { channel_ : option nat }.

Definition constructed : t := mk None.

Definition configureTransfer (h : t) (channels : Channels)
    (memoryAddress peripheralAddress transactions flags : Z) : Z * Channels :=
  match channel_ h with
  | None => (EBADF, channels)
  | Some channel =>
      let '(ret, c) :=
        DmaChannel.configureTransfer (channels channel) memoryAddress
          peripheralAddress transactions flags in
      (ret, update channels channel c)
  end.

Definition getTransactionsLeft (h : t) (channels : Channels) : Z * Z :=
  match channel_ h with
  | None => (EBADF, 0)
  | Some channel => (0, DmaChannel.getTransactionsLeft (channels channel))
  end.

Definition release (h : t) (channels : Channels) : t * Channels :=
  match channel_ h with
  | None => (h, channels)
  | Some channel =>
      (mk None, update channels channel (DmaChannel.release (channels channel)))
  end.

Definition reserve (h : t) (channels : Channels) (channel : nat) (request : Z)
    (functor : DmaChannelFunctor) : Z * t * Channels :=
  let '(h, channels) := release h channels in
  let '(ret, c) := DmaChannel.reserve (channels channel) request functor in
  let channels := update channels channel c in
  if negb (ret =? 0) then (ret, h, channels)
  else (0, mk (Some channel), channels).

Definition startTransfer (h : t) (channels : Channels) : Z * Channels :=
  match channel_ h with
  | None => (EBADF, channels)
  | Some channel =>
      let '(ret, c) := DmaChannel.startTransfer (channels channel) in
      (ret, update channels channel c)
  end.

Definition stopTransfer (h : t) (channels : Channels) : Z * Channels :=
  match channel_ h with
  | None => (EBADF, channels)
  | Some channel =>
      (0, update channels channel (DmaChannel.stopTransfer (channels channel)))
  end.

End UniqueHandle.

End DmaChannel.

(** ** The DMA-based driver: [SpiMasterLowLevelDmaBased] *)

Module SpiMasterLowLevelDmaBased.

Import DmaChannel.

(** The raw SPI peripheral as the driver uses it: [writeCr1], [writeCr2]
    and [getDrAddress]. *)
Record SpiPeripheral : Type := mkSpiPeripheral {
  CR1 : Z;
  CR2 : Z;
  drAddress : Z
}.

Definition writeCr1 (p : SpiPeripheral) (cr1 : Z) : SpiPeripheral :=
  mkSpiPeripheral cr1 (CR2 p) (drAddress p).
Definition writeCr2 (p : SpiPeripheral) (cr2 : Z) : SpiPeripheral :=
  mkSpiPeripheral (CR1 p) cr2 (drAddress p).

(** The driver object.  [rxDmaChannel_] and [txDmaChannel_] are references
    into the store of channels; [rxDummyDataAddress] and
    [txDummyDataAddress] stand for [&rxDummyData_] and [&txDummyData_]. *)
Record t : Type := mk {
  spiPeripheral_ : SpiPeripheral;
  rxDmaChannel_ : nat;
  rxDmaRequest_ : Z;
  txDmaChannel_ : nat;
  txDmaRequest_ : Z;
  rxDmaChannelUniqueHandle_ : UniqueHandle.t;
  txDmaChannelUniqueHandle_ : UniqueHandle.t;
  spiMasterBase_ : option SpiMasterBase;
  size_ : Z;
  rxDummyDataAddress : Z;
  txDummyDataAddress : Z;
  txDummyData_ : Z;
  wordLength_ : Z;
  started_ : bool
}.

Definition constructed (drAddress : Z) (rxDmaChannel : nat) (rxDmaRequest : Z)
    (txDmaChannel : nat) (txDmaRequest : Z) (rxDummyDataAddress txDummyDataAddress : Z)
    : t :=
  mk (mkSpiPeripheral 0 0 drAddress) rxDmaChannel rxDmaRequest txDmaChannel
     txDmaRequest UniqueHandle.constructed UniqueHandle.constructed None 0
     rxDummyDataAddress txDummyDataAddress 0 0 false.

(** Field updates. *)
Definition set_spiPeripheral (s : t) (p : SpiPeripheral) : t :=
  mk p (rxDmaChannel_ s) (rxDmaRequest_ s) (txDmaChannel_ s) (txDmaRequest_ s)
     (rxDmaChannelUniqueHandle_ s) (txDmaChannelUniqueHandle_ s) (spiMasterBase_ s)
     (size_ s) (rxDummyDataAddress s) (txDummyDataAddress s) (txDummyData_ s)
     (wordLength_ s) (started_ s).
Definition set_rxDmaChannelUniqueHandle (s : t) (h : UniqueHandle.t) : t :=
  mk (spiPeripheral_ s) (rxDmaChannel_ s) (rxDmaRequest_ s) (txDmaChannel_ s)
     (txDmaRequest_ s) h (txDmaChannelUniqueHandle_ s) (spiMasterBase_ s)
     (size_ s) (rxDummyDataAddress s) (txDummyDataAddress s) (txDummyData_ s)
     (wordLength_ s) (started_ s).
Definition set_txDmaChannelUniqueHandle (s : t) (h : UniqueHandle.t) : t :=
  mk (spiPeripheral_ s) (rxDmaChannel_ s) (rxDmaRequest_ s) (txDmaChannel_ s)
     (txDmaRequest_ s) (rxDmaChannelUniqueHandle_ s) h (spiMasterBase_ s)
     (size_ s) (rxDummyDataAddress s) (txDummyDataAddress s) (txDummyData_ s)
     (wordLength_ s) (started_ s).
Definition set_spiMasterBase (s : t) (o : option SpiMasterBase) : t :=
  mk (spiPeripheral_ s) (rxDmaChannel_ s) (rxDmaRequest_ s) (txDmaChannel_ s)
     (txDmaRequest_ s) (rxDmaChannelUniqueHandle_ s) (txDmaChannelUniqueHandle_ s) o
     (size_ s) (rxDummyDataAddress s) (txDummyDataAddress s) (txDummyData_ s)
     (wordLength_ s) (started_ s).
Definition set_size (s : t) (size : Z) : t :=
  mk (spiPeripheral_ s) (rxDmaChannel_ s) (rxDmaRequest_ s) (txDmaChannel_ s)
     (txDmaRequest_ s) (rxDmaChannelUniqueHandle_ s) (txDmaChannelUniqueHandle_ s)
     (spiMasterBase_ s) size (rxDummyDataAddress s) (txDummyDataAddress s)
     (txDummyData_ s) (wordLength_ s) (started_ s).
Definition set_txDummyData (s : t) (txDummyData : Z) : t :=
  mk (spiPeripheral_ s) (rxDmaChannel_ s) (rxDmaRequest_ s) (txDmaChannel_ s)
     (txDmaRequest_ s) (rxDmaChannelUniqueHandle_ s) (txDmaChannelUniqueHandle_ s)
     (spiMasterBase_ s) (size_ s) (rxDummyDataAddress s) (txDummyDataAddress s)
     txDummyData (wordLength_ s) (started_ s).
Definition set_wordLength (s : t) (wordLength : Z) : t :=
  mk (spiPeripheral_ s) (rxDmaChannel_ s) (rxDmaRequest_ s) (txDmaChannel_ s)
     (txDmaRequest_ s) (rxDmaChannelUniqueHandle_ s) (txDmaChannelUniqueHandle_ s)
     (spiMasterBase_ s) (size_ s) (rxDummyDataAddress s) (txDummyDataAddress s)
     (txDummyData_ s) wordLength (started_ s).
Definition set_started (s : t) (started : bool) : t :=
  mk (spiPeripheral_ s) (rxDmaChannel_ s) (rxDmaRequest_ s) (txDmaChannel_ s)
     (txDmaRequest_ s) (rxDmaChannelUniqueHandle_ s) (txDmaChannelUniqueHandle_ s)
     (spiMasterBase_ s) (size_ s) (rxDummyDataAddress s) (txDummyDataAddress s)
     (txDummyData_ s) (wordLength_ s) started.

(** Modelled from the spec: the class header with the inline members
    [isStarted] and [isTransferInProgress] is not part of the sources.
    Section 3, the lifecycle, as for the interrupt-based driver: started
    from [start] to [stop] (the flag [started_]), and busy from a successful
    [startTransfer], which stores the non-zero size in [size_], until the
    completion path has reset it. *)
Definition isStarted (s : t) : bool := started_ s.
Definition isTransferInProgress (s : t) : bool := negb (size_ s =? 0).

(** The driver's two DMA channels. *)
Inductive Which : Type := Rx | Tx.

(** What the driver does, statement by statement where the order matters:
    the calls through its two channel handles (with the returned code),
    the steps of the completion path and the call of the observer. *)
Inductive Operation : Type :=
| Reserve (which : Which) (ret : Z)
| Release (which : Which)
| ConfigureTransfer (which : Which) (ret : Z)
| StartTransfer (which : Which) (ret : Z)
| StopTransfer (which : Which)
| ComputeBytesTransfered (bytesTransfered : Z)
| ClearSize
| ClearSpiMasterBase
| CallTransferCompleteEvent (spiMasterBase : SpiMasterBase) (bytesTransfered : Z).

(** The driver, the channels of the chip, and the operations so far
    (oldest first). *)
Definition World : Type := (t * Channels * list Operation)%type.

(** The body of an observer's virtual [transferCompleteEvent]. *)
Definition Callback : Type := SpiMasterBase -> Z -> World -> Result World.

Definition passive : Callback := fun _ _ w => Ok w.

(** [configureSpi] (shared by both newer drivers) is defined in a file
    that is not part of the sources; it is a parameter here.  It returns
    the status, the real frequency and the reprogrammed peripheral. *)
Definition ConfigureSpi : Type :=
  SpiPeripheral -> SpiMode -> Z -> Z -> bool -> Z * Z * SpiPeripheral.

Definition configure (configureSpi : ConfigureSpi) (s : t) (mode : SpiMode)
    (clockFrequency wordLength : Z) (lsbFirst : bool) (dummyData : Z) : Z * Z * t :=
  if negb (isStarted s) then (EBADF, 0, s)
  else if isTransferInProgress s then (EBUSY, 0, s)
  else
    let '(ret, frequency, p) :=
      configureSpi (spiPeripheral_ s) mode clockFrequency wordLength lsbFirst in
    let s := set_spiPeripheral s p in
    if negb (ret =? 0) then (ret, frequency, s)
    else (ret, frequency, set_wordLength (set_txDummyData s dummyData) wordLength).

Definition start (w : World) : Z * World :=
  let '(s, channels, trace) := w in
  if isStarted s then (EBADF, w)
  else
    let '(ret, h, channels) :=
      UniqueHandle.reserve (rxDmaChannelUniqueHandle_ s) channels (rxDmaChannel_ s)
        (rxDmaRequest_ s) RxDmaChannelFunctor in
    let s := set_rxDmaChannelUniqueHandle s h in
    let trace := trace ++ [Reserve Rx ret] in
    if negb (ret =? 0) then (ret, (s, channels, trace))
    else
      (* rxDmaChannelUniqueHandleScopeGuard is armed from here on *)
      let '(ret, h, channels) :=
        UniqueHandle.reserve (txDmaChannelUniqueHandle_ s) channels (txDmaChannel_ s)
          (txDmaRequest_ s) TxDmaChannelFunctor in
      let s := set_txDmaChannelUniqueHandle s h in
      let trace := trace ++ [Reserve Tx ret] in
      if negb (ret =? 0) then
        (* leaving the scope runs the guard: rxDmaChannelUniqueHandle_.release() *)
        let '(h, channels) :=
          UniqueHandle.release (rxDmaChannelUniqueHandle_ s) channels in
        (ret, (set_rxDmaChannelUniqueHandle s h, channels, trace ++ [Release Rx]))
      else
        (* rxDmaChannelUniqueHandleScopeGuard.release(): the guard is disarmed *)
        let s := set_wordLength s 8 in
        let p :=
          writeCr1 (spiPeripheral_ s)
            (Z.lor (Z.lor (Z.lor (Z.lor SPI_CR1_SSM SPI_CR1_SSI) SPI_CR1_SPE)
                      SPI_CR1_BR) SPI_CR1_MSTR) in
        let p :=
          writeCr2 p
            (Z.lor (Z.lor (Z.lor SPI_CR2_FRXTH
                              (Z.shiftl (wordLength_ s - 1) SPI_CR2_DS_Pos))
                      SPI_CR2_TXDMAEN) SPI_CR2_RXDMAEN) in
        (0, (set_started (set_spiPeripheral s p) true, channels, trace)).

(** The locals [commonDmaFlags], [rxDmaFlags] and [txDmaFlags] and the two
    memory addresses of [startTransfer]. *)
Definition commonDmaFlags (dataSize : Z) : Z :=
  Z.lor Flags.peripheralFixed
    (if dataSize =? 1 then Flags.dataSize1 else Flags.dataSize2).

Definition rxDmaFlags (readBuffer : option Z) : Z :=
  Z.lor (Z.lor (Z.lor Flags.transferCompleteInterruptEnable Flags.peripheralToMemory)
           (match readBuffer with
            | Some _ => Flags.memoryIncrement
            | None => Flags.memoryFixed
            end))
    Flags.veryHighPriority.

Definition txDmaFlags (writeBuffer : option Z) : Z :=
  Z.lor (Z.lor (Z.lor Flags.transferCompleteInterruptDisable Flags.memoryToPeripheral)
           (match writeBuffer with
            | Some _ => Flags.memoryIncrement
            | None => 0
            end))
    Flags.lowPriority.

Definition rxMemoryAddress (s : t) (readBuffer : option Z) : Z :=
  match readBuffer with
  | Some readBuffer => readBuffer
  | None => rxDummyDataAddress s
  end.

Definition txMemoryAddress (s : t) (writeBuffer : option Z) : Z :=
  match writeBuffer with
  | Some writeBuffer => writeBuffer
  | None => txDummyDataAddress s
  end.

Definition startTransfer (w : World) (spiMasterBase : SpiMasterBase)
    (writeBuffer readBuffer : option Z) (size : Z) : Result (Z * World) :=
  let '(s, channels, trace) := w in
  if size =? 0 then Ok (EINVAL, w)
  else if negb (isStarted s) then Ok (EBADF, w)
  else if isTransferInProgress s then Ok (EBUSY, w)
  else
    let dataSize := (wordLength_ s + 8 - 1) / 8 in
    if dataSize =? 0 then Crash DivisionByZero
    else if negb (size mod dataSize =? 0) then Ok (EINVAL, w)
    else
      let transactions := size / dataSize in
      let '(ret, channels) :=
        UniqueHandle.configureTransfer (rxDmaChannelUniqueHandle_ s) channels
          (rxMemoryAddress s readBuffer) (drAddress (spiPeripheral_ s)) transactions
          (Z.lor (commonDmaFlags dataSize) (rxDmaFlags readBuffer)) in
      let trace := trace ++ [ConfigureTransfer Rx ret] in
      if negb (ret =? 0) then Ok (ret, (s, channels, trace))
      else
        let '(ret, channels) :=
          UniqueHandle.configureTransfer (txDmaChannelUniqueHandle_ s) channels
            (txMemoryAddress s writeBuffer) (drAddress (spiPeripheral_ s)) transactions
            (Z.lor (commonDmaFlags dataSize) (txDmaFlags writeBuffer)) in
        let trace := trace ++ [ConfigureTransfer Tx ret] in
        if negb (ret =? 0) then Ok (ret, (s, channels, trace))
        else
          let s := set_size (set_spiMasterBase s (Some spiMasterBase)) size in
          let '(ret, channels) :=
            UniqueHandle.startTransfer (rxDmaChannelUniqueHandle_ s) channels in
          let trace := trace ++ [StartTransfer Rx ret] in
          if negb (ret =? 0) then Crash AssertionFailed
          else
            let '(ret, channels) :=
              UniqueHandle.startTransfer (txDmaChannelUniqueHandle_ s) channels in
            let trace := trace ++ [StartTransfer Tx ret] in
            if negb (ret =? 0) then Crash AssertionFailed
            else Ok (0, (s, channels, trace)).

Definition stop (w : World) : Z * World :=
  let '(s, channels, trace) := w in
  if negb (isStarted s) then (EBADF, w)
  else if isTransferInProgress s then (EBUSY, w)
  else
    let '(h, channels) := UniqueHandle.release (rxDmaChannelUniqueHandle_ s) channels in
    let s := set_rxDmaChannelUniqueHandle s h in
    let trace := trace ++ [Release Rx] in
    let '(h, channels) := UniqueHandle.release (txDmaChannelUniqueHandle_ s) channels in
    let s := set_txDmaChannelUniqueHandle s h in
    let trace := trace ++ [Release Tx] in
    let p := writeCr2 (writeCr1 (spiPeripheral_ s) 0) 0 in
    (0, (set_started (set_spiPeripheral s p) false, channels, trace)).

(** The completion path.  The world handed to [callback] is the driver's
    state at the moment the observer is called. *)
Definition eventHandler (callback : Callback) (w : World) (transactionsLeft : Z)
    : Result World :=
  let '(s, channels, trace) := w in
  let '(_, channels) := UniqueHandle.stopTransfer (txDmaChannelUniqueHandle_ s) channels in
  let trace := trace ++ [StopTransfer Tx] in
  let '(_, channels) := UniqueHandle.stopTransfer (rxDmaChannelUniqueHandle_ s) channels in
  let trace := trace ++ [StopTransfer Rx] in
  let bytesTransfered :=
    size_t (size_ s - size_t (transactionsLeft * ((wordLength_ s + 8 - 1) / 8))) in
  let trace := trace ++ [ComputeBytesTransfered bytesTransfered] in
  let s := set_size s 0 in
  let trace := trace ++ [ClearSize] in
  let spiMasterBase := spiMasterBase_ s in
  let s := set_spiMasterBase s None in
  let trace := trace ++ [ClearSpiMasterBase] in
  match spiMasterBase with
  | None => Crash AssertionFailed
  | Some spiMasterBase =>
      callback spiMasterBase bytesTransfered
        (s, channels, trace ++ [CallTransferCompleteEvent spiMasterBase bytesTransfered])
  end.

(** [RxDmaChannelFunctor] and [TxDmaChannelFunctor] *)
Definition RxDmaChannelFunctor_transferCompleteEvent (callback : Callback) (w : World)
    : Result World :=
  eventHandler callback w 0.

Definition RxDmaChannelFunctor_transferErrorEvent (callback : Callback) (w : World)
    (transactionsLeft : Z) : Result World :=
  eventHandler callback w transactionsLeft.

Definition TxDmaChannelFunctor_transferErrorEvent (callback : Callback) (w : World)
    (transactionsLeft : Z) : Result World :=
  eventHandler callback w transactionsLeft.

(** Names for the parts of the completion path: the driver as the
    observer finds it when it is called (no transfer in progress, no
    observer registered, everything else as before), the channels after
    both handles were told to stop, and the byte count. *)
Definition cleared (s : t) : t :=
  set_spiMasterBase (set_size s 0) None.

Definition stopped (s : t) (channels : Channels) : Channels :=
  snd (UniqueHandle.stopTransfer (rxDmaChannelUniqueHandle_ s)
         (snd (UniqueHandle.stopTransfer (txDmaChannelUniqueHandle_ s) channels))).

Definition bytesTransfered (s : t) (transactionsLeft : Z) : Z :=
  size_t (size_ s - size_t (transactionsLeft * ((wordLength_ s + 8 - 1) / 8))).

(** A started driver that can take a transfer: no transfer in progress, a
    word length of 1 to 16 bits, the two handles on the driver's two distinct
    channels, which carry the driver's functors and are not running. *)
Definition holds (h : UniqueHandle.t) (channel : nat) : bool :=
  match UniqueHandle.channel_ h with
  | Some c => Nat.eqb c channel
  | None => false
  end.

Definition notifies (c : DmaChannel.t) (functor : DmaChannelFunctor) : bool :=
  match functor_ c, functor with
  | Some RxDmaChannelFunctor, RxDmaChannelFunctor => true
  | Some TxDmaChannelFunctor, TxDmaChannelFunctor => true
  | _, _ => false
  end.

Definition wired (s : t) (channels : Channels) : bool :=
  started_ s && (1 <=? wordLength_ s) && (wordLength_ s <=? 16)
  && negb (Nat.eqb (rxDmaChannel_ s) (txDmaChannel_ s))
  && holds (rxDmaChannelUniqueHandle_ s) (rxDmaChannel_ s)
  && holds (txDmaChannelUniqueHandle_ s) (txDmaChannel_ s)
  && notifies (channels (rxDmaChannel_ s)) RxDmaChannelFunctor
  && notifies (channels (txDmaChannel_ s)) TxDmaChannelFunctor.

Definition ready (s : t) (channels : Channels) : bool :=
  wired s channels && (size_ s =? 0)
  && negb (enabled (channels (rxDmaChannel_ s)))
  && negb (enabled (channels (txDmaChannel_ s))).

(** The buffers of a transfer and the data register are aligned to the
    data size. *)
Definition aligned (s : t) (writeBuffer readBuffer : option Z) : bool :=
  let dataSize := (wordLength_ s + 8 - 1) / 8 in
  (rxMemoryAddress s readBuffer mod dataSize =? 0)
  && (txMemoryAddress s writeBuffer mod dataSize =? 0)
  && (drAddress (spiPeripheral_ s) mod dataSize =? 0).

(** The status a call returned. *)
Definition status (r : Result (Z * World)) : Result Z :=
  match r with
  | Ok (ret, _) => Ok ret
  | Crash f => Crash f
  end.

(** [size_] and the observer pointer are set and cleared together. *)
Definition coherent (s : t) : Prop :=
  size_ s = 0 <-> spiMasterBase_ s = None.

(** The data size in bytes of the configured word length, and the states in
    which neither channel of the driver raises an interrupt. *)
Definition dataSize (s : t) : Z := (wordLength_ s + 8 - 1) / 8.

Definition quiet (s : t) (channels : Channels) : Prop :=
  size_ s = 0 /\
  enabled (channels (rxDmaChannel_ s)) = false /\
  enabled (channels (txDmaChannel_ s)) = false.

(** A freshly constructed driver on channels 2 (RX) and 3 (TX), and a chip
    whose channel 3 is reserved by somebody else. *)
Definition exampleDriver : t :=
  constructed 1073819660 2 3 3 3 536870912 536870914.

Definition channel3Taken : Channels :=
  fun i =>
    if Nat.eqb i 3 then DmaChannel.mk (Some (OtherFunctor 0)) 5 false 0 0 0 0
    else DmaChannel.constructed.

(** The driver after [start] on a chip whose channels are all free. *)
Definition exampleStarted : World :=
  snd (start (exampleDriver, (fun _ => DmaChannel.constructed), [])).

(** The started driver with an empty record of operations. *)
Definition exampleReady : World :=
  (fst (fst exampleStarted), snd (fst exampleStarted), []).

(** A driver in the middle of a transfer of five 16-bit words (10 bytes)
    for the observer at address 1, on channels 2 (RX) and 3 (TX). *)
Definition transferOf10Bytes : t :=
  mk (mkSpiPeripheral 0 0 1073819660) 2 3 3 3 (UniqueHandle.mk (Some 2%nat))
     (UniqueHandle.mk (Some 3%nat)) (Some 1%nat) 10 536870912 536870914 0 16 true.

(** The driver's channel of either direction. *)
Definition channelOf (s : t) (which : Which) : nat :=
  match which with
  | Rx => rxDmaChannel_ s
  | Tx => txDmaChannel_ s
  end.

(** Modelled from the spec: [DmaChannel::interruptHandler] is declared in
    the header but implemented in a file that is not part of the sources.
    Section 4.1: "Transactions-left query.  Returns the current value of
    the hardware remaining-transactions counter." and "Interrupt handler.
    Exactly one of the following observer methods is invoked per physical
    completion: transfer-complete: expected number of transactions
    delivered, no error; transfer-error: some number of transactions
    remained; the value is authoritative and is passed to the observer."
    The value passed with transfer-error is the counter of the channel
    whose interrupt is served, as [getTransactionsLeft] reads it, whatever
    it is.  A stopped channel has no pending flags ("[stopTransfer] ...
    disables the channel and clears pending flags"), and the
    transfer-complete interrupt is raised only when the flags of the
    transfer enable it.  The interrupt is the one of the driver's RX or TX
    channel; the event goes to the functor registered in that channel (the
    TX functor of the driver overrides [transferErrorEvent] only). *)
Inductive Flag : Type :=
| TransferComplete
| TransferError.

Definition DmaChannel_interruptHandler (callback : Callback) (w : World)
    (interrupt : Which * Flag) : Result World :=
  let '(s, channels, trace) := w in
  let c := channels (channelOf s (fst interrupt)) in
  if negb (enabled c) then Ok w
  else
    match snd interrupt, functor_ c with
    | TransferComplete, Some RxDmaChannelFunctor =>
        if flagSet (flags c) Flags.transferCompleteInterruptEnable then
          RxDmaChannelFunctor_transferCompleteEvent callback w
        else Ok w
    | TransferError, Some RxDmaChannelFunctor =>
        RxDmaChannelFunctor_transferErrorEvent callback w (DmaChannel.getTransactionsLeft c)
    | TransferError, Some TxDmaChannelFunctor =>
        TxDmaChannelFunctor_transferErrorEvent callback w (DmaChannel.getTransactionsLeft c)
    | _, _ => Ok w
    end.

(** Modelled from the spec (the same section): what the DMA controller does
    while a transfer runs.  It moves data, which changes the hardware
    remaining-transactions counter of a running channel ([Counted], with
    the value the counter has afterwards), and it raises the interrupts of
    the driver's channels ([Interrupt]). *)
Inductive Step : Type :=
| Counted (which : Which) (transactionsLeft : Z)
| Interrupt (which : Which) (flag : Flag).

Definition setTransactionsLeft (c : DmaChannel.t) (transactionsLeft : Z) : DmaChannel.t :=
  DmaChannel.mk (functor_ c) (request_ c) (enabled c) transactionsLeft (memoryAddress c)
    (peripheralAddress c) (flags c).

Definition counted (w : World) (which : Which) (transactionsLeft : Z) : World :=
  let '(s, channels, trace) := w in
  let c := channels (channelOf s which) in
  if enabled c then
    (s, update channels (channelOf s which) (setTransactionsLeft c transactionsLeft), trace)
  else w.

Definition step (callback : Callback) (w : World) (st : Step) : Result World :=
  match st with
  | Counted which transactionsLeft => Ok (counted w which transactionsLeft)
  | Interrupt which flag => DmaChannel_interruptHandler callback w (which, flag)
  end.

Fixpoint run (callback : Callback) (w : World) (steps : list Step) : Result World :=
  match steps with
  | [] => Ok w
  | st :: steps => bind (step callback w st) (fun w => run callback w steps)
  end.

(** The interrupts that end a transfer: the transfer-complete interrupt of
    the RX channel and the transfer-error interrupt of either channel. *)
Definition terminal (st : Step) : bool :=
  match st with
  | Interrupt Rx TransferComplete => true
  | Interrupt _ TransferError => true
  | _ => false
  end.

(** The hardware counters stay between 0 and the number of transactions
    programmed for the transfer. *)
Definition admissible (transactions : Z) (steps : list Step) : bool :=
  forallb (fun st =>
             match st with
             | Counted _ transactionsLeft =>
                 (0 <=? transactionsLeft) && (transactionsLeft <=? transactions)
             | Interrupt _ _ => true
             end) steps.

(** A transfer under way: the driver is wired to its channels and busy, and
    both channels run, the RX channel with its transfer-complete interrupt
    enabled. *)
Definition underway (s : t) (channels : Channels) : bool :=
  wired s channels && negb (size_ s =? 0)
  && enabled (channels (rxDmaChannel_ s)) && enabled (channels (txDmaChannel_ s))
  && flagSet (flags (channels (rxDmaChannel_ s))) Flags.transferCompleteInterruptEnable.

(** The states of a transfer of [size] bytes under way for the observer
    [spiMasterBase], in which neither channel has more transactions left
    than the transfer has. *)
Definition transferring (spiMasterBase : SpiMasterBase) (size : Z) (s : t)
    (channels : Channels) : Prop :=
  underway s channels = true /\
  spiMasterBase_ s = Some spiMasterBase /\ size_ s = size /\ size < SIZE_MODULUS /\
  forall which,
    0 <= transactionsLeft (channels (channelOf s which)) /\
    transactionsLeft (channels (channelOf s which)) * dataSize s <= size.

(** A [configureSpi] that accepts every configuration, the started example
    driver configured with it for 16-bit words, that driver with a transfer
    of 10 bytes (five words) under way for the observer at address 1, and
    the same transfer when the hardware counters read [rxTransactionsLeft]
    and [txTransactionsLeft]. *)
Definition acceptingConfigureSpi : ConfigureSpi :=
  fun p _ clockFrequency _ _ => (0, clockFrequency, p).

Definition exampleConfigured16 : World :=
  let '(s, channels, _) := exampleReady in
  (snd (configure acceptingConfigureSpi s cpol0cpha0 10000000 16 false 0), channels, []).

Definition exampleTransfer : World :=
  match startTransfer exampleConfigured16 1%nat None None 10 with
  | Ok (_, w) => (fst (fst w), snd (fst w), [])
  | Crash _ => exampleConfigured16
  end.

Definition exampleCounted (rxTransactionsLeft txTransactionsLeft : Z) : World :=
  counted (counted exampleTransfer Rx rxTransactionsLeft) Tx txTransactionsLeft.

(** The observer calls recorded in a list of operations. *)
Definition isCallTransferCompleteEvent (o : Operation) : bool :=
  match o with
  | CallTransferCompleteEvent _ _ => true
  | _ => false
  end.
Definition transferCompleteEvents (trace : list Operation) : list Operation :=
  filter isCallTransferCompleteEvent trace.

End SpiMasterLowLevelDmaBased.

(** * Properties *)

Import DmaChannel.

(** ** [DmaChannel::UniqueHandle] without a channel *)

(** C10.  A handle that is not associated with a channel ([channel_] is
    null) answers [configureTransfer], [startTransfer] and [stopTransfer]
    with [EBADF] and [getTransactionsLeft] with [(EBADF, 0)]; [release] does
    nothing; the store of channels is handed back as it was. *)
Theorem C10_unassociated_handle :
  forall (channels : Channels) (memoryAddress peripheralAddress transactions flags : Z),
    let h := UniqueHandle.mk None in
    UniqueHandle.configureTransfer h channels memoryAddress peripheralAddress
      transactions flags = (EBADF, channels) /\
    UniqueHandle.startTransfer h channels = (EBADF, channels) /\
    UniqueHandle.stopTransfer h channels = (EBADF, channels) /\
    UniqueHandle.getTransactionsLeft h channels = (EBADF, 0) /\
    UniqueHandle.release h channels = (h, channels).
Proof.
  intros channels memoryAddress peripheralAddress transactions flags h.
  repeat split.
Qed.

(** ** [ChipSpiMasterLowLevel::configure] *)

Section Configure.

Import ChipSpiMasterLowLevel.

Variables (s : ChipSpiMasterLowLevel.t) (mode : SpiMode).
Variables (clockFrequency wordLength dummyData : Z) (lsbFirst : bool).

Lemma configure_wordLength_out_of_range :
  wordLength < minWordLength \/ maxWordLength < wordLength ->
  configure s mode clockFrequency wordLength lsbFirst dummyData = Ok (EINVAL, 0, s).
Proof.
  intros H. unfold configure.
  destruct H as [H | H].
  - apply Z.ltb_lt in H. rewrite H. reflexivity.
  - apply Z.ltb_lt in H. rewrite H. rewrite orb_true_r. reflexivity.
Qed.

Lemma configure_not_started :
  minWordLength <= wordLength <= maxWordLength ->
  isStarted s = false ->
  configure s mode clockFrequency wordLength lsbFirst dummyData = Ok (EBADF, 0, s).
Proof.
  intros [Hmin Hmax] Hstopped. unfold configure.
  apply Z.ltb_ge in Hmin. apply Z.ltb_ge in Hmax.
  rewrite Hmin, Hmax, Hstopped. reflexivity.
Qed.

End Configure.

(** C6, as stated, fails: on a driver that has not been started, a word
    length outside [4; 16] is rejected with [EINVAL] before the driver's
    state is looked at. *)
Lemma C6_counterexample :
  ChipSpiMasterLowLevel.isStarted (ChipSpiMasterLowLevel.constructed 80000000) = false /\
  ChipSpiMasterLowLevel.configure (ChipSpiMasterLowLevel.constructed 80000000)
    cpol0cpha0 0 3 false 0
  <> Ok (EBADF, 0, ChipSpiMasterLowLevel.constructed 80000000).
Proof.
  split; [reflexivity | discriminate].
Qed.

(** C6, amended.  On a driver that has not been started, [configure] with a
    word length in [4; 16] fails with [EBADF], and with any other word
    length fails with [EINVAL]; either way the frequency returned is 0 and
    the driver is unchanged. *)
Theorem C6_configure_not_started :
  forall (s : ChipSpiMasterLowLevel.t) (mode : SpiMode)
         (clockFrequency wordLength dummyData : Z) (lsbFirst : bool),
    ChipSpiMasterLowLevel.isStarted s = false ->
    ChipSpiMasterLowLevel.configure s mode clockFrequency wordLength lsbFirst dummyData
    = Ok (if (wordLength <? 4) || (16 <? wordLength) then EINVAL else EBADF, 0, s).
Proof.
  intros s mode clockFrequency wordLength dummyData lsbFirst Hstopped.
  destruct ((wordLength <? 4) || (16 <? wordLength)) eqn:Hrange.
  - apply configure_wordLength_out_of_range.
    apply orb_true_iff in Hrange.
    destruct Hrange as [H | H]; apply Z.ltb_lt in H;
      unfold ChipSpiMasterLowLevel.minWordLength, ChipSpiMasterLowLevel.maxWordLength; lia.
  - apply configure_not_started; [| exact Hstopped].
    apply orb_false_iff in Hrange. destruct Hrange as [H1 H2].
    apply Z.ltb_ge in H1. apply Z.ltb_ge in H2.
    unfold ChipSpiMasterLowLevel.minWordLength, ChipSpiMasterLowLevel.maxWordLength; lia.
Qed.

Lemma C6_configure_not_started_witness :
  ChipSpiMasterLowLevel.configure (ChipSpiMasterLowLevel.constructed 80000000)
    cpol0cpha0 0 8 false 0
  = Ok (EBADF, 0, ChipSpiMasterLowLevel.constructed 80000000).
Proof.
  apply (C6_configure_not_started (ChipSpiMasterLowLevel.constructed 80000000)
           cpol0cpha0 0 8 0 false).
  reflexivity.
Defined.

(** *** The clock divider *)

Section ClockDivider.

Import ChipSpiMasterLowLevel.

Variables (s : ChipSpiMasterLowLevel.t) (mode : SpiMode).
Variables (clockFrequency wordLength dummyData : Z) (lsbFirst : bool).

Hypothesis started : isStarted s = true.
Hypothesis idle : isTransferInProgress s = false.
Hypothesis wordLength_range : minWordLength <= wordLength <= maxWordLength.

Lemma configure_status_and_frequency :
  clockFrequency <> 0 ->
  let divider := u32 (peripheralFrequency s + clockFrequency - 1) / clockFrequency in
  exists s',
    configure s mode clockFrequency wordLength lsbFirst dummyData =
    if 256 <? divider then Ok (EINVAL, 0, s)
    else Ok (0, peripheralFrequency s / 2 ^ (bitRate divider + 1), s').
Proof.
  intros Hnonzero divider.
  destruct wordLength_range as [Hmin Hmax].
  apply Z.ltb_ge in Hmin. apply Z.ltb_ge in Hmax.
  apply Z.eqb_neq in Hnonzero.
  unfold configure. rewrite Hmin, Hmax, started, idle, Hnonzero. simpl.
  fold divider.
  destruct (256 <? divider) eqn:Hdivider.
  - exists s. reflexivity.
  - eexists. rewrite Z.shiftl_1_l. reflexivity.
Qed.

Lemma bitRate_smallest (divider : Z) :
  0 <= divider <= 256 ->
  0 <= bitRate divider <= 7 /\
  divider <= 2 ^ (bitRate divider + 1) /\
  (forall br, 0 <= br < bitRate divider -> 2 ^ (br + 1) < divider).
Proof.
  intros Hdivider. unfold bitRate.
  destruct (divider <=? 2) eqn:Hsmall.
  - apply Z.leb_le in Hsmall. repeat split; try lia; simpl; lia.
  - apply Z.leb_gt in Hsmall. unfold builtin_clz.
    replace (31 - (31 - Z.log2 (divider - 1))) with (Z.log2 (divider - 1)) by lia.
    assert (Hpos : 0 < divider - 1) by lia.
    pose proof (Z.log2_spec (divider - 1) Hpos) as [Hlow Hhigh].
    pose proof (Z.log2_nonneg (divider - 1)) as Hnonneg.
    assert (Hlt : Z.log2 (divider - 1) < 8).
    { apply Z.log2_lt_pow2; [exact Hpos | simpl; lia]. }
    replace (Z.succ (Z.log2 (divider - 1))) with (Z.log2 (divider - 1) + 1) in Hhigh by lia.
    repeat split; try lia.
    intros br Hbr.
    assert (2 ^ (br + 1) <= 2 ^ Z.log2 (divider - 1)).
    { apply Z.pow_le_mono_r; lia. }
    lia.
Qed.

(** The divider the code computes with 32-bit wrap-around selects the same
    bit rate as the exact quotient rounded up, as long as the peripheral
    clock is at most 2^31 Hz. *)
Lemma divider_wrap :
  0 < clockFrequency < 2 ^ 32 ->
  0 <= peripheralFrequency s <= 2 ^ 31 ->
  let divider := u32 (peripheralFrequency s + clockFrequency - 1) / clockFrequency in
  let ceiling := (peripheralFrequency s + clockFrequency - 1) / clockFrequency in
  divider = ceiling \/ (divider = 0 /\ ceiling = 1).
Proof.
  intros Hclock Hperipheral divider ceiling.
  destruct (Z_lt_ge_dec (peripheralFrequency s + clockFrequency - 1) (2 ^ 32)) as [Hfits | Hwraps].
  - left. unfold divider, ceiling, u32. rewrite Z.mod_small by lia. reflexivity.
  - right. unfold divider, ceiling, u32.
    assert (H32 : 2 ^ 32 = 4294967296) by reflexivity.
    assert (H31 : 2 ^ 31 = 2147483648) by reflexivity.
    rewrite H32, H31 in *.
    replace ((peripheralFrequency s + clockFrequency - 1) mod 4294967296)
      with (peripheralFrequency s + clockFrequency - 1 - 4294967296).
    + split.
      * apply Z.div_small. lia.
      * symmetry. apply (Z.div_unique _ _ 1 (peripheralFrequency s - 1)); lia.
    + apply (Z.mod_unique _ _ 1); lia.
Qed.

(** For a non-zero requested frequency, [configure] does what C5 says:
    it fails with [EINVAL] exactly when the quotient of the peripheral
    frequency by the requested one, rounded up, exceeds 256, and it
    otherwise returns the peripheral frequency divided by [2^(br+1)] for
    the smallest [br >= 0] whose divider reaches that quotient. *)
Lemma configure_nonzero_frequency :
  0 < clockFrequency < 2 ^ 32 ->
  0 <= peripheralFrequency s <= 2 ^ 31 ->
  let ceiling := (peripheralFrequency s + clockFrequency - 1) / clockFrequency in
  if 256 <? ceiling then
    configure s mode clockFrequency wordLength lsbFirst dummyData = Ok (EINVAL, 0, s)
  else
    exists br s',
      configure s mode clockFrequency wordLength lsbFirst dummyData =
      Ok (0, peripheralFrequency s / 2 ^ (br + 1), s') /\
      0 <= br <= 7 /\
      ceiling <= 2 ^ (br + 1) /\
      (forall br', 0 <= br' < br -> 2 ^ (br' + 1) < ceiling).
Proof.
  intros Hclock Hperipheral ceiling.
  assert (Hnonzero : clockFrequency <> 0) by lia.
  destruct (configure_status_and_frequency Hnonzero) as [s' Hconfigure].
  cbv zeta in Hconfigure.
  pose proof (divider_wrap Hclock Hperipheral) as Hwrap. cbv zeta in Hwrap.
  fold ceiling in Hwrap.
  set (divider := u32 (peripheralFrequency s + clockFrequency - 1) / clockFrequency) in *.
  assert (Hceiling : 0 <= ceiling).
  { unfold ceiling. apply Z.div_pos; lia. }
  destruct Hwrap as [Hsame | [Hzero Hone]].
  - rewrite Hsame in Hconfigure.
    destruct (256 <? ceiling) eqn:Hlarge; [exact Hconfigure |].
    apply Z.ltb_ge in Hlarge.
    exists (bitRate ceiling), s'. split; [exact Hconfigure |].
    apply bitRate_smallest. lia.
  - rewrite Hzero in Hconfigure. rewrite Hone.
    change (256 <? 0) with false in Hconfigure.
    change (256 <? 1) with false.
    exists 0, s'. split; [exact Hconfigure |].
    repeat split; try lia; simpl; lia.
Qed.

End ClockDivider.

(** C5 fails on the code for the requested frequency 0: the divider is
    computed by dividing by [clockFrequency] before any check of it, so a
    started, idle driver asked for 0 Hz runs into a division by zero; it
    neither fails with [EINVAL] nor returns a frequency.  (Lemma
    [configure_nonzero_frequency] shows the claimed behaviour for every
    other frequency.) *)
Theorem C5_configure_zero_frequency :
  let s := snd (ChipSpiMasterLowLevel.start (ChipSpiMasterLowLevel.constructed 80000000)) in
  ChipSpiMasterLowLevel.isStarted s = true /\
  ChipSpiMasterLowLevel.isTransferInProgress s = false /\
  ChipSpiMasterLowLevel.configure s cpol0cpha0 0 8 false 0 = Crash DivisionByZero.
Proof.
  repeat split.
Qed.

(** ** The completion path of the DMA-based driver *)

Section EventHandler.

Import SpiMasterLowLevelDmaBased.

Lemma eventHandler_unfold (callback : Callback) (s : SpiMasterLowLevelDmaBased.t)
    (channels : Channels) (trace : list Operation) (transactionsLeft : Z)
    (spiMasterBase : SpiMasterBase) :
  spiMasterBase_ s = Some spiMasterBase ->
  eventHandler callback (s, channels, trace) transactionsLeft =
  callback spiMasterBase (bytesTransfered s transactionsLeft)
    (cleared s, stopped s channels,
     trace ++ [StopTransfer Tx; StopTransfer Rx;
               ComputeBytesTransfered (bytesTransfered s transactionsLeft);
               ClearSize; ClearSpiMasterBase;
               CallTransferCompleteEvent spiMasterBase
                 (bytesTransfered s transactionsLeft)]).
Proof.
  intros Hobserver. unfold eventHandler, stopped, cleared, bytesTransfered.
  destruct (UniqueHandle.stopTransfer (txDmaChannelUniqueHandle_ s) channels)
    as [ret1 channels1] eqn:Htx.
  destruct (UniqueHandle.stopTransfer (rxDmaChannelUniqueHandle_ s) channels1)
    as [ret2 channels2] eqn:Hrx.
  simpl. rewrite Hrx. simpl. rewrite Hobserver.
  repeat rewrite <- app_assoc. reflexivity.
Qed.

Lemma eventHandler_without_observer (callback : Callback)
    (s : SpiMasterLowLevelDmaBased.t) (channels : Channels) (trace : list Operation)
    (transactionsLeft : Z) :
  spiMasterBase_ s = None ->
  eventHandler callback (s, channels, trace) transactionsLeft = Crash AssertionFailed.
Proof.
  intros Hobserver. unfold eventHandler.
  destruct (UniqueHandle.stopTransfer (txDmaChannelUniqueHandle_ s) channels)
    as [ret1 channels1].
  destruct (UniqueHandle.stopTransfer (rxDmaChannelUniqueHandle_ s) channels1)
    as [ret2 channels2].
  simpl. rewrite Hobserver. reflexivity.
Qed.

Lemma bytesTransfered_exact (s : SpiMasterLowLevelDmaBased.t) (transactionsLeft : Z) :
  0 <= transactionsLeft * ((wordLength_ s + 8 - 1) / 8) <= size_ s ->
  size_ s < SIZE_MODULUS ->
  bytesTransfered s transactionsLeft =
  size_ s - transactionsLeft * ((wordLength_ s + 8 - 1) / 8).
Proof.
  intros Hleft Hsize. unfold bytesTransfered, size_t.
  rewrite (Z.mod_small (transactionsLeft * _)) by lia.
  apply Z.mod_small. lia.
Qed.

End EventHandler.

(** ** Transfer in progress

    The headers that define [isTransferInProgress] are not part of the
    sources.  The drivers set and clear [size_] and the observer pointer
    together, so on every state the operations produce from a constructed
    driver "[size_] is non-zero" and "an observer is registered" are the same
    statement. *)

Section Coherent.

Lemma interruptHandlerBranch_keeps (s s' : ChipSpiMasterLowLevel.t) (memory memory' : Memory)
    (events events' : list Event) (hw : ChipSpiMasterLowLevel.Hardware) (done : bool) :
  ChipSpiMasterLowLevel.interruptHandlerBranch (s, memory, events) hw
  = (done, (s', memory', events')) ->
  ChipSpiMasterLowLevel.spiMasterBase_ s' = ChipSpiMasterLowLevel.spiMasterBase_ s /\
  ChipSpiMasterLowLevel.started_ s' = ChipSpiMasterLowLevel.started_ s /\
  ChipSpiMasterLowLevel.size_ s' = ChipSpiMasterLowLevel.size_ s /\
  ChipSpiMasterLowLevel.readBuffer_ s' = ChipSpiMasterLowLevel.readBuffer_ s /\
  ChipSpiMasterLowLevel.writeBuffer_ s' = ChipSpiMasterLowLevel.writeBuffer_ s.
Proof.
  unfold ChipSpiMasterLowLevel.interruptHandlerBranch,
    ChipSpiMasterLowLevel.storeWord, ChipSpiMasterLowLevel.loadWord.
  repeat match goal with
         | |- context [if ?b then _ else _] => destruct b
         | |- context [match ?o with Some _ => _ | None => _ end] => destruct o eqn:?
         end;
    intros H; injection H as <- <- <- <-; repeat split; simpl; congruence.
Qed.

Lemma ChipSpiMasterLowLevel_constructed_coherent (frequency : Z) :
  ChipSpiMasterLowLevel.coherent (ChipSpiMasterLowLevel.constructed frequency).
Proof.
  split; reflexivity.
Qed.

Lemma ChipSpiMasterLowLevel_operations_coherent (s : ChipSpiMasterLowLevel.t) :
  ChipSpiMasterLowLevel.coherent s ->
  ChipSpiMasterLowLevel.coherent (snd (ChipSpiMasterLowLevel.start s)) /\
  ChipSpiMasterLowLevel.coherent (snd (ChipSpiMasterLowLevel.stop s)) /\
  (forall mode clockFrequency wordLength lsbFirst dummyData ret frequency s',
      ChipSpiMasterLowLevel.configure s mode clockFrequency wordLength lsbFirst dummyData
      = Ok (ret, frequency, s') ->
      ChipSpiMasterLowLevel.coherent s') /\
  (forall spiMasterBase writeBuffer readBuffer size,
      ChipSpiMasterLowLevel.coherent
        (snd (ChipSpiMasterLowLevel.startTransfer s spiMasterBase writeBuffer readBuffer
                size))) /\
  (forall memory events hw s' memory' events',
      ChipSpiMasterLowLevel.interruptHandler ChipSpiMasterLowLevel.passive
        (s, memory, events) hw = Ok (s', memory', events') ->
      ChipSpiMasterLowLevel.coherent s').
Proof.
  intros Hcoherent. repeat split.
  - unfold ChipSpiMasterLowLevel.start.
    destruct (ChipSpiMasterLowLevel.isStarted s); apply Hcoherent.
  - unfold ChipSpiMasterLowLevel.start.
    destruct (ChipSpiMasterLowLevel.isStarted s); apply Hcoherent.
  - unfold ChipSpiMasterLowLevel.stop.
    destruct (negb (ChipSpiMasterLowLevel.isStarted s)); [apply Hcoherent |].
    destruct (ChipSpiMasterLowLevel.isTransferInProgress s); apply Hcoherent.
  - unfold ChipSpiMasterLowLevel.stop.
    destruct (negb (ChipSpiMasterLowLevel.isStarted s)); [apply Hcoherent |].
    destruct (ChipSpiMasterLowLevel.isTransferInProgress s); apply Hcoherent.
  - revert H. unfold ChipSpiMasterLowLevel.configure.
    repeat match goal with
           | |- context [if ?b then _ else _] => destruct b
           end;
      intros Hresult; try discriminate; injection Hresult as _ _ <-; apply Hcoherent.
  - revert H. unfold ChipSpiMasterLowLevel.configure.
    repeat match goal with
           | |- context [if ?b then _ else _] => destruct b
           end;
      intros Hresult; try discriminate; injection Hresult as _ _ <-; apply Hcoherent.
  - unfold ChipSpiMasterLowLevel.startTransfer.
    destruct (size =? 0) eqn:Hsize; [apply Hcoherent |].
    destruct (negb (ChipSpiMasterLowLevel.isStarted s)); [apply Hcoherent |].
    destruct (ChipSpiMasterLowLevel.isTransferInProgress s); [apply Hcoherent |].
    destruct (negb _); [apply Hcoherent |].
    cbn. intros Hzero. apply Z.eqb_neq in Hsize. contradiction.
  - unfold ChipSpiMasterLowLevel.startTransfer.
    destruct (size =? 0) eqn:Hsize; [apply Hcoherent |].
    destruct (negb (ChipSpiMasterLowLevel.isStarted s)); [apply Hcoherent |].
    destruct (ChipSpiMasterLowLevel.isTransferInProgress s); [apply Hcoherent |].
    destruct (negb _); [apply Hcoherent |].
    cbn. discriminate.
  - revert H. unfold ChipSpiMasterLowLevel.interruptHandler.
    destruct (ChipSpiMasterLowLevel.interruptHandlerBranch (s, memory, events) hw)
      as [done [[s1 memory1] events1]] eqn:Hbranch.
    destruct (interruptHandlerBranch_keeps _ _ _ _ _ _ _ _ Hbranch)
      as (Hobserver & _ & Hsize & _).
    destruct done.
    + unfold ChipSpiMasterLowLevel.transferFinished, ChipSpiMasterLowLevel.passive.
      destruct (ChipSpiMasterLowLevel.spiMasterBase_ s1); [| discriminate].
      intros Hresult. injection Hresult as <- _ _. reflexivity.
    + intros Hresult. injection Hresult as <- _ _.
      rewrite Hsize, Hobserver. apply Hcoherent.
  - revert H. unfold ChipSpiMasterLowLevel.interruptHandler.
    destruct (ChipSpiMasterLowLevel.interruptHandlerBranch (s, memory, events) hw)
      as [done [[s1 memory1] events1]] eqn:Hbranch.
    destruct (interruptHandlerBranch_keeps _ _ _ _ _ _ _ _ Hbranch)
      as (Hobserver & _ & Hsize & _).
    destruct done.
    + unfold ChipSpiMasterLowLevel.transferFinished, ChipSpiMasterLowLevel.passive.
      destruct (ChipSpiMasterLowLevel.spiMasterBase_ s1); [| discriminate].
      intros Hresult. injection Hresult as <- _ _. reflexivity.
    + intros Hresult. injection Hresult as <- _ _.
      rewrite Hsize, Hobserver. apply Hcoherent.
Qed.

Lemma SpiMasterLowLevelDmaBased_constructed_coherent
    (drAddress : Z) (rxDmaChannel : nat) (rxDmaRequest : Z) (txDmaChannel : nat)
    (txDmaRequest rxDummyDataAddress txDummyDataAddress : Z) :
  SpiMasterLowLevelDmaBased.coherent
    (SpiMasterLowLevelDmaBased.constructed drAddress rxDmaChannel rxDmaRequest
       txDmaChannel txDmaRequest rxDummyDataAddress txDummyDataAddress).
Proof.
  split; reflexivity.
Qed.

Lemma SpiMasterLowLevelDmaBased_operations_coherent (s : SpiMasterLowLevelDmaBased.t)
    (channels : Channels) (trace : list SpiMasterLowLevelDmaBased.Operation) :
  SpiMasterLowLevelDmaBased.coherent s ->
  SpiMasterLowLevelDmaBased.coherent
    (fst (fst (snd (SpiMasterLowLevelDmaBased.start (s, channels, trace))))) /\
  SpiMasterLowLevelDmaBased.coherent
    (fst (fst (snd (SpiMasterLowLevelDmaBased.stop (s, channels, trace))))) /\
  (forall configureSpi mode clockFrequency wordLength lsbFirst dummyData,
      SpiMasterLowLevelDmaBased.coherent
        (snd (SpiMasterLowLevelDmaBased.configure configureSpi s mode clockFrequency
                wordLength lsbFirst dummyData))) /\
  (forall spiMasterBase writeBuffer readBuffer size ret s' channels' trace',
      SpiMasterLowLevelDmaBased.startTransfer (s, channels, trace) spiMasterBase
        writeBuffer readBuffer size = Ok (ret, (s', channels', trace')) ->
      SpiMasterLowLevelDmaBased.coherent s') /\
  (forall transactionsLeft s' channels' trace',
      SpiMasterLowLevelDmaBased.eventHandler SpiMasterLowLevelDmaBased.passive
        (s, channels, trace) transactionsLeft = Ok (s', channels', trace') ->
      SpiMasterLowLevelDmaBased.coherent s').
Proof.
  intros Hcoherent. split; [| split; [| split; [| split]]].
  - unfold SpiMasterLowLevelDmaBased.start.
    repeat match goal with
           | |- context [if ?b then _ else _] => destruct b
           | |- context [let '(_, _) := ?p in _] => destruct p
           end; apply Hcoherent.
  - unfold SpiMasterLowLevelDmaBased.stop.
    repeat match goal with
           | |- context [if ?b then _ else _] => destruct b
           | |- context [let '(_, _) := ?p in _] => destruct p
           end; apply Hcoherent.
  - intros configureSpi mode clockFrequency wordLength lsbFirst dummyData.
    unfold SpiMasterLowLevelDmaBased.configure.
    repeat match goal with
           | |- context [if ?b then _ else _] => destruct b
           | |- context [let '(_, _) := ?p in _] => destruct p
           end; apply Hcoherent.
  - intros spiMasterBase writeBuffer readBuffer size ret s' channels' trace'.
    unfold SpiMasterLowLevelDmaBased.startTransfer.
    destruct (size =? 0) eqn:Hsize.
    { intros Hresult. injection Hresult as _ <- _ _. exact Hcoherent. }
    repeat match goal with
           | |- context [if ?b then _ else _] => destruct b
           | |- context [let '(_, _) := ?p in _] => destruct p
           end;
      intros Hresult; try discriminate; injection Hresult as _ <- _ _;
      try exact Hcoherent.
    apply Z.eqb_neq in Hsize. split; [intros Hzero; contradiction | discriminate].
  - intros transactionsLeft s' channels' trace'.
    destruct (SpiMasterLowLevelDmaBased.spiMasterBase_ s) as [spiMasterBase |] eqn:Hobserver.
    + rewrite (eventHandler_unfold _ _ _ _ _ _ Hobserver).
      intros Hresult. injection Hresult as <- _ _. split; reflexivity.
    + rewrite eventHandler_without_observer by exact Hobserver. discriminate.
Qed.

(** While a transfer is in progress every call of the interface is refused
    and changes nothing. *)
Lemma ChipSpiMasterLowLevel_busy_refuses (s : ChipSpiMasterLowLevel.t) :
  ChipSpiMasterLowLevel.isStarted s = true ->
  ChipSpiMasterLowLevel.isTransferInProgress s = true ->
  ChipSpiMasterLowLevel.start s = (EBADF, s) /\
  ChipSpiMasterLowLevel.stop s = (EBUSY, s) /\
  (forall spiMasterBase writeBuffer readBuffer size,
      ChipSpiMasterLowLevel.startTransfer s spiMasterBase writeBuffer readBuffer size
      = (if size =? 0 then EINVAL else EBUSY, s)) /\
  (forall mode clockFrequency wordLength lsbFirst dummyData,
      ChipSpiMasterLowLevel.configure s mode clockFrequency wordLength lsbFirst dummyData
      = Ok (if (wordLength <? 4) || (16 <? wordLength) then EINVAL else EBUSY, 0, s)).
Proof.
  intros Hstarted Hbusy. repeat split.
  - unfold ChipSpiMasterLowLevel.start. rewrite Hstarted. reflexivity.
  - unfold ChipSpiMasterLowLevel.stop. rewrite Hstarted, Hbusy. reflexivity.
  - intros spiMasterBase writeBuffer readBuffer size.
    unfold ChipSpiMasterLowLevel.startTransfer. rewrite Hstarted, Hbusy.
    destruct (size =? 0); reflexivity.
  - intros mode clockFrequency wordLength lsbFirst dummyData.
    unfold ChipSpiMasterLowLevel.configure. rewrite Hstarted, Hbusy.
    unfold ChipSpiMasterLowLevel.minWordLength, ChipSpiMasterLowLevel.maxWordLength.
    destruct ((wordLength <? 4) || (16 <? wordLength)); reflexivity.
Qed.

Lemma SpiMasterLowLevelDmaBased_busy_refuses (s : SpiMasterLowLevelDmaBased.t)
    (channels : Channels) (trace : list SpiMasterLowLevelDmaBased.Operation) :
  SpiMasterLowLevelDmaBased.isStarted s = true ->
  SpiMasterLowLevelDmaBased.isTransferInProgress s = true ->
  SpiMasterLowLevelDmaBased.start (s, channels, trace) = (EBADF, (s, channels, trace)) /\
  SpiMasterLowLevelDmaBased.stop (s, channels, trace) = (EBUSY, (s, channels, trace)) /\
  (forall spiMasterBase writeBuffer readBuffer size,
      SpiMasterLowLevelDmaBased.startTransfer (s, channels, trace) spiMasterBase
        writeBuffer readBuffer size
      = Ok (if size =? 0 then EINVAL else EBUSY, (s, channels, trace))) /\
  (forall configureSpi mode clockFrequency wordLength lsbFirst dummyData,
      SpiMasterLowLevelDmaBased.configure configureSpi s mode clockFrequency wordLength
        lsbFirst dummyData = (EBUSY, 0, s)).
Proof.
  intros Hstarted Hbusy. repeat split.
  - unfold SpiMasterLowLevelDmaBased.start. rewrite Hstarted. reflexivity.
  - unfold SpiMasterLowLevelDmaBased.stop. rewrite Hstarted, Hbusy. reflexivity.
  - intros spiMasterBase writeBuffer readBuffer size.
    unfold SpiMasterLowLevelDmaBased.startTransfer. rewrite Hstarted, Hbusy.
    destruct (size =? 0); reflexivity.
  - intros configureSpi mode clockFrequency wordLength lsbFirst dummyData.
    unfold SpiMasterLowLevelDmaBased.configure. rewrite Hstarted, Hbusy. reflexivity.
Qed.

End Coherent.

(** What stopping through the handles does to the channels. *)
Lemma update_same (channels : Channels) (channel : nat) (c : DmaChannel.t) :
  update channels channel c channel = c.
Proof.
  unfold update. rewrite Nat.eqb_refl. reflexivity.
Qed.

Lemma update_other (channels : Channels) (channel i : nat) (c : DmaChannel.t) :
  i <> channel -> update channels channel c i = channels i.
Proof.
  intros Hother. unfold update.
  destruct (Nat.eqb i channel) eqn:Heq; [| reflexivity].
  apply Nat.eqb_eq in Heq. contradiction.
Qed.

Lemma stopped_tx_disabled (s : SpiMasterLowLevelDmaBased.t) (channels : Channels)
    (channel : nat) :
  UniqueHandle.channel_ (SpiMasterLowLevelDmaBased.txDmaChannelUniqueHandle_ s)
  = Some channel ->
  enabled (SpiMasterLowLevelDmaBased.stopped s channels channel) = false.
Proof.
  intros Htx. unfold SpiMasterLowLevelDmaBased.stopped, UniqueHandle.stopTransfer.
  rewrite Htx.
  destruct (UniqueHandle.channel_ (SpiMasterLowLevelDmaBased.rxDmaChannelUniqueHandle_ s))
    as [rx |]; simpl.
  - destruct (Nat.eq_dec channel rx) as [Heq | Hne].
    + subst rx. rewrite update_same. reflexivity.
    + rewrite update_other by exact Hne. rewrite update_same. reflexivity.
  - rewrite update_same. reflexivity.
Qed.

Lemma stopped_rx_disabled (s : SpiMasterLowLevelDmaBased.t) (channels : Channels)
    (channel : nat) :
  UniqueHandle.channel_ (SpiMasterLowLevelDmaBased.rxDmaChannelUniqueHandle_ s)
  = Some channel ->
  enabled (SpiMasterLowLevelDmaBased.stopped s channels channel) = false.
Proof.
  intros Hrx. unfold SpiMasterLowLevelDmaBased.stopped, UniqueHandle.stopTransfer.
  rewrite Hrx. simpl. rewrite update_same. reflexivity.
Qed.

(** C3.  Every completion path of the DMA-based driver (RX transfer
    complete, RX transfer error, TX transfer error) appends exactly these
    operations, in this order: stop the TX channel, stop the RX channel,
    compute the byte count, clear [size_], clear the observer pointer, call
    the observer.  The observer is called with both channels disabled and
    the driver cleared. *)
Theorem C3_dma_completion_order :
  forall (callback : SpiMasterLowLevelDmaBased.Callback)
         (s : SpiMasterLowLevelDmaBased.t) (channels : Channels)
         (trace : list SpiMasterLowLevelDmaBased.Operation)
         (spiMasterBase : SpiMasterBase) (transactionsLeft : Z) (rx tx : nat),
    SpiMasterLowLevelDmaBased.spiMasterBase_ s = Some spiMasterBase ->
    UniqueHandle.channel_ (SpiMasterLowLevelDmaBased.rxDmaChannelUniqueHandle_ s) = Some rx ->
    UniqueHandle.channel_ (SpiMasterLowLevelDmaBased.txDmaChannelUniqueHandle_ s) = Some tx ->
    let completion (transactionsLeft : Z) :=
      let bytes := SpiMasterLowLevelDmaBased.bytesTransfered s transactionsLeft in
      callback spiMasterBase bytes
        (SpiMasterLowLevelDmaBased.cleared s,
         SpiMasterLowLevelDmaBased.stopped s channels,
         trace ++ [SpiMasterLowLevelDmaBased.StopTransfer SpiMasterLowLevelDmaBased.Tx;
                   SpiMasterLowLevelDmaBased.StopTransfer SpiMasterLowLevelDmaBased.Rx;
                   SpiMasterLowLevelDmaBased.ComputeBytesTransfered bytes;
                   SpiMasterLowLevelDmaBased.ClearSize;
                   SpiMasterLowLevelDmaBased.ClearSpiMasterBase;
                   SpiMasterLowLevelDmaBased.CallTransferCompleteEvent spiMasterBase bytes]) in
    SpiMasterLowLevelDmaBased.RxDmaChannelFunctor_transferCompleteEvent callback
      (s, channels, trace) = completion 0 /\
    SpiMasterLowLevelDmaBased.RxDmaChannelFunctor_transferErrorEvent callback
      (s, channels, trace) transactionsLeft = completion transactionsLeft /\
    SpiMasterLowLevelDmaBased.TxDmaChannelFunctor_transferErrorEvent callback
      (s, channels, trace) transactionsLeft = completion transactionsLeft /\
    enabled (SpiMasterLowLevelDmaBased.stopped s channels tx) = false /\
    enabled (SpiMasterLowLevelDmaBased.stopped s channels rx) = false /\
    SpiMasterLowLevelDmaBased.spiMasterBase_ (SpiMasterLowLevelDmaBased.cleared s) = None /\
    SpiMasterLowLevelDmaBased.size_ (SpiMasterLowLevelDmaBased.cleared s) = 0.
Proof.
  intros callback s channels trace spiMasterBase transactionsLeft rx tx
    Hobserver Hrx Htx completion.
  repeat split.
  - apply eventHandler_unfold. exact Hobserver.
  - apply eventHandler_unfold. exact Hobserver.
  - apply eventHandler_unfold. exact Hobserver.
  - apply stopped_tx_disabled. exact Htx.
  - apply stopped_rx_disabled. exact Hrx.
Qed.

Lemma C3_dma_completion_order_witness :
  SpiMasterLowLevelDmaBased.RxDmaChannelFunctor_transferErrorEvent
    SpiMasterLowLevelDmaBased.passive
    (SpiMasterLowLevelDmaBased.transferOf10Bytes, (fun _ => DmaChannel.constructed), []) 3
  = Ok (SpiMasterLowLevelDmaBased.cleared SpiMasterLowLevelDmaBased.transferOf10Bytes,
        SpiMasterLowLevelDmaBased.stopped SpiMasterLowLevelDmaBased.transferOf10Bytes
          (fun _ => DmaChannel.constructed),
        [SpiMasterLowLevelDmaBased.StopTransfer SpiMasterLowLevelDmaBased.Tx;
         SpiMasterLowLevelDmaBased.StopTransfer SpiMasterLowLevelDmaBased.Rx;
         SpiMasterLowLevelDmaBased.ComputeBytesTransfered 4;
         SpiMasterLowLevelDmaBased.ClearSize;
         SpiMasterLowLevelDmaBased.ClearSpiMasterBase;
         SpiMasterLowLevelDmaBased.CallTransferCompleteEvent 1%nat 4]).
Proof.
  apply (C3_dma_completion_order SpiMasterLowLevelDmaBased.passive
           SpiMasterLowLevelDmaBased.transferOf10Bytes (fun _ => DmaChannel.constructed)
           [] 1%nat 3 2%nat 3%nat); reflexivity.
Defined.


(** ** [SpiMasterLowLevelDmaBased::start] *)

Section Start.
Import SpiMasterLowLevelDmaBased.

Lemma reserve_failure_keeps (c : DmaChannel.t) (request : Z) (functor : DmaChannelFunctor) :
  fst (DmaChannel.reserve c request functor) <> 0 ->
  snd (DmaChannel.reserve c request functor) = c.
Proof.
  unfold DmaChannel.reserve.
  destruct (functor_ c); [reflexivity |].
  destruct (maxRequest <? request); [reflexivity |].
  simpl. intros H. contradiction H. reflexivity.
Qed.

Lemma reserve_success (c : DmaChannel.t) (request : Z) (functor : DmaChannelFunctor) :
  fst (DmaChannel.reserve c request functor) = 0 ->
  functor_ c = None /\
  functor_ (snd (DmaChannel.reserve c request functor)) = Some functor.
Proof.
  unfold DmaChannel.reserve.
  destruct (functor_ c); [discriminate |].
  destruct (maxRequest <? request); [discriminate |].
  simpl. auto.
Qed.

(** C8.  [start] on a stopped driver (which holds no reservation) reserves
    the RX channel first and then the TX channel.  If the RX reservation
    fails, that error is returned and nothing has changed.  If the TX
    reservation fails, [start] returns that error, the RX reservation is
    released again (the RX channel has no functor any more, the RX handle is
    empty) and the driver is as before, still stopped.  If both succeed,
    [start] returns 0 and the driver is started with both reservations
    held. *)
Theorem C8_dma_start_reserves_rx_then_tx :
  forall (s : SpiMasterLowLevelDmaBased.t) (channels : Channels) (trace : list Operation),
    isStarted s = false ->
    rxDmaChannelUniqueHandle_ s = UniqueHandle.mk None ->
    txDmaChannelUniqueHandle_ s = UniqueHandle.mk None ->
    let rx := rxDmaChannel_ s in
    let tx := txDmaChannel_ s in
    let rxReserve := DmaChannel.reserve (channels rx) (rxDmaRequest_ s) RxDmaChannelFunctor in
    let channels1 := update channels rx (snd rxReserve) in
    let txReserve := DmaChannel.reserve (channels1 tx) (txDmaRequest_ s) TxDmaChannelFunctor in
    let '(ret, (s', channels', trace')) := start (s, channels, trace) in
    (fst rxReserve <> 0 ->
     ret = fst rxReserve /\ s' = s /\ (forall i, channels' i = channels i) /\
     trace' = trace ++ [Reserve Rx (fst rxReserve)]) /\
    (fst rxReserve = 0 -> fst txReserve <> 0 ->
     ret = fst txReserve /\ s' = s /\
     functor_ (channels' rx) = None /\
     (forall i, i <> rx -> channels' i = channels i) /\
     trace' = trace ++ [Reserve Rx 0; Reserve Tx (fst txReserve); Release Rx]) /\
    (fst rxReserve = 0 -> fst txReserve = 0 ->
     ret = 0 /\ isStarted s' = true /\
     rxDmaChannelUniqueHandle_ s' = UniqueHandle.mk (Some rx) /\
     txDmaChannelUniqueHandle_ s' = UniqueHandle.mk (Some tx) /\
     functor_ (channels' rx) = Some RxDmaChannelFunctor /\
     functor_ (channels' tx) = Some TxDmaChannelFunctor /\
     trace' = trace ++ [Reserve Rx 0; Reserve Tx 0]).
Proof.
  intros s channels trace Hstopped Hrx Htx rx tx rxReserve channels1 txReserve.
  unfold start. rewrite Hstopped.
  unfold UniqueHandle.reserve. rewrite Hrx. cbn [UniqueHandle.release UniqueHandle.channel_].
  fold rx. fold rxReserve.
  assert (Hkeep1 := reserve_failure_keeps (channels rx) (rxDmaRequest_ s) RxDmaChannelFunctor).
  assert (Hok1 := reserve_success (channels rx) (rxDmaRequest_ s) RxDmaChannelFunctor).
  fold rxReserve in Hkeep1, Hok1.
  assert (Hkeep2 := reserve_failure_keeps (channels1 tx) (txDmaRequest_ s) TxDmaChannelFunctor).
  assert (Hok2 := reserve_success (channels1 tx) (txDmaRequest_ s) TxDmaChannelFunctor).
  fold txReserve in Hkeep2, Hok2.
  destruct rxReserve as [r1 c1] eqn:HrxReserve. simpl fst in *. simpl snd in *.
  destruct (r1 =? 0) eqn:Hr1; simpl negb; cbv iota.
  - apply Z.eqb_eq in Hr1. subst r1. simpl negb. cbv iota.
    cbn [txDmaChannelUniqueHandle_ set_rxDmaChannelUniqueHandle txDmaChannel_ txDmaRequest_
         UniqueHandle.release UniqueHandle.channel_].
    rewrite Htx. cbn [UniqueHandle.release UniqueHandle.channel_].
    fold tx. fold channels1. fold txReserve.
    destruct (Hok1 eq_refl) as [Hfree1 Hset1].
    destruct txReserve as [r2 c2] eqn:HtxReserve. simpl fst in *. simpl snd in *.
    cbv beta iota.
    destruct (r2 =? 0) eqn:Hr2; simpl negb; cbv beta iota.
    + apply Z.eqb_eq in Hr2. subst r2. simpl negb. cbv iota.
      destruct (Hok2 eq_refl) as [Hfree2 Hset2].
      assert (Hdistinct : tx <> rx).
      { intros Heq. unfold channels1 in Hfree2. rewrite Heq, update_same in Hfree2.
        congruence. }
      split; [intros H; contradiction H; reflexivity |].
      split; [intros _ H; contradiction H; reflexivity |].
      intros _ _. repeat split.
      * rewrite update_other by auto. unfold channels1. rewrite update_same. exact Hset1.
      * rewrite update_same. exact Hset2.
      * rewrite <- app_assoc. reflexivity.
    + rewrite Hr2. simpl negb. cbv beta iota. apply Z.eqb_neq in Hr2.
      cbn [rxDmaChannelUniqueHandle_ set_txDmaChannelUniqueHandle
           set_rxDmaChannelUniqueHandle UniqueHandle.release UniqueHandle.channel_].
      split; [intros H; contradiction H; reflexivity |].
      split; [| intros _ H; contradiction].
      intros _ _. specialize (Hkeep2 Hr2). subst c2.
      repeat split.
      * destruct s; simpl in *. subst. reflexivity.
      * rewrite update_same. reflexivity.
      * intros i Hi. rewrite update_other by exact Hi.
        destruct (Nat.eq_dec i tx) as [-> | Hne].
        -- rewrite update_same. unfold channels1. apply update_other. exact Hi.
        -- rewrite update_other by exact Hne. unfold channels1. apply update_other. exact Hi.
      * repeat rewrite <- app_assoc. reflexivity.
  - rewrite Hr1. simpl negb. cbv beta iota. apply Z.eqb_neq in Hr1.
    split; [| split; intros H; contradiction].
    intros _. specialize (Hkeep1 Hr1). subst c1.
    repeat split.
    + destruct s; simpl in *. subst. reflexivity.
    + intros i. destruct (Nat.eq_dec i rx) as [-> | Hne].
      * apply update_same.
      * apply update_other. exact Hne.
Qed.
End Start.

Lemma C8_dma_start_reserves_rx_then_tx_witness :
  let '(ret, (s, channels, trace)) :=
    SpiMasterLowLevelDmaBased.start
      (SpiMasterLowLevelDmaBased.exampleDriver,
       SpiMasterLowLevelDmaBased.channel3Taken, []) in
  ret = EBUSY /\
  s = SpiMasterLowLevelDmaBased.exampleDriver /\
  functor_ (channels 2%nat) = None /\
  trace = [SpiMasterLowLevelDmaBased.Reserve SpiMasterLowLevelDmaBased.Rx 0;
           SpiMasterLowLevelDmaBased.Reserve SpiMasterLowLevelDmaBased.Tx EBUSY;
           SpiMasterLowLevelDmaBased.Release SpiMasterLowLevelDmaBased.Rx].
Proof.
  pose proof (C8_dma_start_reserves_rx_then_tx
                SpiMasterLowLevelDmaBased.exampleDriver
                SpiMasterLowLevelDmaBased.channel3Taken []
                eq_refl eq_refl eq_refl) as H.
  cbv zeta in H.
  destruct (SpiMasterLowLevelDmaBased.start
              (SpiMasterLowLevelDmaBased.exampleDriver,
               SpiMasterLowLevelDmaBased.channel3Taken, []))
    as [ret [[s channels] trace]].
  destruct H as [_ [H _]].
  destruct (H eq_refl ltac:(discriminate)) as [Hret [Hs [Hfunctor [_ Htrace]]]].
  repeat split; assumption.
Defined.

(** ** [SpiMasterLowLevelDmaBased::startTransfer] *)

Section DmaStartTransfer.

Import SpiMasterLowLevelDmaBased.

Lemma dataSize_range (wordLength : Z) :
  1 <= wordLength <= 16 ->
  (wordLength + 8 - 1) / 8 = 1 \/ (wordLength + 8 - 1) / 8 = 2.
Proof.
  intros Hrange.
  assert (1 <= (wordLength + 8 - 1) / 8) by (apply Z.div_le_lower_bound; lia).
  assert ((wordLength + 8 - 1) / 8 < 3) by (apply Z.div_lt_upper_bound; lia).
  lia.
Qed.

Lemma rx_flags_sizes (dataSize : Z) (readBuffer : option Z) :
  dataSize = 1 \/ dataSize = 2 ->
  let flags := Z.lor (commonDmaFlags dataSize) (rxDmaFlags readBuffer) in
  memoryDataSize flags = dataSize /\ memoryBurstSize flags = 1 /\
  peripheralDataSize flags = dataSize /\ peripheralBurstSize flags = 1 /\
  flagSet flags Flags.transferCompleteInterruptEnable = true.
Proof.
  intros [-> | ->]; destruct readBuffer; vm_compute; auto.
Qed.

Lemma tx_flags_sizes (dataSize : Z) (writeBuffer : option Z) :
  dataSize = 1 \/ dataSize = 2 ->
  let flags := Z.lor (commonDmaFlags dataSize) (txDmaFlags writeBuffer) in
  memoryDataSize flags = dataSize /\ memoryBurstSize flags = 1 /\
  peripheralDataSize flags = dataSize /\ peripheralBurstSize flags = 1.
Proof.
  intros [-> | ->]; destruct writeBuffer; vm_compute; auto.
Qed.

Lemma holds_channel (h : UniqueHandle.t) (channel : nat) :
  holds h channel = true -> UniqueHandle.channel_ h = Some channel.
Proof.
  unfold holds. destruct (UniqueHandle.channel_ h) as [c |]; [| discriminate].
  intros H. apply Nat.eqb_eq in H. congruence.
Qed.

Lemma notifies_functor (c : DmaChannel.t) (functor : DmaChannelFunctor) :
  notifies c functor = true -> functor_ c = Some functor.
Proof.
  unfold notifies.
  destruct (functor_ c) as [[| |] |]; destruct functor; try discriminate; reflexivity.
Qed.

Lemma wired_spec (s : SpiMasterLowLevelDmaBased.t) (channels : Channels) :
  wired s channels = true ->
  started_ s = true /\ 1 <= wordLength_ s <= 16 /\
  rxDmaChannel_ s <> txDmaChannel_ s /\
  UniqueHandle.channel_ (rxDmaChannelUniqueHandle_ s) = Some (rxDmaChannel_ s) /\
  UniqueHandle.channel_ (txDmaChannelUniqueHandle_ s) = Some (txDmaChannel_ s) /\
  functor_ (channels (rxDmaChannel_ s)) = Some RxDmaChannelFunctor /\
  functor_ (channels (txDmaChannel_ s)) = Some TxDmaChannelFunctor.
Proof.
  unfold wired. intros H.
  apply andb_true_iff in H. destruct H as [H HtxFunctor].
  apply andb_true_iff in H. destruct H as [H HrxFunctor].
  apply andb_true_iff in H. destruct H as [H Htx].
  apply andb_true_iff in H. destruct H as [H Hrx].
  apply andb_true_iff in H. destruct H as [H Hdistinct].
  apply andb_true_iff in H. destruct H as [H Hmax].
  apply andb_true_iff in H. destruct H as [Hstarted Hmin].
  apply Z.leb_le in Hmin. apply Z.leb_le in Hmax.
  apply negb_true_iff in Hdistinct. apply Nat.eqb_neq in Hdistinct.
  apply holds_channel in Hrx. apply holds_channel in Htx.
  apply notifies_functor in HrxFunctor. apply notifies_functor in HtxFunctor.
  repeat split; assumption.
Qed.

Lemma ready_spec (s : SpiMasterLowLevelDmaBased.t) (channels : Channels) :
  ready s channels = true ->
  wired s channels = true /\ size_ s = 0 /\
  enabled (channels (rxDmaChannel_ s)) = false /\
  enabled (channels (txDmaChannel_ s)) = false.
Proof.
  unfold ready. intros H.
  apply andb_true_iff in H. destruct H as [H HtxOff].
  apply andb_true_iff in H. destruct H as [H HrxOff].
  apply andb_true_iff in H. destruct H as [Hwired Hidle].
  apply Z.eqb_eq in Hidle.
  apply negb_true_iff in HrxOff. apply negb_true_iff in HtxOff.
  repeat split; assumption.
Qed.

Lemma configureTransfer_idle (c : DmaChannel.t)
    (memoryAddress peripheralAddress transactions flags dataSize : Z) :
  enabled c = false ->
  dataSize = 1 \/ dataSize = 2 ->
  memoryDataSize flags = dataSize -> memoryBurstSize flags = 1 ->
  peripheralDataSize flags = dataSize -> peripheralBurstSize flags = 1 ->
  (memoryAddress mod dataSize =? 0) = true ->
  (peripheralAddress mod dataSize =? 0) = true ->
  0 < transactions ->
  DmaChannel.configureTransfer c memoryAddress peripheralAddress transactions flags =
  if 65535 <? transactions then (ENOTSUP, c)
  else (0, DmaChannel.mk (functor_ c) (request_ c) false transactions memoryAddress
             peripheralAddress flags).
Proof.
  intros Hoff HdataSize Hmds Hmbs Hpds Hpbs Hmemory Hperipheral Htransactions.
  unfold DmaChannel.configureTransfer.
  rewrite Hoff, Hmds, Hmbs, Hpds, Hpbs.
  replace (Z.min (dataSize * 1) 16) with dataSize by (destruct HdataSize; subst; reflexivity).
  replace (dataSize * 1) with dataSize by lia.
  rewrite Hmemory, Hperipheral.
  replace (transactions =? 0) with false by (symmetry; apply Z.eqb_neq; lia).
  reflexivity.
Qed.

Lemma positive_multiple (size dataSize : Z) :
  0 < dataSize -> 0 < size -> size mod dataSize = 0 -> 0 < size / dataSize.
Proof.
  intros HdataSize Hsize Hmultiple.
  pose proof (Z.div_mod size dataSize) as Hdivision.
  assert (Hle : dataSize <= size).
  { destruct (Z_lt_ge_dec size dataSize) as [Hlt | Hge]; [| lia].
    rewrite Z.mod_small in Hmultiple; lia. }
  apply Z.div_str_pos. lia.
Qed.

Lemma startTransfer_ready (s : SpiMasterLowLevelDmaBased.t) (channels : Channels)
    (trace : list Operation) (spiMasterBase : SpiMasterBase)
    (writeBuffer readBuffer : option Z) (size : Z) :
  ready s channels = true ->
  aligned s writeBuffer readBuffer = true ->
  let dataSize := (wordLength_ s + 8 - 1) / 8 in
  0 < size -> size mod dataSize = 0 ->
  if 65535 <? size / dataSize then
    status (startTransfer (s, channels, trace) spiMasterBase writeBuffer readBuffer size)
    = Ok ENOTSUP
  else
    exists channels',
      startTransfer (s, channels, trace) spiMasterBase writeBuffer readBuffer size
      = Ok (0, (set_size (set_spiMasterBase s (Some spiMasterBase)) size, channels',
                trace ++ [ConfigureTransfer Rx 0; ConfigureTransfer Tx 0;
                          StartTransfer Rx 0; StartTransfer Tx 0])) /\
      enabled (channels' (rxDmaChannel_ s)) = true /\
      enabled (channels' (txDmaChannel_ s)) = true /\
      transactionsLeft (channels' (rxDmaChannel_ s)) = size / dataSize /\
      transactionsLeft (channels' (txDmaChannel_ s)) = size / dataSize /\
      functor_ (channels' (rxDmaChannel_ s)) = Some RxDmaChannelFunctor /\
      functor_ (channels' (txDmaChannel_ s)) = Some TxDmaChannelFunctor /\
      flagSet (flags (channels' (rxDmaChannel_ s))) Flags.transferCompleteInterruptEnable
      = true.
Proof.
  intros Hready Haligned dataSize Hsize Hmultiple.
  apply ready_spec in Hready. destruct Hready as (Hwired & Hidle & HrxOff & HtxOff).
  apply wired_spec in Hwired.
  destruct Hwired as (Hstarted & Hword & Hdistinct & Hrx & Htx & HrxFunctor & HtxFunctor).
  pose proof (dataSize_range _ Hword) as HdataSize. fold dataSize in HdataSize.
  unfold aligned in Haligned. fold dataSize in Haligned.
  apply andb_true_iff in Haligned. destruct Haligned as [Haligned HdrAligned].
  apply andb_true_iff in Haligned. destruct Haligned as [HrxAligned HtxAligned].
  unfold startTransfer.
  replace (size =? 0) with false by (symmetry; apply Z.eqb_neq; lia).
  unfold isStarted, isTransferInProgress. rewrite Hstarted, Hidle. simpl negb. cbv iota.
  fold dataSize.
  replace (dataSize =? 0) with false by (symmetry; apply Z.eqb_neq; lia).
  rewrite Hmultiple. simpl negb. cbv iota.
  assert (Htransactions : 0 < size / dataSize).
  { apply positive_multiple; [destruct HdataSize; lia | assumption | assumption]. }
  destruct (rx_flags_sizes dataSize readBuffer HdataSize) as (Hr1 & Hr2 & Hr3 & Hr4 & Hr5).
  destruct (tx_flags_sizes dataSize writeBuffer HdataSize) as (Ht1 & Ht2 & Ht3 & Ht4).
  unfold UniqueHandle.configureTransfer at 1 3. rewrite Hrx.
  rewrite (configureTransfer_idle (channels (rxDmaChannel_ s)) _ _ _ _ dataSize
             HrxOff HdataSize Hr1 Hr2 Hr3 Hr4 HrxAligned HdrAligned Htransactions).
  destruct (65535 <? size / dataSize) eqn:Hlimit; cbv beta iota.
  - reflexivity.
  - change (negb (0 =? 0)) with false. cbv beta iota.
    unfold UniqueHandle.configureTransfer. rewrite Htx.
    rewrite update_other by auto.
    rewrite (configureTransfer_idle (channels (txDmaChannel_ s)) _ _ _ _ dataSize
               HtxOff HdataSize Ht1 Ht2 Ht3 Ht4 HtxAligned HdrAligned Htransactions).
    rewrite Hlimit. cbv beta iota.
    change (negb (0 =? 0)) with false. cbv beta iota.
    unfold UniqueHandle.startTransfer.
    cbn [rxDmaChannelUniqueHandle_ txDmaChannelUniqueHandle_ set_size set_spiMasterBase].
    rewrite Hrx, Htx.
    rewrite update_other by auto. rewrite update_same.
    unfold DmaChannel.startTransfer at 1. cbn [enabled]. cbv beta iota.
    change (negb (0 =? 0)) with false. cbv beta iota.
    rewrite update_other by auto. rewrite update_same.
    unfold DmaChannel.startTransfer at 1. cbn [enabled]. cbv beta iota.
    change (negb (0 =? 0)) with false. cbv beta iota.
    eexists. split.
    + repeat rewrite <- app_assoc. reflexivity.
    + rewrite update_same.
      rewrite (update_other _ _ (rxDmaChannel_ s)) by auto. rewrite update_same.
      cbn. rewrite HrxFunctor, HtxFunctor. repeat split; try reflexivity. exact Hr5.
Qed.
End DmaStartTransfer.

(** ** The size accepted by [startTransfer] *)

Lemma ChipSpiMasterLowLevel_startTransfer_status (s : ChipSpiMasterLowLevel.t)
    (spiMasterBase : SpiMasterBase) (writeBuffer readBuffer : option Z) (size : Z) :
  ChipSpiMasterLowLevel.isStarted s = true ->
  ChipSpiMasterLowLevel.isTransferInProgress s = false ->
  let dataSize :=
    (ChipSpiMasterLowLevel.getWordLength (ChipSpiMasterLowLevel.CR2 s) + 8 - 1) / 8 in
  fst (ChipSpiMasterLowLevel.startTransfer s spiMasterBase writeBuffer readBuffer size) =
  if (size =? 0) || negb (size mod dataSize =? 0) then EINVAL else 0.
Proof.
  intros Hstarted Hidle dataSize. unfold ChipSpiMasterLowLevel.startTransfer.
  rewrite Hstarted, Hidle. fold dataSize.
  destruct (size =? 0); [reflexivity |].
  destruct (size mod dataSize =? 0); reflexivity.
Qed.

Lemma SpiMasterLowLevelDmaBased_startTransfer_invalid
    (s : SpiMasterLowLevelDmaBased.t) (channels : Channels)
    (trace : list SpiMasterLowLevelDmaBased.Operation) (spiMasterBase : SpiMasterBase)
    (writeBuffer readBuffer : option Z) (size : Z) :
  SpiMasterLowLevelDmaBased.ready s channels = true ->
  let dataSize := (SpiMasterLowLevelDmaBased.wordLength_ s + 8 - 1) / 8 in
  (size =? 0) || negb (size mod dataSize =? 0) = true ->
  SpiMasterLowLevelDmaBased.startTransfer (s, channels, trace) spiMasterBase writeBuffer
    readBuffer size = Ok (EINVAL, (s, channels, trace)).
Proof.
  intros Hready dataSize Hinvalid.
  apply ready_spec in Hready. destruct Hready as (Hwired & Hidle & _).
  apply wired_spec in Hwired. destruct Hwired as (Hstarted & Hword & _).
  pose proof (dataSize_range _ Hword) as HdataSize. fold dataSize in HdataSize.
  unfold SpiMasterLowLevelDmaBased.startTransfer.
  destruct (size =? 0); [reflexivity |].
  unfold SpiMasterLowLevelDmaBased.isStarted, SpiMasterLowLevelDmaBased.isTransferInProgress.
  rewrite Hstarted, Hidle. simpl negb. cbv iota. fold dataSize.
  replace (dataSize =? 0) with false by (symmetry; apply Z.eqb_neq; lia).
  simpl in Hinvalid. rewrite Hinvalid. reflexivity.
Qed.

(** C7, as stated, fails for the DMA-based driver: on a started, idle driver
    with 8-bit words, a size of 65536 bytes is a positive multiple of the
    data size, yet [startTransfer] returns [ENOTSUP], the error of the RX
    channel's [configureTransfer] for more than 65535 transactions. *)
Lemma C7_counterexample :
  let '(s, channels, trace) := SpiMasterLowLevelDmaBased.exampleStarted in
  SpiMasterLowLevelDmaBased.isStarted s = true /\
  SpiMasterLowLevelDmaBased.isTransferInProgress s = false /\
  0 < 65536 /\
  65536 mod ((SpiMasterLowLevelDmaBased.wordLength_ s + 8 - 1) / 8) = 0 /\
  SpiMasterLowLevelDmaBased.status
    (SpiMasterLowLevelDmaBased.startTransfer (s, channels, trace) 1%nat None None 65536)
  <> Ok 0.
Proof.
  vm_compute. repeat split; discriminate.
Qed.

(** C7, amended.  On a started, idle driver, [startTransfer] returns
    [EINVAL] if the size is 0 or not a multiple of the data size
    [(wordLength + 7) / 8], in both variants.  For a size that is a positive
    multiple of the data size, the interrupt-based driver returns 0; the
    DMA-based driver (its channels idle, buffers and data register aligned
    to the data size) returns 0 when the transfer has at most 65535
    transactions and [ENOTSUP] when it has more. *)
Theorem C7_startTransfer_size :
  (forall (s : ChipSpiMasterLowLevel.t) (spiMasterBase : SpiMasterBase)
          (writeBuffer readBuffer : option Z) (size : Z),
      ChipSpiMasterLowLevel.isStarted s = true ->
      ChipSpiMasterLowLevel.isTransferInProgress s = false ->
      let dataSize :=
        (ChipSpiMasterLowLevel.getWordLength (ChipSpiMasterLowLevel.CR2 s) + 8 - 1) / 8 in
      fst (ChipSpiMasterLowLevel.startTransfer s spiMasterBase writeBuffer readBuffer size)
      = if (size =? 0) || negb (size mod dataSize =? 0) then EINVAL else 0) /\
  (forall (s : SpiMasterLowLevelDmaBased.t) (channels : Channels)
          (trace : list SpiMasterLowLevelDmaBased.Operation)
          (spiMasterBase : SpiMasterBase) (writeBuffer readBuffer : option Z) (size : Z),
      SpiMasterLowLevelDmaBased.ready s channels = true ->
      SpiMasterLowLevelDmaBased.aligned s writeBuffer readBuffer = true ->
      0 <= size ->
      let dataSize := (SpiMasterLowLevelDmaBased.wordLength_ s + 8 - 1) / 8 in
      SpiMasterLowLevelDmaBased.status
        (SpiMasterLowLevelDmaBased.startTransfer (s, channels, trace) spiMasterBase
           writeBuffer readBuffer size)
      = Ok (if (size =? 0) || negb (size mod dataSize =? 0) then EINVAL
            else if 65535 <? size / dataSize then ENOTSUP
            else 0)).
Proof.
  split.
  - intros s spiMasterBase writeBuffer readBuffer size Hstarted Hidle.
    apply ChipSpiMasterLowLevel_startTransfer_status; assumption.
  - intros s channels trace spiMasterBase writeBuffer readBuffer size Hready Haligned
      Hsize dataSize.
    destruct ((size =? 0) || negb (size mod dataSize =? 0)) eqn:Hinvalid.
    + rewrite (SpiMasterLowLevelDmaBased_startTransfer_invalid s channels trace
                 spiMasterBase writeBuffer readBuffer size Hready Hinvalid).
      reflexivity.
    + apply orb_false_iff in Hinvalid. destruct Hinvalid as [Hnonzero Hmultiple].
      apply Z.eqb_neq in Hnonzero. apply negb_false_iff in Hmultiple.
      apply Z.eqb_eq in Hmultiple.
      assert (Hpositive : 0 < size) by lia.
      pose proof (startTransfer_ready s channels trace spiMasterBase writeBuffer
                    readBuffer size Hready Haligned Hpositive Hmultiple) as Hresult.
      fold dataSize in Hresult.
      destruct (65535 <? size / dataSize).
      * exact Hresult.
      * destruct Hresult as [channels' [Hresult _]]. rewrite Hresult. reflexivity.
Qed.

Lemma C7_startTransfer_size_witness :
  fst (ChipSpiMasterLowLevel.startTransfer (ChipSpiMasterLowLevel.exampleConfigured 12)
         1%nat None None 1) = EINVAL /\
  fst (ChipSpiMasterLowLevel.startTransfer (ChipSpiMasterLowLevel.exampleConfigured 12)
         1%nat None None 10) = 0 /\
  (let '(s, channels, trace) := SpiMasterLowLevelDmaBased.exampleStarted in
   SpiMasterLowLevelDmaBased.status
     (SpiMasterLowLevelDmaBased.startTransfer (s, channels, trace) 1%nat None None 65535)
   = Ok 0).
Proof.
  split; [| split].
  - apply (proj1 C7_startTransfer_size (ChipSpiMasterLowLevel.exampleConfigured 12)
             1%nat None None 1); reflexivity.
  - apply (proj1 C7_startTransfer_size (ChipSpiMasterLowLevel.exampleConfigured 12)
             1%nat None None 10); reflexivity.
  - exact (proj2 C7_startTransfer_size
             (fst (fst SpiMasterLowLevelDmaBased.exampleStarted))
             (snd (fst SpiMasterLowLevelDmaBased.exampleStarted))
             (snd SpiMasterLowLevelDmaBased.exampleStarted)
             1%nat None None 65535 eq_refl eq_refl ltac:(discriminate)).
Defined.

(** ** The driver as the observer finds it *)

Section Reentrancy.

Lemma wired_intro (s : SpiMasterLowLevelDmaBased.t) (channels : Channels) :
  SpiMasterLowLevelDmaBased.started_ s = true ->
  1 <= SpiMasterLowLevelDmaBased.wordLength_ s <= 16 ->
  SpiMasterLowLevelDmaBased.rxDmaChannel_ s <> SpiMasterLowLevelDmaBased.txDmaChannel_ s ->
  UniqueHandle.channel_ (SpiMasterLowLevelDmaBased.rxDmaChannelUniqueHandle_ s)
  = Some (SpiMasterLowLevelDmaBased.rxDmaChannel_ s) ->
  UniqueHandle.channel_ (SpiMasterLowLevelDmaBased.txDmaChannelUniqueHandle_ s)
  = Some (SpiMasterLowLevelDmaBased.txDmaChannel_ s) ->
  functor_ (channels (SpiMasterLowLevelDmaBased.rxDmaChannel_ s)) = Some RxDmaChannelFunctor ->
  functor_ (channels (SpiMasterLowLevelDmaBased.txDmaChannel_ s)) = Some TxDmaChannelFunctor ->
  SpiMasterLowLevelDmaBased.wired s channels = true.
Proof.
  intros Hstarted [Hmin Hmax] Hdistinct Hrx Htx HrxFunctor HtxFunctor.
  unfold SpiMasterLowLevelDmaBased.wired, SpiMasterLowLevelDmaBased.holds,
    SpiMasterLowLevelDmaBased.notifies.
  rewrite Hstarted, Hrx, Htx, HrxFunctor, HtxFunctor.
  apply Z.leb_le in Hmin. apply Z.leb_le in Hmax. apply Nat.eqb_neq in Hdistinct.
  rewrite Hmin, Hmax, Hdistinct, !Nat.eqb_refl. reflexivity.
Qed.

Lemma update_stopTransfer (channels : Channels) (channel i : nat) :
  functor_ (update channels channel (DmaChannel.stopTransfer (channels channel)) i)
  = functor_ (channels i) /\
  transactionsLeft (update channels channel (DmaChannel.stopTransfer (channels channel)) i)
  = transactionsLeft (channels i).
Proof.
  unfold update. destruct (Nat.eqb i channel) eqn:Heq; [| auto].
  apply Nat.eqb_eq in Heq. subst i. simpl. auto.
Qed.

Lemma stopped_functor (s : SpiMasterLowLevelDmaBased.t) (channels : Channels) (i : nat) :
  functor_ (SpiMasterLowLevelDmaBased.stopped s channels i) = functor_ (channels i) /\
  transactionsLeft (SpiMasterLowLevelDmaBased.stopped s channels i)
  = transactionsLeft (channels i).
Proof.
  unfold SpiMasterLowLevelDmaBased.stopped, UniqueHandle.stopTransfer.
  destruct (UniqueHandle.channel_ (SpiMasterLowLevelDmaBased.txDmaChannelUniqueHandle_ s))
    as [tx |];
    destruct (UniqueHandle.channel_ (SpiMasterLowLevelDmaBased.rxDmaChannelUniqueHandle_ s))
      as [rx |]; cbn [snd].
  - destruct (update_stopTransfer
                (update channels tx (DmaChannel.stopTransfer (channels tx))) rx i)
      as [-> ->].
    apply update_stopTransfer.
  - apply update_stopTransfer.
  - apply update_stopTransfer.
  - auto.
Qed.

Lemma completion_ready (s : SpiMasterLowLevelDmaBased.t) (channels : Channels) :
  SpiMasterLowLevelDmaBased.wired s channels = true ->
  SpiMasterLowLevelDmaBased.ready (SpiMasterLowLevelDmaBased.cleared s)
    (SpiMasterLowLevelDmaBased.stopped s channels) = true.
Proof.
  intros Hwired. pose proof Hwired as Hfacts. apply wired_spec in Hfacts.
  destruct Hfacts as (Hstarted & Hword & Hdistinct & Hrx & Htx & HrxFunctor & HtxFunctor).
  unfold SpiMasterLowLevelDmaBased.ready.
  rewrite wired_intro.
  - cbn [SpiMasterLowLevelDmaBased.cleared SpiMasterLowLevelDmaBased.size_
         SpiMasterLowLevelDmaBased.set_spiMasterBase SpiMasterLowLevelDmaBased.set_size
         SpiMasterLowLevelDmaBased.rxDmaChannel_ SpiMasterLowLevelDmaBased.txDmaChannel_].
    rewrite (stopped_rx_disabled s channels _ Hrx), (stopped_tx_disabled s channels _ Htx).
    reflexivity.
  - exact Hstarted.
  - exact Hword.
  - exact Hdistinct.
  - exact Hrx.
  - exact Htx.
  - cbn. rewrite (proj1 (stopped_functor s channels _)). exact HrxFunctor.
  - cbn. rewrite (proj1 (stopped_functor s channels _)). exact HtxFunctor.
Qed.

End Reentrancy.

(** C2.  In both drivers every completion clears the transfer state and the
    stored observer pointer before [transferCompleteEvent] is called: the
    observer finds a driver with no transfer in progress and no observer
    registered, and a [startTransfer] with a valid size issued from within
    the callback returns 0 (for the DMA-based driver: with at most 65535
    transactions and aligned buffers, as for any [startTransfer]). *)
Theorem C2_state_cleared_before_callback :
  (forall (s : ChipSpiMasterLowLevel.t) (memory : Memory) (events : list Event)
          (hw : ChipSpiMasterLowLevel.Hardware) (spiMasterBase : SpiMasterBase),
      ChipSpiMasterLowLevel.spiMasterBase_ s = Some spiMasterBase ->
      fst (ChipSpiMasterLowLevel.interruptHandlerBranch (s, memory, events) hw) = true ->
      exists s' memory' events' bytesTransfered,
        (forall callback,
            ChipSpiMasterLowLevel.interruptHandler callback (s, memory, events) hw
            = callback spiMasterBase bytesTransfered (s', memory', events')) /\
        ChipSpiMasterLowLevel.spiMasterBase_ s' = None /\
        ChipSpiMasterLowLevel.size_ s' = 0 /\
        ChipSpiMasterLowLevel.readPosition_ s' = 0 /\
        ChipSpiMasterLowLevel.writePosition_ s' = 0 /\
        ChipSpiMasterLowLevel.readBuffer_ s' = None /\
        ChipSpiMasterLowLevel.writeBuffer_ s' = None /\
        ChipSpiMasterLowLevel.isTransferInProgress s' = false /\
        (ChipSpiMasterLowLevel.isStarted s = true ->
         forall (observer : SpiMasterBase) (writeBuffer readBuffer : option Z) (size : Z),
           0 < size ->
           size mod ((ChipSpiMasterLowLevel.getWordLength (ChipSpiMasterLowLevel.CR2 s')
                      + 8 - 1) / 8) = 0 ->
           fst (ChipSpiMasterLowLevel.startTransfer s' observer writeBuffer readBuffer size)
           = 0)) /\
  (forall (s : SpiMasterLowLevelDmaBased.t) (channels : Channels)
          (trace : list SpiMasterLowLevelDmaBased.Operation) (transactionsLeft : Z)
          (spiMasterBase : SpiMasterBase),
      SpiMasterLowLevelDmaBased.spiMasterBase_ s = Some spiMasterBase ->
      exists s' channels' trace',
        (forall callback,
            SpiMasterLowLevelDmaBased.eventHandler callback (s, channels, trace)
              transactionsLeft
            = callback spiMasterBase
                (SpiMasterLowLevelDmaBased.bytesTransfered s transactionsLeft)
                (s', channels', trace')) /\
        SpiMasterLowLevelDmaBased.spiMasterBase_ s' = None /\
        SpiMasterLowLevelDmaBased.size_ s' = 0 /\
        SpiMasterLowLevelDmaBased.isTransferInProgress s' = false /\
        (SpiMasterLowLevelDmaBased.wired s channels = true ->
         forall (observer : SpiMasterBase) (writeBuffer readBuffer : option Z) (size : Z),
           SpiMasterLowLevelDmaBased.aligned s' writeBuffer readBuffer = true ->
           0 < size ->
           size mod ((SpiMasterLowLevelDmaBased.wordLength_ s' + 8 - 1) / 8) = 0 ->
           size / ((SpiMasterLowLevelDmaBased.wordLength_ s' + 8 - 1) / 8) <= 65535 ->
           SpiMasterLowLevelDmaBased.status
             (SpiMasterLowLevelDmaBased.startTransfer (s', channels', trace') observer
                writeBuffer readBuffer size) = Ok 0)).
Proof.
  split.
  - intros s memory events hw spiMasterBase Hobserver Hdone.
    destruct (ChipSpiMasterLowLevel.interruptHandlerBranch (s, memory, events) hw)
      as [done [[s1 memory1] events1]] eqn:Hbranch.
    simpl in Hdone. subst done.
    destruct (interruptHandlerBranch_keeps _ _ _ _ _ _ _ _ Hbranch)
      as (Hobserver1 & Hstarted1 & _).
    eexists _, _, _, _. split.
    { intros callback. unfold ChipSpiMasterLowLevel.interruptHandler.
      rewrite Hbranch. unfold ChipSpiMasterLowLevel.transferFinished.
      rewrite Hobserver1, Hobserver. reflexivity. }
    repeat split.
    intros Hstarted observer writeBuffer readBuffer size Hsize Hmultiple.
    rewrite ChipSpiMasterLowLevel_startTransfer_status.
    + rewrite Hmultiple.
      replace (size =? 0) with false by (symmetry; apply Z.eqb_neq; lia).
      reflexivity.
    + unfold ChipSpiMasterLowLevel.isStarted in *. simpl. congruence.
    + reflexivity.
  - intros s channels trace transactionsLeft spiMasterBase Hobserver.
    eexists _, _, _. split.
    { intros callback. apply eventHandler_unfold. exact Hobserver. }
    repeat split.
    intros Hwired observer writeBuffer readBuffer size Haligned Hsize Hmultiple Hlimit.
    pose proof (startTransfer_ready _ _
                  (trace ++ [SpiMasterLowLevelDmaBased.StopTransfer SpiMasterLowLevelDmaBased.Tx;
                             SpiMasterLowLevelDmaBased.StopTransfer SpiMasterLowLevelDmaBased.Rx;
                             SpiMasterLowLevelDmaBased.ComputeBytesTransfered
                               (SpiMasterLowLevelDmaBased.bytesTransfered s transactionsLeft);
                             SpiMasterLowLevelDmaBased.ClearSize;
                             SpiMasterLowLevelDmaBased.ClearSpiMasterBase;
                             SpiMasterLowLevelDmaBased.CallTransferCompleteEvent spiMasterBase
                               (SpiMasterLowLevelDmaBased.bytesTransfered s transactionsLeft)])
                  observer writeBuffer readBuffer size
                  (completion_ready s channels Hwired) Haligned Hsize Hmultiple) as Hresult.
    cbv zeta in Hresult.
    replace (65535 <? size / ((SpiMasterLowLevelDmaBased.wordLength_
                                (SpiMasterLowLevelDmaBased.cleared s) + 8 - 1) / 8))
      with false in Hresult by (symmetry; apply Z.ltb_ge; exact Hlimit).
    destruct Hresult as [channels' [Hresult _]]. rewrite Hresult. reflexivity.
Qed.

Lemma C2_state_cleared_before_callback_witness :
  (exists bytesTransfered w,
      forall callback,
        ChipSpiMasterLowLevel.interruptHandler callback
          (ChipSpiMasterLowLevel.exampleTransfer 8 None (Some 4096) 1,
           ChipSpiMasterLowLevel.zeroMemory, [])
          (ChipSpiMasterLowLevel.mkHardware SPI_SR_RXNE 159)
        = callback 1%nat bytesTransfered w) /\
  (exists w,
      forall callback,
        SpiMasterLowLevelDmaBased.eventHandler callback
          (SpiMasterLowLevelDmaBased.transferOf10Bytes, (fun _ => DmaChannel.constructed), [])
          0
        = callback 1%nat 10 w).
Proof.
  split.
  - destruct (proj1 C2_state_cleared_before_callback
                (ChipSpiMasterLowLevel.exampleTransfer 8 None (Some 4096) 1)
                ChipSpiMasterLowLevel.zeroMemory []
                (ChipSpiMasterLowLevel.mkHardware SPI_SR_RXNE 159) 1%nat
                eq_refl eq_refl)
      as (s' & memory' & events' & bytesTransfered & Hcall & _).
    exists bytesTransfered, (s', memory', events'). exact Hcall.
  - destruct (proj2 C2_state_cleared_before_callback
                SpiMasterLowLevelDmaBased.transferOf10Bytes
                (fun _ => DmaChannel.constructed) [] 0 1%nat eq_refl)
      as (s' & channels' & trace' & Hcall & _).
    exists (s', channels', trace'). exact Hcall.
Defined.

(** ** Bits of the control register *)

Section Bits.

Lemma land_pow2 (x k : Z) :
  0 <= k -> Z.land x (2 ^ k) = if Z.testbit x k then 2 ^ k else 0.
Proof.
  intros Hk. apply Z.bits_inj'. intros n Hn.
  rewrite Z.land_spec, Z.pow2_bits_eqb by exact Hk.
  destruct (Z.eqb_spec k n) as [<- | Hne].
  - rewrite andb_true_r. destruct (Z.testbit x k) eqn:Hbit.
    + rewrite Z.pow2_bits_true by exact Hk. reflexivity.
    + rewrite Z.bits_0. reflexivity.
  - rewrite andb_false_r. destruct (Z.testbit x k).
    + rewrite Z.pow2_bits_false by exact Hne. reflexivity.
    + rewrite Z.bits_0. reflexivity.
Qed.

Lemma flagSet_testbit (x k : Z) :
  0 <= k -> flagSet x (Z.shiftl 1 k) = Z.testbit x k.
Proof.
  intros Hk. unfold flagSet. rewrite Z.shiftl_1_l, land_pow2 by exact Hk.
  destruct (Z.testbit x k); [| reflexivity].
  assert (0 < 2 ^ k) by (apply Z.pow_pos_nonneg; lia).
  replace (2 ^ k =? 0) with false by (symmetry; apply Z.eqb_neq; lia).
  reflexivity.
Qed.

Lemma flagSet_setBits (x mask k : Z) :
  0 <= k ->
  flagSet (setBits x mask) (Z.shiftl 1 k) = flagSet x (Z.shiftl 1 k) || Z.testbit mask k.
Proof.
  intros Hk. rewrite !flagSet_testbit by exact Hk. apply Z.lor_spec.
Qed.

Lemma flagSet_clearBits (x mask k : Z) :
  0 <= k ->
  flagSet (clearBits x mask) (Z.shiftl 1 k)
  = flagSet x (Z.shiftl 1 k) && negb (Z.testbit mask k).
Proof.
  intros Hk. rewrite !flagSet_testbit by exact Hk.
  unfold clearBits. rewrite Z.land_spec, Z.lnot_spec by exact Hk. reflexivity.
Qed.

Lemma low_mask_bits (mask n : Z) :
  0 <= mask < 256 -> 8 <= n -> Z.testbit mask n = false.
Proof.
  intros Hmask Hn. apply Z.bits_above_log2; [lia |].
  destruct (Z.eq_dec mask 0) as [-> | Hnonzero]; [simpl; lia |].
  assert (Z.log2 mask < 8) by (apply Z.log2_lt_pow2; simpl; lia).
  lia.
Qed.

Lemma getWordLength_bits (x y : Z) :
  (forall n, 8 <= n < 12 -> Z.testbit x n = Z.testbit y n) ->
  ChipSpiMasterLowLevel.getWordLength x = ChipSpiMasterLowLevel.getWordLength y.
Proof.
  intros Hbits. unfold ChipSpiMasterLowLevel.getWordLength.
  replace (Z.land (u16 x) SPI_CR2_DS) with (Z.land (u16 y) SPI_CR2_DS); [reflexivity |].
  apply Z.bits_inj'. intros n Hn.
  rewrite !Z.land_spec. unfold u16.
  rewrite !Z.testbit_mod_pow2 by lia.
  unfold SPI_CR2_DS, SPI_CR2_DS_Pos.
  rewrite Z.shiftl_spec by exact Hn.
  change 15 with (Z.ones 4). rewrite Z.testbit_ones by lia.
  destruct (Z_le_gt_dec 8 n) as [Hlow | Hlow];
    [destruct (Z_lt_ge_dec n 12) as [Hhigh | Hhigh] |].
  - rewrite (Hbits n) by lia. reflexivity.
  - replace (n - 8 <? 4) with false by (symmetry; apply Z.ltb_ge; lia).
    rewrite !andb_false_r. reflexivity.
  - replace (0 <=? n - 8) with false by (symmetry; apply Z.leb_gt; lia).
    rewrite !andb_false_r. reflexivity.
Qed.

Lemma getWordLength_setBits (x mask : Z) :
  0 <= mask < 256 ->
  ChipSpiMasterLowLevel.getWordLength (setBits x mask)
  = ChipSpiMasterLowLevel.getWordLength x.
Proof.
  intros Hmask. apply getWordLength_bits. intros n Hn.
  unfold setBits. rewrite Z.lor_spec, (low_mask_bits mask n) by lia.
  apply orb_false_r.
Qed.

Lemma getWordLength_clearBits (x mask : Z) :
  0 <= mask < 256 ->
  ChipSpiMasterLowLevel.getWordLength (clearBits x mask)
  = ChipSpiMasterLowLevel.getWordLength x.
Proof.
  intros Hmask. apply getWordLength_bits. intros n Hn.
  unfold clearBits. rewrite Z.land_spec, Z.lnot_spec, (low_mask_bits mask n) by lia.
  apply andb_true_r.
Qed.

Lemma getWordLength_range (x : Z) :
  1 <= ChipSpiMasterLowLevel.getWordLength x <= 16.
Proof.
  unfold ChipSpiMasterLowLevel.getWordLength.
  assert (Hfield : 0 <= Z.shiftr (Z.land (u16 x) SPI_CR2_DS) SPI_CR2_DS_Pos < 16).
  { rewrite Z.shiftr_land.
    change (Z.shiftr SPI_CR2_DS SPI_CR2_DS_Pos) with (Z.ones 4).
    rewrite Z.land_ones by lia. apply Z.mod_pos_bound. reflexivity. }
  unfold u8. rewrite Z.mod_small; [lia |]. change (2 ^ 8) with 256. lia.
Qed.

End Bits.

Lemma configured_wordLength (cr2 wordLength frxth : Z) :
  4 <= wordLength <= 16 ->
  ChipSpiMasterLowLevel.getWordLength
    (Z.lor (Z.lor (clearBits cr2 (Z.lor SPI_CR2_FRXTH SPI_CR2_DS))
              (Z.shiftl frxth SPI_CR2_FRXTH_Pos))
       (Z.shiftl (wordLength - 1) SPI_CR2_DS_Pos))
  = wordLength.
Proof.
  intros Hrange.
  rewrite (getWordLength_bits _ (Z.shiftl (wordLength - 1) SPI_CR2_DS_Pos)).
  - assert (Hcases : wordLength = 4 \/ wordLength = 5 \/ wordLength = 6 \/ wordLength = 7
                     \/ wordLength = 8 \/ wordLength = 9 \/ wordLength = 10
                     \/ wordLength = 11 \/ wordLength = 12 \/ wordLength = 13
                     \/ wordLength = 14 \/ wordLength = 15 \/ wordLength = 16) by lia.
    repeat (destruct Hcases as [-> | Hcases]; [reflexivity |]). subst. reflexivity.
  - intros n Hn. rewrite !Z.lor_spec. unfold clearBits.
    rewrite Z.land_spec, Z.lnot_spec by lia.
    assert (Hmask : Z.testbit (Z.lor SPI_CR2_FRXTH SPI_CR2_DS) n = true).
    { assert (Hbit : n = 8 \/ n = 9 \/ n = 10 \/ n = 11) by lia.
      destruct Hbit as [-> | [-> | [-> | ->]]]; reflexivity. }
    assert (Hfrxth : Z.testbit (Z.shiftl frxth SPI_CR2_FRXTH_Pos) n = false).
    { apply Z.shiftl_spec_low. unfold SPI_CR2_FRXTH_Pos. lia. }
    rewrite Hmask, Hfrxth, andb_false_r. reflexivity.
Qed.

(** A successful [configure] programs the word length that [startTransfer]
    and the interrupt handler read back from [CR2]. *)
Lemma configure_wordLength (s s' : ChipSpiMasterLowLevel.t) (mode : SpiMode)
    (clockFrequency wordLength dummyData frequency : Z) (lsbFirst : bool) :
  ChipSpiMasterLowLevel.configure s mode clockFrequency wordLength lsbFirst dummyData
  = Ok (0, frequency, s') ->
  ChipSpiMasterLowLevel.getWordLength (ChipSpiMasterLowLevel.CR2 s') = wordLength /\
  ChipSpiMasterLowLevel.isStarted s' = true /\
  ChipSpiMasterLowLevel.isTransferInProgress s' = false.
Proof.
  unfold ChipSpiMasterLowLevel.configure.
  destruct ((wordLength <? ChipSpiMasterLowLevel.minWordLength)
            || (ChipSpiMasterLowLevel.maxWordLength <? wordLength)) eqn:Hrange;
    [discriminate |].
  destruct (ChipSpiMasterLowLevel.isStarted s) eqn:Hstarted; [| discriminate].
  destruct (ChipSpiMasterLowLevel.isTransferInProgress s) eqn:Hidle; [discriminate |].
  cbn [negb].
  destruct (clockFrequency =? 0); [discriminate |].
  destruct (256 <? _); [discriminate |].
  intros Hresult.
  apply orb_false_iff in Hrange. destruct Hrange as [Hmin Hmax].
  apply Z.ltb_ge in Hmin. apply Z.ltb_ge in Hmax.
  unfold ChipSpiMasterLowLevel.minWordLength, ChipSpiMasterLowLevel.maxWordLength in *.
  injection Hresult as _ Hs'. subst s'.
  unfold ChipSpiMasterLowLevel.isStarted, ChipSpiMasterLowLevel.isTransferInProgress in *.
  cbn [ChipSpiMasterLowLevel.CR2 ChipSpiMasterLowLevel.started_ ChipSpiMasterLowLevel.size_].
  split; [apply configured_wordLength; lia |].
  split; assumption.
Qed.

(** ** The idle interrupt handler *)

Section OneCallbackInterruptBased.

Import ChipSpiMasterLowLevel.

Lemma quiet_ignores (callback : Callback) (s : ChipSpiMasterLowLevel.t) (memory : Memory)
    (events : list Event) (hw : Hardware) :
  quiet s ->
  interruptHandler callback (s, memory, events) hw = Ok (s, memory, events).
Proof.
  intros (_ & Herrie & Hrxneie & Htxeie).
  unfold interruptHandler, interruptHandlerBranch.
  rewrite Herrie, Hrxneie, Htxeie, !andb_false_r. reflexivity.
Qed.

Lemma quiet_run (callback : Callback) (interrupts : list Hardware)
    (s : ChipSpiMasterLowLevel.t) (memory : Memory) (events : list Event) :
  quiet s ->
  run callback (s, memory, events) interrupts = Ok (s, memory, events).
Proof.
  intros Hquiet. induction interrupts as [| hw interrupts IH]; [reflexivity |].
  simpl. rewrite quiet_ignores by exact Hquiet. exact IH.
Qed.

Lemma transferFinished_quiet (s : ChipSpiMasterLowLevel.t) (memory : Memory)
    (events : list Event) (spiMasterBase : SpiMasterBase) :
  spiMasterBase_ s = Some spiMasterBase ->
  exists s',
    transferFinished passive (s, memory, events)
    = Ok (s', memory, events ++ [TransferCompleteEvent spiMasterBase (readPosition_ s)]) /\
    quiet s'.
Proof.
  intros Hobserver. unfold transferFinished. rewrite Hobserver.
  eexists. split; [reflexivity |].
  unfold quiet. cbn [size_ CR2].
  unfold SPI_CR2_ERRIE, SPI_CR2_RXNEIE, SPI_CR2_TXEIE.
  rewrite !flagSet_clearBits by lia.
  repeat split; apply andb_false_r.
Qed.

Lemma transferCompleteEvents_app (events events' : list Event) :
  transferCompleteEvents (events ++ events')
  = transferCompleteEvents events ++ transferCompleteEvents events'.
Proof.
  apply filter_app.
Qed.

Lemma dataSize_cases (wordLength : Z) :
  1 <= wordLength <= 16 ->
  ((8 <? wordLength) = true /\ (wordLength + 8 - 1) / 8 = 2) \/
  ((8 <? wordLength) = false /\ (wordLength + 8 - 1) / 8 = 1).
Proof.
  intros Hrange. destruct (8 <? wordLength) eqn:Hwide.
  - left. split; [reflexivity |]. apply Z.ltb_lt in Hwide.
    symmetry. apply (Z.div_unique _ _ _ (wordLength + 7 - 16)); lia.
  - right. split; [reflexivity |]. apply Z.ltb_ge in Hwide.
    symmetry. apply (Z.div_unique _ _ _ (wordLength + 7 - 8)); lia.
Qed.

End OneCallbackInterruptBased.

(** ** Words on the wire and in memory *)

Section Words.

Lemma u8_range (x : Z) : 0 <= u8 x < 256.
Proof.
  apply Z.mod_pos_bound. reflexivity.
Qed.

Lemma u8_idempotent (x : Z) : u8 (u8 x) = u8 x.
Proof.
  unfold u8. apply Z.mod_mod. discriminate.
Qed.

Lemma u16_u8 (x : Z) : u16 (u8 x) = u8 x.
Proof.
  pose proof (u8_range x) as Hbound.
  unfold u16. apply Z.mod_small. change (2 ^ 16) with 65536. lia.
Qed.

Lemma u8_u16 (x : Z) : u8 (u16 x) = u8 x.
Proof.
  unfold u16, u8. apply Z.mod_mod_divide. exists (2 ^ 8). reflexivity.
Qed.

Lemma halfword_of_bytes (low high : Z) :
  u16 (Z.lor (u8 low) (Z.shiftl (u8 high) 8)) = u8 low + 256 * u8 high.
Proof.
  pose proof (u8_range low) as Hlow. pose proof (u8_range high) as Hhigh.
  assert (Hdisjoint : Z.land (u8 low) (Z.shiftl (u8 high) 8) = 0).
  { apply Z.bits_inj'. intros n Hn. rewrite Z.land_spec, Z.bits_0.
    destruct (Z_lt_ge_dec n 8) as [Hbit | Hbit].
    - rewrite Z.shiftl_spec_low by exact Hbit. apply andb_false_r.
    - rewrite (low_mask_bits (u8 low) n) by lia. reflexivity. }
  pose proof (Z.add_lor_land (u8 low) (Z.shiftl (u8 high) 8)) as Hsum.
  rewrite Hdisjoint, Z.add_0_r in Hsum.
  rewrite Hsum, Z.shiftl_mul_pow2 by lia. unfold u16. change (2 ^ 8) with 256. change (2 ^ 16) with 65536.
  rewrite Z.mod_small by lia. lia.
Qed.

Lemma byte_of_byte (low : Z) :
  u8 (u16 (Z.lor (u8 low) (Z.shiftl 0 8))) = u8 low.
Proof.
  rewrite Z.shiftl_0_l, Z.lor_0_r, u16_u8. apply u8_idempotent.
Qed.

End Words.

(** ** One interrupt of a transfer in progress *)

Section Exchange.

Import ChipSpiMasterLowLevel.

Variables (spiMasterBase : SpiMasterBase) (writeBuffer readBuffer : option Z).
Variables (dummyData : Z) (wide : bool) (count : Z).

Local Abbreviation exchanging' :=
  (exchanging spiMasterBase writeBuffer readBuffer dummyData wide count).

Lemma wide_dataSize (s : ChipSpiMasterLowLevel.t) :
  (8 <? getWordLength (CR2 s)) = wide ->
  (getWordLength (CR2 s) + 8 - 1) / 8 = bytesPerWord wide /\
  (getWordLength (CR2 s) <=? 8) = negb wide.
Proof.
  intros Hwide. pose proof (getWordLength_range (CR2 s)) as Hrange.
  destruct (dataSize_cases _ Hrange) as [[Hcase ->] | [Hcase ->]];
    rewrite Hcase in Hwide; subst wide; (split; [reflexivity |]).
  - apply Z.ltb_lt in Hcase. apply Z.leb_gt. exact Hcase.
  - apply Z.ltb_ge in Hcase. apply Z.leb_le. exact Hcase.
Qed.

Lemma exchanging_set_CR2 (done : Z) (s : ChipSpiMasterLowLevel.t) (cr2 : Z) :
  getWordLength cr2 = getWordLength (CR2 s) ->
  flagSet cr2 SPI_CR2_RXNEIE = true ->
  flagSet cr2 SPI_CR2_ERRIE = true ->
  exchanging' done s ->
  exchanging' done (set_CR2 s cr2).
Proof.
  intros Hword Hrxneie Herrie
    (Hobserver & Hwrite & Hread & Hdummy & Hwide & Hsize & Hposition & _ & _ & Hrest).
  unfold exchanging.
  cbn [set_CR2 spiMasterBase_ writeBuffer_ readBuffer_ dummyData_ size_ readPosition_ CR2].
  rewrite Hword. repeat split; try assumption; apply Hrest.
Qed.

Lemma exchanging_clear_TXEIE (done : Z) (s : ChipSpiMasterLowLevel.t) :
  exchanging' done s ->
  exchanging' done (set_CR2 s (clearBits (CR2 s) SPI_CR2_TXEIE)) /\
  flagSet (clearBits (CR2 s) SPI_CR2_TXEIE) SPI_CR2_TXEIE = false.
Proof.
  intros Hexchanging.
  pose proof Hexchanging as (_ & _ & _ & _ & _ & _ & _ & Hrxneie & Herrie & _).
  split.
  - apply exchanging_set_CR2; [| | | exact Hexchanging].
    + apply getWordLength_clearBits. vm_compute. split; [discriminate | reflexivity].
    + unfold SPI_CR2_RXNEIE, SPI_CR2_TXEIE in *.
      rewrite flagSet_clearBits by lia. rewrite Hrxneie. reflexivity.
    + unfold SPI_CR2_ERRIE, SPI_CR2_TXEIE in *.
      rewrite flagSet_clearBits by lia. rewrite Herrie. reflexivity.
  - unfold SPI_CR2_TXEIE. rewrite flagSet_clearBits by lia. apply andb_false_r.
Qed.

Lemma exchanging_set_TXEIE (done : Z) (s : ChipSpiMasterLowLevel.t) :
  exchanging' done s ->
  exchanging' done (set_CR2 s (setBits (CR2 s) SPI_CR2_TXEIE)) /\
  flagSet (setBits (CR2 s) SPI_CR2_TXEIE) SPI_CR2_TXEIE = true.
Proof.
  intros Hexchanging.
  pose proof Hexchanging as (_ & _ & _ & _ & _ & _ & _ & Hrxneie & Herrie & _).
  split.
  - apply exchanging_set_CR2; [| | | exact Hexchanging].
    + apply getWordLength_setBits. vm_compute. split; [discriminate | reflexivity].
    + unfold SPI_CR2_RXNEIE, SPI_CR2_TXEIE in *.
      rewrite flagSet_setBits by lia. rewrite Hrxneie. reflexivity.
    + unfold SPI_CR2_ERRIE, SPI_CR2_TXEIE in *.
      rewrite flagSet_setBits by lia. rewrite Herrie. reflexivity.
  - unfold SPI_CR2_TXEIE. rewrite flagSet_setBits by lia. apply orb_true_r.
Qed.

(** An overrun error: the transfer ends at once when the peripheral is no
    longer busy, and goes on without the TXE interrupt otherwise. *)
Lemma exchanging_overrun (done : Z) (s : ChipSpiMasterLowLevel.t) (memory : Memory)
    (events : list Event) (hw : Hardware) :
  exchanging' done s ->
  flagSet (SR hw) SPI_SR_OVR = true ->
  exists s',
    interruptHandler passive (s, memory, events) hw
    = Ok (s', memory,
          if flagSet (SR hw) SPI_SR_BSY then events
          else events ++ [TransferCompleteEvent spiMasterBase (bytesPerWord wide * done)]) /\
    if flagSet (SR hw) SPI_SR_BSY then
      exchanging' done s' /\ flagSet (CR2 s') SPI_CR2_TXEIE = false /\
      writePosition_ s' = writePosition_ s
    else quiet s'.
Proof.
  intros Hexchanging Hovr.
  pose proof Hexchanging as (Hobserver & _ & _ & _ & _ & _ & Hposition & _ & Herrie & _).
  unfold interruptHandler, interruptHandlerBranch. rewrite Hovr, Herrie. cbn [andb].
  destruct (flagSet (SR hw) SPI_SR_BSY); cbn [negb].
  - eexists. split; [reflexivity |].
    destruct (exchanging_clear_TXEIE done s Hexchanging) as [Hnext Htxeie].
    split; [exact Hnext |]. split; [exact Htxeie | reflexivity].
  - destruct (transferFinished_quiet (set_CR2 s (clearBits (CR2 s) SPI_CR2_TXEIE))
                memory events spiMasterBase Hobserver) as (s' & Hfinished & Hquiet).
    exists s'. split; [| exact Hquiet].
    rewrite Hfinished. cbn [set_CR2 readPosition_]. rewrite Hposition. reflexivity.
Qed.

(** A received word: it is stored, and it ends the transfer when it is the
    last one; otherwise the TXE interrupt is enabled for the next word. *)
Lemma exchanging_rxne (done : Z) (s : ChipSpiMasterLowLevel.t) (memory : Memory)
    (events : list Event) (hw : Hardware) :
  exchanging' done s ->
  flagSet (SR hw) SPI_SR_OVR = false ->
  flagSet (SR hw) SPI_SR_RXNE = true ->
  exists s',
    interruptHandler passive (s, memory, events) hw
    = Ok (s', storeReceived wide memory readBuffer done [wordRead wide hw],
          if done + 1 =? count
          then events ++ [TransferCompleteEvent spiMasterBase (bytesPerWord wide * count)]
          else events) /\
    if done + 1 =? count then quiet s'
    else
      exchanging' (done + 1) s' /\ flagSet (CR2 s') SPI_CR2_TXEIE = true /\
      writePosition_ s' = writePosition_ s.
Proof.
  intros Hexchanging Hovr Hrxne.
  pose proof Hexchanging
    as (Hobserver & Hwrite & Hread & Hdummy & Hwide & Hsize & Hposition & Hrxneie & Herrie
        & Hdone & Hcount).
  destruct (wide_dataSize s Hwide) as [Hdata Hnarrow].
  unfold SIZE_MODULUS in Hcount. change (2 ^ 32) with 4294967296 in Hcount.
  unfold interruptHandler, interruptHandlerBranch. rewrite Hovr, Hrxne, Hrxneie. cbn [andb].
  rewrite Hnarrow.
  assert (Hstore :
    storeWord s memory (getWordLength (CR2 s))
      (if negb wide then u16 (u8 (DR hw)) else u16 (DR hw))
    = (bytesPerWord wide * (done + 1),
       storeReceived wide memory readBuffer done [wordRead wide hw])).
  { unfold storeWord, storeReceived, wordRead. rewrite Hread, Hposition, Hwide, Hdata.
    unfold size_t, SIZE_MODULUS. change (2 ^ 32) with 4294967296.
    destruct wide; cbn [bytesPerWord negb storeWords] in *; destruct readBuffer as [buffer |].
    - rewrite (Z.mod_small (2 * done + 1)) by lia.
      rewrite (Z.mod_small (2 * done + 1 + 1)) by lia.
      rewrite Z.add_assoc. f_equal. lia.
    - rewrite Z.mod_small by lia. f_equal. lia.
    - rewrite Z.mod_small by lia. f_equal. lia.
    - rewrite Z.mod_small by lia. f_equal. lia. }
  rewrite Hstore. cbn [size_ set_readPosition]. rewrite Hsize.
  replace (bytesPerWord wide * (done + 1) =? bytesPerWord wide * count)
    with (done + 1 =? count).
  2:{ destruct (Z.eqb_spec (done + 1) count) as [-> | Hne].
      - symmetry. apply Z.eqb_refl.
      - symmetry. apply Z.eqb_neq. destruct wide; cbn [bytesPerWord]; lia. }
  destruct (Z.eqb_spec (done + 1) count) as [Hlast | Hmore].
  - match goal with
    | |- context [transferFinished passive (?s1, ?m1, ?e1)] =>
        destruct (transferFinished_quiet s1 m1 e1 spiMasterBase Hobserver)
          as (s' & Hresult & Hquiet)
    end.
    exists s'. split; [| exact Hquiet].
    rewrite Hresult. cbn [readPosition_]. rewrite Hlast. reflexivity.
  - eexists. split; [reflexivity |].
    assert (Hadvanced :
      exchanging' (done + 1) (set_readPosition s (bytesPerWord wide * (done + 1)))).
    { unfold exchanging', exchanging.
      cbn [set_readPosition spiMasterBase_ writeBuffer_ readBuffer_ dummyData_ size_
           readPosition_ CR2].
      repeat split; try assumption; lia. }
    destruct (exchanging_set_TXEIE _ _ Hadvanced) as [Hnext Htxeie].
    split; [exact Hnext |]. split; [exact Htxeie | reflexivity].
Qed.

(** The TXE interrupt, when enabled: the next word is written to the data
    register and the interrupt is disabled until a word was received. *)
Lemma exchanging_txe (done written : Z) (s : ChipSpiMasterLowLevel.t) (memory : Memory)
    (events : list Event) (hw : Hardware) :
  exchanging' done s ->
  flagSet (SR hw) SPI_SR_OVR = false ->
  flagSet (SR hw) SPI_SR_RXNE = false ->
  flagSet (SR hw) SPI_SR_TXE = true ->
  flagSet (CR2 s) SPI_CR2_TXEIE = true ->
  writePosition_ s = bytesPerWord wide * written ->
  0 <= written <= done ->
  exists s',
    interruptHandler passive (s, memory, events) hw
    = Ok (s', memory, events ++ [expectedWrite wide memory writeBuffer dummyData written]) /\
    exchanging' done s' /\ flagSet (CR2 s') SPI_CR2_TXEIE = false /\
    writePosition_ s' = bytesPerWord wide * (written + 1).
Proof.
  intros Hexchanging Hovr Hrxne Htxe Htxeie Hwritten Hrange.
  pose proof Hexchanging
    as (Hobserver & Hwrite & Hread & Hdummy & Hwide & Hsize & Hposition & Hrxneie & Herrie
        & Hdone & Hcount).
  destruct (wide_dataSize s Hwide) as [Hdata Hnarrow].
  unfold SIZE_MODULUS in Hcount. change (2 ^ 32) with 4294967296 in Hcount.
  unfold interruptHandler, interruptHandlerBranch. rewrite Hovr, Hrxne, Htxe, Htxeie.
  cbn [andb]. rewrite Hnarrow.
  assert (Hload :
    exists word,
      loadWord s memory (getWordLength (CR2 s)) = (bytesPerWord wide * (written + 1), word) /\
      (if negb wide then WriteDr8 (u8 word) else WriteDr16 word)
      = expectedWrite wide memory writeBuffer dummyData written).
  { unfold loadWord, expectedWrite. rewrite Hwrite, Hwritten, Hwide, Hdata, Hdummy.
    unfold size_t, SIZE_MODULUS. change (2 ^ 32) with 4294967296.
    destruct wide; cbn [bytesPerWord negb] in *; destruct writeBuffer as [buffer |];
      eexists; (split; [f_equal |]).
    - rewrite (Z.mod_small (2 * written + 1)) by lia.
      rewrite (Z.mod_small (2 * written + 1 + 1)) by lia. lia.
    - rewrite (Z.mod_small (2 * written + 1)) by lia.
      rewrite halfword_of_bytes, Z.add_assoc. reflexivity.
    - rewrite Z.mod_small by lia. lia.
    - reflexivity.
    - rewrite Z.mod_small by lia. lia.
    - rewrite byte_of_byte, Z.mul_1_l. reflexivity.
    - rewrite Z.mod_small by lia. lia.
    - rewrite u8_u16. reflexivity. }
  destruct Hload as (word & -> & ->).
  eexists. split; [reflexivity |].
  assert (Hadvanced :
    exchanging' done (set_writePosition s (bytesPerWord wide * (written + 1)))).
  { exact Hexchanging. }
  destruct (exchanging_clear_TXEIE _ _ Hadvanced) as [Hnext Hcleared].
  split; [exact Hnext |]. split; [exact Hcleared | reflexivity].
Qed.

(** Any other interrupt without overrun and without a received word leaves
    the reception as it is. *)
Lemma exchanging_other (done : Z) (s : ChipSpiMasterLowLevel.t) (memory : Memory)
    (events : list Event) (hw : Hardware) :
  exchanging' done s ->
  flagSet (SR hw) SPI_SR_OVR = false ->
  flagSet (SR hw) SPI_SR_RXNE = false ->
  exists s' events',
    interruptHandler passive (s, memory, events) hw = Ok (s', memory, events') /\
    exchanging' done s' /\
    transferCompleteEvents events' = transferCompleteEvents events.
Proof.
  intros Hexchanging Hovr Hrxne.
  unfold interruptHandler, interruptHandlerBranch. rewrite Hovr, Hrxne. cbn [andb].
  destruct (flagSet (SR hw) SPI_SR_TXE && flagSet (CR2 s) SPI_CR2_TXEIE).
  - destruct (loadWord s memory (getWordLength (CR2 s))) as [writePosition word].
    eexists _, _. split; [reflexivity |]. split.
    + apply (exchanging_clear_TXEIE done (set_writePosition s writePosition)).
      exact Hexchanging.
    + rewrite transferCompleteEvents_app.
      destruct (getWordLength (CR2 s) <=? 8); apply app_nil_r.
  - exists s, events. split; [reflexivity |]. split; [exact Hexchanging | reflexivity].
Qed.

Lemma exchanging_idle (s : ChipSpiMasterLowLevel.t) (memory : Memory)
    (events : list Event) (hw : Hardware) :
  flagSet (SR hw) SPI_SR_OVR = false ->
  flagSet (SR hw) SPI_SR_RXNE = false ->
  flagSet (SR hw) SPI_SR_TXE && flagSet (CR2 s) SPI_CR2_TXEIE = false ->
  interruptHandler passive (s, memory, events) hw = Ok (s, memory, events).
Proof.
  intros Hovr Hrxne Htxe.
  unfold interruptHandler, interruptHandlerBranch. rewrite Hovr, Hrxne, Htxe. reflexivity.
Qed.

Lemma storeReceived_cons (memory : Memory) (done word : Z) (words : list Z) :
  storeReceived wide memory readBuffer done (word :: words)
  = storeReceived wide (storeReceived wide memory readBuffer done [word]) readBuffer
      (done + 1) words.
Proof.
  unfold storeReceived. destruct readBuffer as [buffer |]; [| reflexivity].
  destruct wide; cbn [storeWords bytesPerWord]; f_equal; lia.
Qed.

Lemma receivedWords_cons (hw : Hardware) (interrupts : list Hardware) :
  receivedWords wide (hw :: interrupts) =
  if flagSet (SR hw) SPI_SR_RXNE then wordRead wide hw :: receivedWords wide interrupts
  else receivedWords wide interrupts.
Proof.
  unfold receivedWords. cbn [filter]. destruct (flagSet (SR hw) SPI_SR_RXNE); reflexivity.
Qed.

Lemma run_app (callback : Callback) (interrupts interrupts' : list Hardware) :
  forall w : World,
    run callback w (interrupts ++ interrupts')
    = bind (run callback w interrupts) (fun w' => run callback w' interrupts').
Proof.
  induction interrupts as [| hw interrupts IH]; intros w; [reflexivity |].
  cbn [app run]. destruct (interruptHandler callback w hw) as [w1 | fault]; [| reflexivity].
  cbn [bind]. apply IH.
Qed.

(** The reception in a series of interrupts without overrun. *)
Lemma exchanging_run (interrupts : list Hardware) :
  forall (done : Z) (s : ChipSpiMasterLowLevel.t) (memory : Memory) (events : list Event),
    noOverrun interrupts = true ->
    exchanging' done s ->
    done + Z.of_nat (length (receivedWords wide interrupts)) <= count ->
    exists s' events',
      run passive (s, memory, events) interrupts
      = Ok (s', storeReceived wide memory readBuffer done (receivedWords wide interrupts),
            events') /\
      ((done + Z.of_nat (length (receivedWords wide interrupts)) < count /\
        exchanging' (done + Z.of_nat (length (receivedWords wide interrupts))) s' /\
        transferCompleteEvents events' = transferCompleteEvents events) \/
       (done + Z.of_nat (length (receivedWords wide interrupts)) = count /\
        quiet s' /\
        transferCompleteEvents events'
        = transferCompleteEvents events
          ++ [TransferCompleteEvent spiMasterBase (bytesPerWord wide * count)])).
Proof.
  induction interrupts as [| hw interrupts IH];
    intros done s memory events Hclean Hexchanging Hbound.
  - exists s, events. cbn [receivedWords filter map length Z.of_nat] in *.
    rewrite Z.add_0_r. split.
    + unfold storeReceived. destruct readBuffer; reflexivity.
    + left. pose proof Hexchanging as (_ & _ & _ & _ & _ & _ & _ & _ & _ & Hdone & _).
      split; [lia |]. split; [exact Hexchanging | reflexivity].
  - cbn [noOverrun forallb] in Hclean. apply andb_true_iff in Hclean.
    destruct Hclean as [Hovr Hclean]. apply negb_true_iff in Hovr.
    fold (noOverrun interrupts) in Hclean.
    rewrite receivedWords_cons in *.
    destruct (flagSet (SR hw) SPI_SR_RXNE) eqn:Hrxne.
    + cbn [length] in *. rewrite Nat2Z.inj_succ in *. rewrite storeReceived_cons.
      destruct (exchanging_rxne done s memory events hw Hexchanging Hovr Hrxne)
        as (s1 & Hstep & Hnext).
      destruct (Z.eqb_spec (done + 1) count) as [Hlast | Hmore].
      * assert (Hnone : receivedWords wide interrupts = []).
        { destruct (receivedWords wide interrupts); [reflexivity |]. cbn [length] in Hbound.
          rewrite Nat2Z.inj_succ in Hbound. lia. }
        rewrite Hnone in *. cbn [length Z.of_nat] in *.
        eexists s1, _. split.
        -- cbn [run]. rewrite Hstep. cbn [bind]. rewrite quiet_run by exact Hnext.
           f_equal. f_equal. f_equal.
           unfold storeReceived. destruct readBuffer; reflexivity.
        -- right. split; [lia |]. split; [exact Hnext |].
           apply transferCompleteEvents_app.
      * destruct Hnext as (Hnext & _ & _).
        destruct (IH (done + 1) s1
                    (storeReceived wide memory readBuffer done [wordRead wide hw])
                    events Hclean Hnext ltac:(lia))
          as (s' & events' & Hrun & Hresult).
        exists s', events'. split.
        -- cbn [run]. rewrite Hstep. cbn [bind]. exact Hrun.
        -- replace (done + Z.succ (Z.of_nat (length (receivedWords wide interrupts))))
             with (done + 1 + Z.of_nat (length (receivedWords wide interrupts))) by lia.
           exact Hresult.
    + destruct (exchanging_other done s memory events hw Hexchanging Hovr Hrxne)
        as (s1 & events1 & Hstep & Hnext & Hevents).
      destruct (IH done s1 memory events1 Hclean Hnext Hbound)
        as (s' & events' & Hrun & Hresult).
      exists s', events'. split.
      * cbn [run]. rewrite Hstep. cbn [bind]. exact Hrun.
      * rewrite Hevents in Hresult. exact Hresult.
Qed.

End Exchange.

(** ** The memory after a reception *)

Section StoredWords.

Import ChipSpiMasterLowLevel.

Lemma storeWords_outside (wide : bool) (words : list Z) :
  forall (memory : Memory) (address a : Z),
    a < address \/ address + bytesPerWord wide * Z.of_nat (length words) <= a ->
    storeWords wide memory address words a = memory a.
Proof.
  induction words as [| word words IH]; intros memory address a Houtside; [reflexivity |].
  cbn [length] in Houtside. rewrite Nat2Z.inj_succ in Houtside.
  destruct wide; cbn [storeWords bytesPerWord] in *; rewrite IH by lia; unfold store.
  - replace (a =? address + 1) with false by (symmetry; apply Z.eqb_neq; lia).
    replace (a =? address) with false by (symmetry; apply Z.eqb_neq; lia).
    reflexivity.
  - replace (a =? address) with false by (symmetry; apply Z.eqb_neq; lia).
    reflexivity.
Qed.

Lemma storeWords_holds (wide : bool) (words : list Z) :
  forall (memory : Memory) (address : Z) (i : nat),
    (i < length words)%nat ->
    storeWords wide memory address words (address + bytesPerWord wide * Z.of_nat i)
    = u8 (nth i words 0) /\
    (wide = true ->
     storeWords wide memory address words (address + 2 * Z.of_nat i + 1)
     = u8 (Z.shiftr (nth i words 0) 8)).
Proof.
  induction words as [| word words IH]; intros memory address i Hi; [inversion Hi |].
  destruct i as [| i].
  - cbn [nth Z.of_nat]. rewrite Z.mul_0_r, !Z.add_0_r.
    destruct wide; cbn [storeWords]; rewrite !storeWords_outside by lia; unfold store.
    + replace (address =? address + 1) with false by (symmetry; apply Z.eqb_neq; lia).
      rewrite !Z.eqb_refl. split; reflexivity.
    + rewrite Z.eqb_refl. split; [reflexivity | discriminate].
  - cbn [nth length] in *. rewrite Nat2Z.inj_succ.
    destruct wide; cbn [storeWords bytesPerWord].
    + replace (address + 2 * Z.succ (Z.of_nat i)) with (address + 2 + 2 * Z.of_nat i) by lia.
      apply (IH _ (address + 2) i). lia.
    + replace (address + 1 * Z.succ (Z.of_nat i)) with (address + 1 + 1 * Z.of_nat i) by lia.
      split; [| discriminate]. apply (IH _ (address + 1) i). lia.
Qed.

Lemma startTransfer_exchanging (s : ChipSpiMasterLowLevel.t) (spiMasterBase : SpiMasterBase)
    (writeBuffer readBuffer : option Z) (count : Z) :
  isStarted s = true ->
  isTransferInProgress s = false ->
  0 < count ->
  bytesPerWord (8 <? getWordLength (CR2 s)) * count < SIZE_MODULUS ->
  let wide := 8 <? getWordLength (CR2 s) in
  let started :=
    startTransfer s spiMasterBase writeBuffer readBuffer (bytesPerWord wide * count) in
  fst started = 0 /\
  exchanging spiMasterBase writeBuffer readBuffer (dummyData_ s) wide count 0 (snd started) /\
  flagSet (CR2 (snd started)) SPI_CR2_TXEIE = true /\
  writePosition_ (snd started) = 0.
Proof.
  intros Hstarted Hidle Hcount Hsize wide started.
  destruct (wide_dataSize wide s eq_refl) as [Hdata _].
  assert (Hpositive : bytesPerWord wide * count <> 0).
  { fold wide in Hsize. destruct wide; cbn [bytesPerWord]; lia. }
  unfold started, startTransfer. rewrite Hstarted, Hidle, Hdata.
  replace (bytesPerWord wide * count =? 0) with false by (symmetry; apply Z.eqb_neq; exact Hpositive).
  assert (Hmultiple : (bytesPerWord wide * count) mod bytesPerWord wide = 0).
  { rewrite Z.mul_comm. apply Z.mod_mul. destruct wide; discriminate. }
  rewrite Hmultiple.
  cbn [negb Z.eqb fst snd]. split; [reflexivity |].
  unfold exchanging. cbn [spiMasterBase_ writeBuffer_ readBuffer_ dummyData_ size_
                         readPosition_ writePosition_ CR2].
  rewrite getWordLength_setBits by (vm_compute; split; [discriminate | reflexivity]).
  unfold SPI_CR2_RXNEIE, SPI_CR2_ERRIE, SPI_CR2_TXEIE.
  rewrite !flagSet_setBits by lia. fold wide in Hsize.
  repeat split; try reflexivity; try lia; try apply orb_true_r.
Qed.

End StoredWords.

Lemma startTransfer_accepted (s : ChipSpiMasterLowLevel.t) (spiMasterBase : SpiMasterBase)
    (writeBuffer readBuffer : option Z) (size : Z) :
  fst (ChipSpiMasterLowLevel.startTransfer s spiMasterBase writeBuffer readBuffer size) = 0 ->
  ChipSpiMasterLowLevel.isStarted s = true /\
  ChipSpiMasterLowLevel.isTransferInProgress s = false /\
  size mod ChipSpiMasterLowLevel.dataSize s = 0.
Proof.
  unfold ChipSpiMasterLowLevel.startTransfer, ChipSpiMasterLowLevel.dataSize.
  destruct (size =? 0); [discriminate |].
  destruct (ChipSpiMasterLowLevel.isStarted s); [| discriminate].
  destruct (ChipSpiMasterLowLevel.isTransferInProgress s); [discriminate |].
  destruct (Z.eqb_spec (size mod ((ChipSpiMasterLowLevel.getWordLength
                                     (ChipSpiMasterLowLevel.CR2 s) + 8 - 1) / 8)) 0)
    as [Hmultiple | _]; [| discriminate].
  intros _. repeat split. exact Hmultiple.
Qed.

(** ** The end of a transfer: the interrupt-based driver *)

Section Completion.

Import ChipSpiMasterLowLevel.

Variables (spiMasterBase : SpiMasterBase) (writeBuffer readBuffer : option Z).
Variables (dummyData : Z) (wide : bool) (count : Z).

Local Abbreviation exchanging' :=
  (exchanging spiMasterBase writeBuffer readBuffer dummyData wide count).

(** Whatever the interrupts are, the handler calls the observer exactly
    when the hardware ends the transfer, and not before or after. *)
Lemma exchanging_completion (interrupts : list Hardware) :
  forall (done : Z) (s : ChipSpiMasterLowLevel.t) (memory : Memory) (events : list Event),
    exchanging' done s ->
    exists s' memory' events',
      run passive (s, memory, events) interrupts = Ok (s', memory', events') /\
      match completion count done interrupts with
      | Some words =>
          quiet s' /\ done <= words <= count /\
          transferCompleteEvents events'
          = transferCompleteEvents events
            ++ [TransferCompleteEvent spiMasterBase (bytesPerWord wide * words)]
      | None =>
          (exists done', exchanging' done' s') /\
          transferCompleteEvents events' = transferCompleteEvents events
      end.
Proof.
  induction interrupts as [| hw interrupts IH]; intros done s memory events Hexchanging;
    pose proof Hexchanging as (_ & _ & _ & _ & _ & _ & _ & _ & _ & Hdone & _).
  - exists s, memory, events. split; [reflexivity |]. cbn [completion].
    split; [exists done; exact Hexchanging | reflexivity].
  - cbn [run completion].
    destruct (flagSet (SR hw) SPI_SR_OVR) eqn:Hovr;
      [| destruct (flagSet (SR hw) SPI_SR_RXNE) eqn:Hrxne].
    + destruct (exchanging_overrun spiMasterBase writeBuffer readBuffer dummyData wide count
                  done s memory events hw Hexchanging Hovr) as (s1 & Hstep & Hafter).
      rewrite Hstep. cbn [bind].
      destruct (flagSet (SR hw) SPI_SR_BSY).
      * destruct Hafter as (Hnext & _). apply (IH done). exact Hnext.
      * rewrite quiet_run by exact Hafter. eexists _, _, _. split; [reflexivity |].
        split; [exact Hafter |]. split; [lia |]. apply transferCompleteEvents_app.
    + destruct (exchanging_rxne spiMasterBase writeBuffer readBuffer dummyData wide count
                  done s memory events hw Hexchanging Hovr Hrxne) as (s1 & Hstep & Hafter).
      rewrite Hstep. cbn [bind].
      destruct (done + 1 =? count).
      * rewrite quiet_run by exact Hafter. eexists _, _, _. split; [reflexivity |].
        split; [exact Hafter |]. split; [lia |]. apply transferCompleteEvents_app.
      * destruct Hafter as (Hnext & _).
        destruct (IH (done + 1) s1
                    (storeReceived wide memory readBuffer done [wordRead wide hw])
                    events Hnext) as (s' & memory' & events' & Hrun & Hresult).
        exists s', memory', events'. split; [exact Hrun |].
        destruct (completion count (done + 1) interrupts) as [words |]; [| exact Hresult].
        destruct Hresult as (Hquiet & Hwords & Hevents).
        split; [exact Hquiet |]. split; [lia | exact Hevents].
    + destruct (exchanging_other spiMasterBase writeBuffer readBuffer dummyData wide count
                  done s memory events hw Hexchanging Hovr Hrxne)
        as (s1 & events1 & Hstep & Hnext & Hevents).
      rewrite Hstep. cbn [bind].
      destruct (IH done s1 memory events1 Hnext) as (s' & memory' & events' & Hrun & Hresult).
      exists s', memory', events'. split; [exact Hrun |].
      rewrite Hevents in Hresult. exact Hresult.
Qed.

End Completion.

Lemma ChipSpiMasterLowLevel_startTransfer_completion (s : ChipSpiMasterLowLevel.t)
    (spiMasterBase : SpiMasterBase) (writeBuffer readBuffer : option Z) (size : Z)
    (memory : Memory) (interrupts : list ChipSpiMasterLowLevel.Hardware) :
  0 < size < SIZE_MODULUS ->
  let started :=
    ChipSpiMasterLowLevel.startTransfer s spiMasterBase writeBuffer readBuffer size in
  let dataSize := ChipSpiMasterLowLevel.dataSize s in
  fst started = 0 ->
  exists s' memory' events',
    ChipSpiMasterLowLevel.run ChipSpiMasterLowLevel.passive (snd started, memory, [])
      interrupts
    = Ok (s', memory', events') /\
    match ChipSpiMasterLowLevel.completion (size / dataSize) 0 interrupts with
    | Some words =>
        ChipSpiMasterLowLevel.isTransferInProgress s' = false /\
        ChipSpiMasterLowLevel.transferCompleteEvents events'
        = [TransferCompleteEvent spiMasterBase (dataSize * words)] /\
        0 <= dataSize * words <= size
    | None =>
        ChipSpiMasterLowLevel.isTransferInProgress s' = true /\
        ChipSpiMasterLowLevel.transferCompleteEvents events' = []
    end.
Proof.
  intros Hsize started dataSize Haccepted.
  destruct (startTransfer_accepted s spiMasterBase writeBuffer readBuffer size Haccepted)
    as (Hstarted & Hidle & Hmultiple).
  fold dataSize in Hmultiple.
  assert (Hdata : dataSize = ChipSpiMasterLowLevel.bytesPerWord
                               (8 <? ChipSpiMasterLowLevel.getWordLength
                                       (ChipSpiMasterLowLevel.CR2 s))).
  { apply (wide_dataSize _ s eq_refl). }
  set (wide := 8 <? ChipSpiMasterLowLevel.getWordLength (ChipSpiMasterLowLevel.CR2 s)) in *.
  assert (Hbytes : 1 <= dataSize <= 2) by (rewrite Hdata; destruct wide; cbn; lia).
  assert (Hwords : size = dataSize * (size / dataSize)).
  { apply Z_div_exact_full_2; [lia | exact Hmultiple]. }
  assert (Hcount : 0 < size / dataSize) by nia.
  destruct (startTransfer_exchanging s spiMasterBase writeBuffer readBuffer
              (size / dataSize) Hstarted Hidle Hcount) as (_ & Hexchanging & _).
  { fold wide. rewrite <- Hdata, <- Hwords. apply Hsize. }
  fold wide in Hexchanging. rewrite <- Hdata, <- Hwords in Hexchanging.
  fold started in Hexchanging.
  destruct (exchanging_completion spiMasterBase writeBuffer readBuffer
              (ChipSpiMasterLowLevel.dummyData_ s) wide (size / dataSize) interrupts 0
              (snd started) memory [] Hexchanging)
    as (s' & memory' & events' & Hrun & Hresult).
  exists s', memory', events'. split; [exact Hrun |].
  unfold ChipSpiMasterLowLevel.isTransferInProgress.
  destruct (ChipSpiMasterLowLevel.completion (size / dataSize) 0 interrupts) as [words |].
  - destruct Hresult as ((Hidle' & _) & Hrange & Hevents).
    rewrite Hidle', Hdata. split; [reflexivity |]. split; [exact Hevents |].
    rewrite <- Hdata. nia.
  - destruct Hresult as ((done' & Hnext) & Hevents).
    destruct Hnext as (_ & _ & _ & _ & _ & Hsize' & _ & _ & _ & Hdone & _).
    rewrite Hsize'. split; [| exact Hevents].
    apply negb_true_iff, Z.eqb_neq.
    unfold ChipSpiMasterLowLevel.bytesPerWord. destruct wide; lia.
Qed.


(** ** The byte count of the DMA-based driver *)

Section BytesTransfered.

Import SpiMasterLowLevelDmaBased.

Lemma underway_spec (s : SpiMasterLowLevelDmaBased.t) (channels : Channels) :
  underway s channels = true ->
  wired s channels = true /\ size_ s <> 0 /\
  enabled (channels (rxDmaChannel_ s)) = true /\
  enabled (channels (txDmaChannel_ s)) = true /\
  flagSet (flags (channels (rxDmaChannel_ s))) Flags.transferCompleteInterruptEnable = true.
Proof.
  unfold underway. intros H.
  apply andb_true_iff in H. destruct H as [H Hflag].
  apply andb_true_iff in H. destruct H as [H HtxOn].
  apply andb_true_iff in H. destruct H as [H HrxOn].
  apply andb_true_iff in H. destruct H as [Hwired Hbusy].
  apply negb_true_iff, Z.eqb_neq in Hbusy.
  repeat split; assumption.
Qed.

(** Each interrupt that ends a transfer calls the observer at once, with
    the byte count computed from the counter of the channel whose
    interrupt it is. *)
Lemma interruptHandler_completes (s : SpiMasterLowLevelDmaBased.t) (channels : Channels)
    (trace : list Operation) (spiMasterBase : SpiMasterBase) (which : Which) (flag : Flag) :
  underway s channels = true ->
  spiMasterBase_ s = Some spiMasterBase ->
  terminal (Interrupt which flag) = true ->
  let transactionsLeft :=
    match flag with
    | TransferComplete => 0
    | TransferError => DmaChannel.transactionsLeft (channels (channelOf s which))
    end in
  forall callback,
    DmaChannel_interruptHandler callback (s, channels, trace) (which, flag)
    = callback spiMasterBase (bytesTransfered s transactionsLeft)
        (cleared s, stopped s channels,
         trace ++ [StopTransfer Tx; StopTransfer Rx;
                   ComputeBytesTransfered (bytesTransfered s transactionsLeft);
                   ClearSize; ClearSpiMasterBase;
                   CallTransferCompleteEvent spiMasterBase
                     (bytesTransfered s transactionsLeft)]).
Proof.
  intros Hunderway Hobserver Hterminal transactionsLeft callback.
  apply underway_spec in Hunderway.
  destruct Hunderway as (Hwired & _ & HrxOn & HtxOn & Hflag).
  apply wired_spec in Hwired.
  destruct Hwired as (_ & _ & _ & _ & _ & HrxFunctor & HtxFunctor).
  unfold DmaChannel_interruptHandler. cbn [fst snd].
  destruct which, flag; try discriminate Hterminal; cbn [channelOf] in *.
  - rewrite HrxOn, HrxFunctor, Hflag. cbn [negb].
    apply eventHandler_unfold. exact Hobserver.
  - rewrite HrxOn, HrxFunctor. cbn [negb].
    apply eventHandler_unfold. exact Hobserver.
  - rewrite HtxOn, HtxFunctor. cbn [negb].
    apply eventHandler_unfold. exact Hobserver.
Qed.

End BytesTransfered.

(** C1, as stated, fails: a transfer-error interrupt of the TX channel
    passes the remaining transactions of the TX channel.  In a transfer of
    10 bytes in five 16-bit words, when the RX channel has all five
    transactions left and the TX channel three, the observer is told 4
    bytes, not [10 - 5 * 2]. *)
Lemma C1_counterexample :
  let s := fst (fst (SpiMasterLowLevelDmaBased.exampleCounted 5 3)) in
  let channels := snd (fst (SpiMasterLowLevelDmaBased.exampleCounted 5 3)) in
  let trace := snd (SpiMasterLowLevelDmaBased.exampleCounted 5 3) in
  let remainingRxTransactions :=
    snd (UniqueHandle.getTransactionsLeft
           (SpiMasterLowLevelDmaBased.rxDmaChannelUniqueHandle_ s) channels) in
  SpiMasterLowLevelDmaBased.size_ s = 10 /\
  (SpiMasterLowLevelDmaBased.wordLength_ s + 8 - 1) / 8 = 2 /\
  remainingRxTransactions = 5 /\
  (exists w',
      forall callback,
        SpiMasterLowLevelDmaBased.DmaChannel_interruptHandler callback (s, channels, trace)
          (SpiMasterLowLevelDmaBased.Tx, SpiMasterLowLevelDmaBased.TransferError)
        = callback 1%nat 4 w') /\
  4 <> 10 - remainingRxTransactions * 2.
Proof.
  intros s channels trace remainingRxTransactions.
  assert (Hunderway : SpiMasterLowLevelDmaBased.underway s channels = true)
    by (vm_compute; reflexivity).
  assert (Hobserver : SpiMasterLowLevelDmaBased.spiMasterBase_ s = Some 1%nat)
    by (vm_compute; reflexivity).
  assert (Hleft : remainingRxTransactions = 5) by (vm_compute; reflexivity).
  split; [vm_compute; reflexivity |]. split; [vm_compute; reflexivity |].
  split; [exact Hleft |]. split; [| rewrite Hleft; discriminate].
  eexists. intros callback.
  rewrite (interruptHandler_completes s channels trace 1%nat SpiMasterLowLevelDmaBased.Tx
             SpiMasterLowLevelDmaBased.TransferError Hunderway Hobserver eq_refl callback).
  replace (SpiMasterLowLevelDmaBased.bytesTransfered s
             (transactionsLeft
                (channels (SpiMasterLowLevelDmaBased.channelOf s SpiMasterLowLevelDmaBased.Tx))))
    with 4 by (vm_compute; reflexivity).
  reflexivity.
Qed.

(** C1, amended.  In the DMA-based driver with a transfer of [size_] bytes
    under way, every interrupt that ends the transfer calls the observer
    with [size_ - transactionsLeft * dataSize] bytes, where
    [dataSize = (wordLength_ + 7) / 8] and [transactionsLeft] is 0 for the
    transfer-complete interrupt of the RX channel, the remaining
    transactions of the RX channel for its transfer-error interrupt, and the
    remaining transactions of the TX channel for the transfer-error
    interrupt of the TX channel (a counter never exceeds the transactions of
    the transfer). *)
Theorem C1_dma_bytes_transferred :
  forall (s : SpiMasterLowLevelDmaBased.t) (channels : Channels)
         (trace : list SpiMasterLowLevelDmaBased.Operation)
         (spiMasterBase : SpiMasterBase),
    let dataSize := (SpiMasterLowLevelDmaBased.wordLength_ s + 8 - 1) / 8 in
    let size := SpiMasterLowLevelDmaBased.size_ s in
    let remainingRxTransactions :=
      snd (UniqueHandle.getTransactionsLeft
             (SpiMasterLowLevelDmaBased.rxDmaChannelUniqueHandle_ s) channels) in
    let remainingTxTransactions :=
      snd (UniqueHandle.getTransactionsLeft
             (SpiMasterLowLevelDmaBased.txDmaChannelUniqueHandle_ s) channels) in
    SpiMasterLowLevelDmaBased.underway s channels = true ->
    SpiMasterLowLevelDmaBased.spiMasterBase_ s = Some spiMasterBase ->
    size < SIZE_MODULUS ->
    0 <= remainingRxTransactions * dataSize <= size ->
    0 <= remainingTxTransactions * dataSize <= size ->
    (exists w,
        forall callback,
          SpiMasterLowLevelDmaBased.DmaChannel_interruptHandler callback (s, channels, trace)
            (SpiMasterLowLevelDmaBased.Rx, SpiMasterLowLevelDmaBased.TransferComplete)
          = callback spiMasterBase size w) /\
    (exists w,
        forall callback,
          SpiMasterLowLevelDmaBased.DmaChannel_interruptHandler callback (s, channels, trace)
            (SpiMasterLowLevelDmaBased.Rx, SpiMasterLowLevelDmaBased.TransferError)
          = callback spiMasterBase (size - remainingRxTransactions * dataSize) w) /\
    (exists w,
        forall callback,
          SpiMasterLowLevelDmaBased.DmaChannel_interruptHandler callback (s, channels, trace)
            (SpiMasterLowLevelDmaBased.Tx, SpiMasterLowLevelDmaBased.TransferError)
          = callback spiMasterBase (size - remainingTxTransactions * dataSize) w).
Proof.
  intros s channels trace spiMasterBase dataSize size remainingRxTransactions
    remainingTxTransactions Hunderway Hobserver Hsize HrxLeft HtxLeft.
  pose proof Hunderway as Hfacts. apply underway_spec in Hfacts.
  destruct Hfacts as (Hwired & Hbusy & _). apply wired_spec in Hwired.
  destruct Hwired as (_ & _ & _ & Hrx & Htx & _).
  unfold remainingRxTransactions, remainingTxTransactions, UniqueHandle.getTransactionsLeft,
    DmaChannel.getTransactionsLeft in *.
  rewrite Hrx in HrxLeft |- *. rewrite Htx in HtxLeft |- *. cbn [snd] in *.
  assert (Hcomplete : SpiMasterLowLevelDmaBased.bytesTransfered s 0 = size).
  { rewrite bytesTransfered_exact; fold size; lia. }
  split; [| split]; eexists; intros callback.
  - rewrite (interruptHandler_completes s channels trace spiMasterBase
               SpiMasterLowLevelDmaBased.Rx SpiMasterLowLevelDmaBased.TransferComplete
               Hunderway Hobserver eq_refl).
    rewrite Hcomplete. reflexivity.
  - rewrite (interruptHandler_completes s channels trace spiMasterBase
               SpiMasterLowLevelDmaBased.Rx SpiMasterLowLevelDmaBased.TransferError
               Hunderway Hobserver eq_refl).
    cbn [SpiMasterLowLevelDmaBased.channelOf].
    rewrite (bytesTransfered_exact s _ HrxLeft Hsize). reflexivity.
  - rewrite (interruptHandler_completes s channels trace spiMasterBase
               SpiMasterLowLevelDmaBased.Tx SpiMasterLowLevelDmaBased.TransferError
               Hunderway Hobserver eq_refl).
    cbn [SpiMasterLowLevelDmaBased.channelOf].
    rewrite (bytesTransfered_exact s _ HtxLeft Hsize). reflexivity.
Qed.

Lemma C1_dma_bytes_transferred_witness :
  let s := fst (fst (SpiMasterLowLevelDmaBased.exampleCounted 3 3)) in
  let channels := snd (fst (SpiMasterLowLevelDmaBased.exampleCounted 3 3)) in
  let trace := snd (SpiMasterLowLevelDmaBased.exampleCounted 3 3) in
  (exists w',
      forall callback,
        SpiMasterLowLevelDmaBased.DmaChannel_interruptHandler callback (s, channels, trace)
          (SpiMasterLowLevelDmaBased.Rx, SpiMasterLowLevelDmaBased.TransferComplete)
        = callback 1%nat 10 w') /\
  (exists w',
      forall callback,
        SpiMasterLowLevelDmaBased.DmaChannel_interruptHandler callback (s, channels, trace)
          (SpiMasterLowLevelDmaBased.Rx, SpiMasterLowLevelDmaBased.TransferError)
        = callback 1%nat 4 w') /\
  (exists w',
      forall callback,
        SpiMasterLowLevelDmaBased.DmaChannel_interruptHandler callback (s, channels, trace)
          (SpiMasterLowLevelDmaBased.Tx, SpiMasterLowLevelDmaBased.TransferError)
        = callback 1%nat 4 w').
Proof.
  intros s channels trace.
  destruct (C1_dma_bytes_transferred s channels trace 1%nat)
    as ((w1 & H1) & (w2 & H2) & (w3 & H3)).
  - vm_compute. reflexivity.
  - vm_compute. reflexivity.
  - vm_compute. reflexivity.
  - vm_compute. split; discriminate.
  - vm_compute. split; discriminate.
  - split; [| split].
    + exists w1. intros callback. rewrite (H1 callback). f_equal.
    + exists w2. intros callback. rewrite (H2 callback). f_equal.
    + exists w3. intros callback. rewrite (H3 callback). f_equal.
Defined.

(** ** The end of a transfer: the DMA-based driver *)

Section OneCallbackDmaBased.

Import SpiMasterLowLevelDmaBased.

Lemma underway_intro (s : SpiMasterLowLevelDmaBased.t) (channels : Channels) :
  wired s channels = true -> size_ s <> 0 ->
  enabled (channels (rxDmaChannel_ s)) = true ->
  enabled (channels (txDmaChannel_ s)) = true ->
  flagSet (flags (channels (rxDmaChannel_ s))) Flags.transferCompleteInterruptEnable = true ->
  underway s channels = true.
Proof.
  intros Hwired Hbusy HrxOn HtxOn Hflag. unfold underway.
  apply Z.eqb_neq in Hbusy. rewrite Hwired, Hbusy, HrxOn, HtxOn, Hflag. reflexivity.
Qed.

Lemma quiet_step (callback : Callback) (s : SpiMasterLowLevelDmaBased.t)
    (channels : Channels) (trace : list Operation) (st : Step) :
  quiet s channels ->
  step callback (s, channels, trace) st = Ok (s, channels, trace).
Proof.
  intros (_ & HrxOff & HtxOff).
  destruct st as [[|] transactionsLeft | [|] flag];
    cbn [step counted DmaChannel_interruptHandler fst channelOf];
    rewrite ?HrxOff, ?HtxOff; reflexivity.
Qed.

Lemma quiet_run_channels (callback : Callback) (steps : list Step)
    (s : SpiMasterLowLevelDmaBased.t) (channels : Channels) (trace : list Operation) :
  quiet s channels ->
  run callback (s, channels, trace) steps = Ok (s, channels, trace).
Proof.
  intros Hquiet. induction steps as [| st steps IH]; [reflexivity |].
  cbn [run]. rewrite quiet_step by exact Hquiet. exact IH.
Qed.

(** The hardware's counting leaves everything but the counter as it is. *)
Lemma update_setTransactionsLeft (channels : Channels) (channel i : nat)
    (transactionsLeft : Z) :
  let channels' :=
    update channels channel (setTransactionsLeft (channels channel) transactionsLeft) in
  functor_ (channels' i) = functor_ (channels i) /\
  enabled (channels' i) = enabled (channels i) /\
  flags (channels' i) = flags (channels i) /\
  DmaChannel.transactionsLeft (channels' i)
  = if Nat.eqb i channel then transactionsLeft else DmaChannel.transactionsLeft (channels i).
Proof.
  unfold update. destruct (Nat.eqb_spec i channel) as [-> | Hother]; repeat split.
Qed.

Lemma transferring_counted (spiMasterBase : SpiMasterBase) (size : Z)
    (s : SpiMasterLowLevelDmaBased.t) (channels : Channels) (trace : list Operation)
    (which : Which) (transactionsLeft : Z) :
  transferring spiMasterBase size s channels ->
  0 <= transactionsLeft -> transactionsLeft * dataSize s <= size ->
  exists channels',
    counted (s, channels, trace) which transactionsLeft = (s, channels', trace) /\
    transferring spiMasterBase size s channels'.
Proof.
  intros (Hunderway & Hobserver & Hsize & Hrange & Hcounters) Hleft Hbound.
  pose proof Hunderway as Hfacts. apply underway_spec in Hfacts.
  destruct Hfacts as (Hwired & Hbusy & HrxOn & HtxOn & Hflag).
  pose proof Hwired as Hwires. apply wired_spec in Hwires.
  destruct Hwires as (Hstarted & Hword & Hdistinct & Hrx & Htx & HrxFunctor & HtxFunctor).
  assert (Hon : enabled (channels (channelOf s which)) = true)
    by (destruct which; assumption).
  cbn [counted]. rewrite Hon. eexists. split; [reflexivity |].
  set (channels' := update channels (channelOf s which)
                      (setTransactionsLeft (channels (channelOf s which)) transactionsLeft)).
  assert (Hkept : forall i,
             functor_ (channels' i) = functor_ (channels i) /\
             enabled (channels' i) = enabled (channels i) /\
             flags (channels' i) = flags (channels i) /\
             DmaChannel.transactionsLeft (channels' i)
             = if Nat.eqb i (channelOf s which) then transactionsLeft
               else DmaChannel.transactionsLeft (channels i)).
  { intros i. apply update_setTransactionsLeft. }
  split; [| split; [exact Hobserver | split; [exact Hsize | split; [exact Hrange |]]]].
  - apply underway_intro.
    + apply wired_intro; try assumption.
      * rewrite (proj1 (Hkept _)). exact HrxFunctor.
      * rewrite (proj1 (Hkept _)). exact HtxFunctor.
    + exact Hbusy.
    + rewrite (proj1 (proj2 (Hkept _))). exact HrxOn.
    + rewrite (proj1 (proj2 (Hkept _))). exact HtxOn.
    + rewrite (proj1 (proj2 (proj2 (Hkept _)))). exact Hflag.
  - intros which'. rewrite (proj2 (proj2 (proj2 (Hkept _)))).
    destruct (Nat.eqb (channelOf s which') (channelOf s which)).
    + split; assumption.
    + apply Hcounters.
Qed.

Lemma transferring_finished (spiMasterBase : SpiMasterBase) (size : Z)
    (s : SpiMasterLowLevelDmaBased.t) (channels : Channels) (trace : list Operation)
    (which : Which) (flag : Flag) :
  transferring spiMasterBase size s channels ->
  terminal (Interrupt which flag) = true ->
  exists s' channels' trace',
    DmaChannel_interruptHandler passive (s, channels, trace) (which, flag)
    = Ok (s', channels', trace') /\
    quiet s' channels' /\
    exists bytes,
      0 <= bytes <= size /\
      transferCompleteEvents trace'
      = transferCompleteEvents trace ++ [CallTransferCompleteEvent spiMasterBase bytes].
Proof.
  intros (Hunderway & Hobserver & Hsize & Hrange & Hcounters) Hterminal.
  pose proof Hunderway as Hfacts. apply underway_spec in Hfacts.
  destruct Hfacts as (Hwired & Hbusy & _). apply wired_spec in Hwired.
  destruct Hwired as (_ & Hword & _ & Hrx & Htx & _).
  pose proof (dataSize_range _ Hword) as HdataSize. fold (dataSize s) in HdataSize.
  eexists _, _, _. split.
  { apply (interruptHandler_completes s channels trace spiMasterBase which flag Hunderway
             Hobserver Hterminal passive). }
  split.
  - unfold quiet. cbn [cleared set_spiMasterBase set_size size_ rxDmaChannel_ txDmaChannel_].
    rewrite (stopped_rx_disabled s channels _ Hrx), (stopped_tx_disabled s channels _ Htx).
    repeat split.
  - eexists. split; [| unfold transferCompleteEvents; rewrite filter_app; reflexivity].
    destruct (Hcounters which) as [Hleft Hbound]. unfold dataSize in *.
    destruct flag.
    + rewrite bytesTransfered_exact by lia. lia.
    + rewrite bytesTransfered_exact by nia. nia.
Qed.

Lemma transferring_ignored (spiMasterBase : SpiMasterBase) (size : Z)
    (s : SpiMasterLowLevelDmaBased.t) (channels : Channels) (trace : list Operation)
    (which : Which) (flag : Flag) :
  transferring spiMasterBase size s channels ->
  terminal (Interrupt which flag) = false ->
  DmaChannel_interruptHandler passive (s, channels, trace) (which, flag)
  = Ok (s, channels, trace).
Proof.
  intros (Hunderway & _) Hterminal.
  apply underway_spec in Hunderway. destruct Hunderway as (Hwired & _ & _ & HtxOn & _).
  apply wired_spec in Hwired. destruct Hwired as (_ & _ & _ & _ & _ & _ & HtxFunctor).
  destruct which, flag; try discriminate Hterminal.
  unfold DmaChannel_interruptHandler. cbn [fst snd channelOf].
  rewrite HtxOn, HtxFunctor. reflexivity.
Qed.

(** Whatever the DMA controller does, the observer is called exactly when
    the first interrupt that ends the transfer is served. *)
Lemma transferring_run_channels (spiMasterBase : SpiMasterBase) (size : Z)
    (steps : list Step) :
  forall (s : SpiMasterLowLevelDmaBased.t) (channels : Channels) (trace : list Operation),
    transferring spiMasterBase size s channels ->
    admissible (size / dataSize s) steps = true ->
    exists s' channels' trace',
      run passive (s, channels, trace) steps = Ok (s', channels', trace') /\
      if existsb terminal steps then
        quiet s' channels' /\
        exists bytes,
          0 <= bytes <= size /\
          transferCompleteEvents trace'
          = transferCompleteEvents trace ++ [CallTransferCompleteEvent spiMasterBase bytes]
      else
        transferring spiMasterBase size s' channels' /\ dataSize s' = dataSize s /\
        transferCompleteEvents trace' = transferCompleteEvents trace.
Proof.
  induction steps as [| st steps IH]; intros s channels trace Htransferring Hadmissible.
  - exists s, channels, trace. split; [reflexivity |]. cbn [existsb].
    split; [assumption |]. split; reflexivity.
  - cbn [admissible forallb] in Hadmissible. apply andb_true_iff in Hadmissible.
    destruct Hadmissible as [Hstep Hadmissible]. fold (admissible (size / dataSize s) steps)
      in Hadmissible.
    cbn [run existsb].
    destruct st as [which transactionsLeft | which flag].
    + apply andb_true_iff in Hstep. destruct Hstep as [Hleft Hbound].
      apply Z.leb_le in Hleft. apply Z.leb_le in Hbound.
      assert (Hdata : 1 <= dataSize s).
      { destruct Htransferring as (Hunderway & _). apply underway_spec in Hunderway.
        destruct Hunderway as (Hwired & _). apply wired_spec in Hwired.
        destruct Hwired as (_ & Hword & _).
        destruct (dataSize_range _ Hword) as [Hone | Htwo]; unfold dataSize; lia. }
      assert (Hpart : transactionsLeft * dataSize s <= size).
      { destruct Htransferring as (_ & _ & _ & _ & _).
        assert (size / dataSize s * dataSize s <= size)
          by (rewrite Z.mul_comm; apply Z.mul_div_le; lia).
        nia. }
      destruct (transferring_counted spiMasterBase size s channels trace which
                  transactionsLeft Htransferring Hleft Hpart) as (channels1 & Hcounted & Hnext).
      cbn [step bind terminal orb]. rewrite Hcounted.
      apply (IH s channels1 trace Hnext Hadmissible).
    + cbn [step]. destruct (terminal (Interrupt which flag)) eqn:Hterminal; cbn [orb].
      * destruct (transferring_finished spiMasterBase size s channels trace which flag
                    Htransferring Hterminal)
          as (s1 & channels1 & trace1 & Hstep1 & Hquiet & Hbytes).
        rewrite Hstep1. cbn [bind]. rewrite quiet_run_channels by exact Hquiet.
        exists s1, channels1, trace1. split; [reflexivity |]. split; assumption.
      * rewrite (transferring_ignored spiMasterBase size s channels trace which flag
                   Htransferring Hterminal).
        cbn [bind]. apply (IH s channels trace Htransferring Hadmissible).
Qed.

End OneCallbackDmaBased.

Lemma SpiMasterLowLevelDmaBased_startTransfer_transferring
    (s : SpiMasterLowLevelDmaBased.t) (channels : Channels) (spiMasterBase : SpiMasterBase)
    (writeBuffer readBuffer : option Z) (size : Z) :
  SpiMasterLowLevelDmaBased.ready s channels = true ->
  SpiMasterLowLevelDmaBased.aligned s writeBuffer readBuffer = true ->
  0 < size < SIZE_MODULUS ->
  SpiMasterLowLevelDmaBased.status
    (SpiMasterLowLevelDmaBased.startTransfer (s, channels, []) spiMasterBase writeBuffer
       readBuffer size) = Ok 0 ->
  exists s' channels' trace',
    SpiMasterLowLevelDmaBased.startTransfer (s, channels, []) spiMasterBase writeBuffer
      readBuffer size = Ok (0, (s', channels', trace')) /\
    SpiMasterLowLevelDmaBased.transferring spiMasterBase size s' channels' /\
    SpiMasterLowLevelDmaBased.dataSize s' = SpiMasterLowLevelDmaBased.dataSize s /\
    SpiMasterLowLevelDmaBased.transferCompleteEvents trace' = [].
Proof.
  intros Hready Haligned Hsize Hstatus.
  set (dataSize := (SpiMasterLowLevelDmaBased.wordLength_ s + 8 - 1) / 8).
  assert (Hmultiple : size mod dataSize = 0).
  { destruct ((size =? 0) || negb (size mod dataSize =? 0)) eqn:Hinvalid.
    - rewrite (SpiMasterLowLevelDmaBased_startTransfer_invalid s channels [] spiMasterBase
                 writeBuffer readBuffer size Hready Hinvalid) in Hstatus.
      discriminate.
    - apply orb_false_iff in Hinvalid. destruct Hinvalid as [_ Hinvalid].
      apply negb_false_iff in Hinvalid. apply Z.eqb_eq. exact Hinvalid. }
  pose proof (startTransfer_ready s channels [] spiMasterBase writeBuffer readBuffer size
                Hready Haligned (proj1 Hsize) Hmultiple) as Hresult.
  fold dataSize in Hresult.
  destruct (65535 <? size / dataSize).
  { rewrite Hresult in Hstatus. discriminate. }
  destruct Hresult
    as (channels' & Hresult & HrxOn & HtxOn & HrxLeft & HtxLeft & HrxFunctor & HtxFunctor
        & Hflag).
  apply ready_spec in Hready. destruct Hready as (Hwired & _).
  apply wired_spec in Hwired.
  destruct Hwired as (Hstarted & Hword & Hdistinct & Hrx & Htx & _).
  pose proof (dataSize_range _ Hword) as HdataSize. fold dataSize in HdataSize.
  eexists _, _, _. split; [exact Hresult |].
  split; [| split; reflexivity].
  assert (Hparts : 0 <= size / dataSize /\ size / dataSize * dataSize <= size).
  { split; [apply Z.div_pos; lia |]. rewrite Z.mul_comm. apply Z.mul_div_le. lia. }
  unfold SpiMasterLowLevelDmaBased.transferring, SpiMasterLowLevelDmaBased.dataSize.
  cbn [SpiMasterLowLevelDmaBased.set_size SpiMasterLowLevelDmaBased.set_spiMasterBase
       SpiMasterLowLevelDmaBased.spiMasterBase_ SpiMasterLowLevelDmaBased.size_
       SpiMasterLowLevelDmaBased.wordLength_].
  fold dataSize.
  split; [| split; [reflexivity | split; [reflexivity | split; [lia |]]]].
  - apply underway_intro; cbn; try assumption; try lia.
    apply wired_intro; assumption.
  - intros [|]; cbn [SpiMasterLowLevelDmaBased.channelOf
                      SpiMasterLowLevelDmaBased.set_size
                      SpiMasterLowLevelDmaBased.set_spiMasterBase
                      SpiMasterLowLevelDmaBased.rxDmaChannel_
                      SpiMasterLowLevelDmaBased.txDmaChannel_];
      rewrite ?HrxLeft, ?HtxLeft; exact Hparts.
Qed.

(** C4.  After a successful [startTransfer] of [size] bytes, whatever the
    hardware does afterwards, the observer's [transferCompleteEvent] is
    called exactly once, when the transfer ends, with at most [size] bytes,
    and the driver is idle from then on; as long as the transfer has not
    ended the driver stays busy and the observer is not called.  For the
    interrupt-based driver the transfer ends with the interrupt that hands
    over the last word or with an overrun error that finds the peripheral
    no longer busy ([completion]); for the DMA-based driver it ends with
    the first transfer-complete interrupt of the RX channel or
    transfer-error interrupt of either channel ([terminal]), the hardware
    counters staying between 0 and the transactions of the transfer
    ([admissible]). *)
Theorem C4_exactly_one_callback :
  (forall (s : ChipSpiMasterLowLevel.t) (spiMasterBase : SpiMasterBase)
          (writeBuffer readBuffer : option Z) (size : Z) (memory : Memory)
          (interrupts : list ChipSpiMasterLowLevel.Hardware),
      0 < size < SIZE_MODULUS ->
      let started :=
        ChipSpiMasterLowLevel.startTransfer s spiMasterBase writeBuffer readBuffer size in
      let dataSize := ChipSpiMasterLowLevel.dataSize s in
      fst started = 0 ->
      exists s' memory' events',
        ChipSpiMasterLowLevel.run ChipSpiMasterLowLevel.passive (snd started, memory, [])
          interrupts
        = Ok (s', memory', events') /\
        match ChipSpiMasterLowLevel.completion (size / dataSize) 0 interrupts with
        | Some words =>
            ChipSpiMasterLowLevel.isTransferInProgress s' = false /\
            ChipSpiMasterLowLevel.transferCompleteEvents events'
            = [TransferCompleteEvent spiMasterBase (dataSize * words)] /\
            0 <= dataSize * words <= size
        | None =>
            ChipSpiMasterLowLevel.isTransferInProgress s' = true /\
            ChipSpiMasterLowLevel.transferCompleteEvents events' = []
        end) /\
  (forall (s : SpiMasterLowLevelDmaBased.t) (channels : Channels)
          (spiMasterBase : SpiMasterBase) (writeBuffer readBuffer : option Z) (size : Z)
          (steps : list SpiMasterLowLevelDmaBased.Step),
      SpiMasterLowLevelDmaBased.ready s channels = true ->
      SpiMasterLowLevelDmaBased.aligned s writeBuffer readBuffer = true ->
      0 < size < SIZE_MODULUS ->
      SpiMasterLowLevelDmaBased.status
        (SpiMasterLowLevelDmaBased.startTransfer (s, channels, []) spiMasterBase
           writeBuffer readBuffer size) = Ok 0 ->
      SpiMasterLowLevelDmaBased.admissible (size / SpiMasterLowLevelDmaBased.dataSize s)
        steps = true ->
      exists w s' channels' trace',
        SpiMasterLowLevelDmaBased.startTransfer (s, channels, []) spiMasterBase
          writeBuffer readBuffer size = Ok (0, w) /\
        SpiMasterLowLevelDmaBased.run SpiMasterLowLevelDmaBased.passive w steps
        = Ok (s', channels', trace') /\
        if existsb SpiMasterLowLevelDmaBased.terminal steps then
          SpiMasterLowLevelDmaBased.isTransferInProgress s' = false /\
          exists bytesTransfered,
            SpiMasterLowLevelDmaBased.transferCompleteEvents trace'
            = [SpiMasterLowLevelDmaBased.CallTransferCompleteEvent spiMasterBase
                 bytesTransfered] /\
            0 <= bytesTransfered <= size
        else
          SpiMasterLowLevelDmaBased.isTransferInProgress s' = true /\
          SpiMasterLowLevelDmaBased.transferCompleteEvents trace' = []).
Proof.
  split.
  - intros s spiMasterBase writeBuffer readBuffer size memory interrupts Hsize started
      dataSize Hsuccess.
    exact (ChipSpiMasterLowLevel_startTransfer_completion s spiMasterBase writeBuffer
             readBuffer size memory interrupts Hsize Hsuccess).
  - intros s channels spiMasterBase writeBuffer readBuffer size steps Hready Haligned
      Hsize Hsuccess Hadmissible.
    destruct (SpiMasterLowLevelDmaBased_startTransfer_transferring s channels spiMasterBase
                writeBuffer readBuffer size Hready Haligned Hsize Hsuccess)
      as (s1 & channels1 & trace1 & Hstart & Htransferring & Hdata & Htrace1).
    rewrite <- Hdata in Hadmissible.
    destruct (transferring_run_channels spiMasterBase size steps s1 channels1 trace1
                Htransferring Hadmissible)
      as (s' & channels' & trace' & Hrun & Hresult).
    exists (s1, channels1, trace1), s', channels', trace'.
    split; [exact Hstart |]. split; [exact Hrun |].
    unfold SpiMasterLowLevelDmaBased.isTransferInProgress.
    rewrite Htrace1 in Hresult.
    destruct (existsb SpiMasterLowLevelDmaBased.terminal steps).
    + destruct Hresult as ((Hidle & _) & bytes & Hbytes & Htrace).
      rewrite Hidle. split; [reflexivity |]. exists bytes. split; [exact Htrace | exact Hbytes].
    + destruct Hresult as (Hnext & _ & Htrace). split; [| exact Htrace].
      destruct Hnext as (Hunderway & _). apply underway_spec in Hunderway.
      destruct Hunderway as (_ & Hbusy & _).
      apply negb_true_iff, Z.eqb_neq. exact Hbusy.
Qed.

Lemma C4_exactly_one_callback_witness :
  (exists s' memory' events',
      ChipSpiMasterLowLevel.run ChipSpiMasterLowLevel.passive
        (ChipSpiMasterLowLevel.exampleTransfer 8 None (Some 4096) 1,
         ChipSpiMasterLowLevel.zeroMemory, [])
        [ChipSpiMasterLowLevel.mkHardware SPI_SR_TXE 0;
         ChipSpiMasterLowLevel.mkHardware SPI_SR_RXNE 159]
      = Ok (s', memory', events') /\
      ChipSpiMasterLowLevel.isTransferInProgress s' = false /\
      ChipSpiMasterLowLevel.transferCompleteEvents events' = [TransferCompleteEvent 1%nat 1]) /\
  (exists w s' channels' trace',
      SpiMasterLowLevelDmaBased.startTransfer SpiMasterLowLevelDmaBased.exampleReady
        1%nat None None 10 = Ok (0, w) /\
      SpiMasterLowLevelDmaBased.run SpiMasterLowLevelDmaBased.passive w
        [SpiMasterLowLevelDmaBased.Counted SpiMasterLowLevelDmaBased.Rx 4;
         SpiMasterLowLevelDmaBased.Counted SpiMasterLowLevelDmaBased.Tx 3;
         SpiMasterLowLevelDmaBased.Interrupt SpiMasterLowLevelDmaBased.Tx
           SpiMasterLowLevelDmaBased.TransferComplete;
         SpiMasterLowLevelDmaBased.Interrupt SpiMasterLowLevelDmaBased.Rx
           SpiMasterLowLevelDmaBased.TransferError;
         SpiMasterLowLevelDmaBased.Interrupt SpiMasterLowLevelDmaBased.Rx
           SpiMasterLowLevelDmaBased.TransferComplete]
      = Ok (s', channels', trace') /\
      SpiMasterLowLevelDmaBased.isTransferInProgress s' = false /\
      SpiMasterLowLevelDmaBased.transferCompleteEvents trace'
      = [SpiMasterLowLevelDmaBased.CallTransferCompleteEvent 1%nat 6]).
Proof.
  split.
  - destruct (proj1 C4_exactly_one_callback (ChipSpiMasterLowLevel.exampleConfigured 8)
                1%nat None (Some 4096) 1 ChipSpiMasterLowLevel.zeroMemory
                [ChipSpiMasterLowLevel.mkHardware SPI_SR_TXE 0;
                 ChipSpiMasterLowLevel.mkHardware SPI_SR_RXNE 159]
                ltac:(vm_compute; split; reflexivity) ltac:(vm_compute; reflexivity))
      as (s' & memory' & events' & Hrun & Hresult).
    exists s', memory', events'. split; [exact Hrun |].
    vm_compute in Hrun. injection Hrun as <- _ <-.
    split; reflexivity.
  - destruct (proj2 C4_exactly_one_callback
                (fst (fst SpiMasterLowLevelDmaBased.exampleReady))
                (snd (fst SpiMasterLowLevelDmaBased.exampleReady))
                1%nat None None 10
                [SpiMasterLowLevelDmaBased.Counted SpiMasterLowLevelDmaBased.Rx 4;
                 SpiMasterLowLevelDmaBased.Counted SpiMasterLowLevelDmaBased.Tx 3;
                 SpiMasterLowLevelDmaBased.Interrupt SpiMasterLowLevelDmaBased.Tx
                   SpiMasterLowLevelDmaBased.TransferComplete;
                 SpiMasterLowLevelDmaBased.Interrupt SpiMasterLowLevelDmaBased.Rx
                   SpiMasterLowLevelDmaBased.TransferError;
                 SpiMasterLowLevelDmaBased.Interrupt SpiMasterLowLevelDmaBased.Rx
                   SpiMasterLowLevelDmaBased.TransferComplete]
                ltac:(vm_compute; reflexivity) ltac:(vm_compute; reflexivity)
                ltac:(vm_compute; split; reflexivity) ltac:(vm_compute; reflexivity)
                ltac:(vm_compute; reflexivity))
      as (w & s' & channels' & trace' & Hstart & Hrun & Hresult).
    exists w, s', channels', trace'. split; [exact Hstart |]. split; [exact Hrun |].
    vm_compute in Hstart. injection Hstart as <-.
    vm_compute in Hrun. injection Hrun as <- _ <-.
    split; reflexivity.
Defined.

(** ** Reception of halfwords by the interrupt-based driver *)

Section Halfwords.

Import ChipSpiMasterLowLevel.

Variables (spiMasterBase : SpiMasterBase) (readBuffer count : Z).

Lemma reading_set_CR2 (done : Z) (s : ChipSpiMasterLowLevel.t) (cr2 : Z) :
  getWordLength cr2 = getWordLength (CR2 s) ->
  flagSet cr2 SPI_CR2_RXNEIE = true ->
  reading spiMasterBase readBuffer count done s ->
  reading spiMasterBase readBuffer count done (set_CR2 s cr2).
Proof.
  intros Hword Hrxneie (Hobserver & Hsize & Hbuffer & Hposition & Hwide & _ & Hrest).
  unfold reading. cbn [set_CR2 spiMasterBase_ size_ readBuffer_ readPosition_ CR2].
  rewrite Hword. repeat split; try assumption; apply Hrest.
Qed.

Lemma reading_other_interrupt (done : Z) (s : ChipSpiMasterLowLevel.t) (memory : Memory)
    (events : list Event) (hw : Hardware) :
  reading spiMasterBase readBuffer count done s ->
  flagSet (SR hw) SPI_SR_OVR = false ->
  flagSet (SR hw) SPI_SR_RXNE = false ->
  exists s' events',
    interruptHandler passive (s, memory, events) hw = Ok (s', memory, events') /\
    reading spiMasterBase readBuffer count done s' /\
    transferCompleteEvents events' = transferCompleteEvents events.
Proof.
  intros Hreading Hovr Hrxne.
  pose proof Hreading as (_ & _ & _ & _ & _ & Hrxneie & _).
  unfold interruptHandler, interruptHandlerBranch. rewrite Hovr, Hrxne. cbn [andb].
  destruct (flagSet (SR hw) SPI_SR_TXE && flagSet (CR2 s) SPI_CR2_TXEIE).
  - destruct (loadWord s memory (getWordLength (CR2 s))) as [writePosition word].
    eexists _, _. split; [reflexivity |]. split.
    + apply reading_set_CR2.
      * apply getWordLength_clearBits. vm_compute. split; [discriminate | reflexivity].
      * unfold SPI_CR2_RXNEIE, SPI_CR2_TXEIE in *. rewrite flagSet_clearBits by lia.
        cbn [CR2 set_writePosition]. rewrite Hrxneie. reflexivity.
      * exact Hreading.
    + rewrite transferCompleteEvents_app.
      destruct (getWordLength (CR2 s) <=? 8); apply app_nil_r.
  - exists s, events. split; [reflexivity |]. split; [exact Hreading | reflexivity].
Qed.

Lemma reading_rxne_interrupt (done : Z) (s : ChipSpiMasterLowLevel.t) (memory : Memory)
    (events : list Event) (hw : Hardware) :
  reading spiMasterBase readBuffer count done s ->
  flagSet (SR hw) SPI_SR_OVR = false ->
  flagSet (SR hw) SPI_SR_RXNE = true ->
  exists s' events',
    interruptHandler passive (s, memory, events) hw
    = Ok (s',
          store (store memory (readBuffer + 2 * done) (u16 (DR hw)))
            (readBuffer + 2 * done + 1) (Z.shiftr (u16 (DR hw)) 8),
          events') /\
    ((done + 1 < count /\
      reading spiMasterBase readBuffer count (done + 1) s' /\
      transferCompleteEvents events' = transferCompleteEvents events) \/
     (done + 1 = count /\
      quiet s' /\
      transferCompleteEvents events'
      = transferCompleteEvents events ++ [TransferCompleteEvent spiMasterBase (2 * count)])).
Proof.
  intros Hreading Hovr Hrxne.
  pose proof Hreading
    as (Hobserver & Hsize & Hbuffer & Hposition & Hwide & Hrxneie & Hdone & Hcount).
  unfold SIZE_MODULUS in Hcount. change (2 ^ 32) with 4294967296 in Hcount.
  unfold interruptHandler, interruptHandlerBranch. rewrite Hovr, Hrxne, Hrxneie. cbn [andb].
  replace (getWordLength (CR2 s) <=? 8) with false by (symmetry; apply Z.leb_gt; exact Hwide).
  unfold storeWord. rewrite Hbuffer, Hposition.
  replace (8 <? getWordLength (CR2 s)) with true by (symmetry; apply Z.ltb_lt; exact Hwide).
  unfold size_t, SIZE_MODULUS. change (2 ^ 32) with 4294967296.
  rewrite (Z.mod_small (2 * done + 1)) by lia.
  rewrite (Z.mod_small (2 * done + 1 + 1)) by lia.
  rewrite Z.add_assoc.
  cbn [size_ set_readPosition]. rewrite Hsize.
  destruct (2 * done + 1 + 1 =? 2 * count) eqn:Hfinished.
  - apply Z.eqb_eq in Hfinished.
    match goal with
    | |- context [transferFinished passive (?s1, ?m1, ?e1)] =>
        destruct (transferFinished_quiet s1 m1 e1 spiMasterBase Hobserver)
          as (s' & Hresult & Hquiet)
    end.
    exists s', (events ++ [TransferCompleteEvent spiMasterBase (2 * done + 1 + 1)]).
    split; [exact Hresult |]. right. split; [lia |]. split; [exact Hquiet |].
    rewrite transferCompleteEvents_app, Hfinished. reflexivity.
  - apply Z.eqb_neq in Hfinished.
    eexists _, _. split; [reflexivity |]. left. split; [lia |]. split; [| reflexivity].
    apply reading_set_CR2.
    + apply getWordLength_setBits. vm_compute. split; [discriminate | reflexivity].
    + unfold SPI_CR2_RXNEIE, SPI_CR2_TXEIE in *. rewrite flagSet_setBits by lia.
      cbn [CR2 set_readPosition]. rewrite Hrxneie. reflexivity.
    + unfold reading. cbn [set_readPosition spiMasterBase_ size_ readBuffer_ readPosition_ CR2].
      repeat split; try assumption; lia.
Qed.

Lemma received_cons (hw : Hardware) (interrupts : list Hardware) :
  received (hw :: interrupts) =
  if flagSet (SR hw) SPI_SR_RXNE then u16 (DR hw) :: received interrupts
  else received interrupts.
Proof.
  unfold received. cbn [filter]. destruct (flagSet (SR hw) SPI_SR_RXNE); reflexivity.
Qed.

Lemma reading_run (interrupts : list Hardware) :
  forall (done : Z) (s : ChipSpiMasterLowLevel.t) (memory : Memory) (events : list Event),
    noOverrun interrupts = true ->
    reading spiMasterBase readBuffer count done s ->
    done + Z.of_nat (length (received interrupts)) <= count ->
    exists s' events',
      run passive (s, memory, events) interrupts
      = Ok (s', storeHalfwords memory (readBuffer + 2 * done) (received interrupts),
            events') /\
      ((done + Z.of_nat (length (received interrupts)) < count /\
        reading spiMasterBase readBuffer count
          (done + Z.of_nat (length (received interrupts))) s' /\
        transferCompleteEvents events' = transferCompleteEvents events) \/
       (done + Z.of_nat (length (received interrupts)) = count /\
        quiet s' /\
        transferCompleteEvents events'
        = transferCompleteEvents events
          ++ [TransferCompleteEvent spiMasterBase (2 * count)])).
Proof.
  induction interrupts as [| hw interrupts IH];
    intros done s memory events Hclean Hreading Hbound.
  - exists s, events. split; [reflexivity |]. left.
    cbn [received filter map length Z.of_nat] in *. rewrite Z.add_0_r.
    destruct Hreading as (H1 & H2 & H3 & H4 & H5 & H6 & H7 & H8).
    split; [lia |]. split; [| reflexivity]. repeat split; assumption || lia.
  - cbn [noOverrun forallb] in Hclean. apply andb_true_iff in Hclean.
    destruct Hclean as [Hovr Hclean]. apply negb_true_iff in Hovr.
    fold (noOverrun interrupts) in Hclean.
    rewrite received_cons in *.
    destruct (flagSet (SR hw) SPI_SR_RXNE) eqn:Hrxne.
    + cbn [length storeHalfwords] in *. rewrite Nat2Z.inj_succ in *.
      destruct (reading_rxne_interrupt done s memory events hw Hreading Hovr Hrxne)
        as (s1 & events1 & Hstep & [(Hmore & Hnext & Hevents) | (Hlast & Hquiet & Hevents)]).
      * destruct (IH (done + 1) s1
                    (store (store memory (readBuffer + 2 * done) (u16 (DR hw)))
                       (readBuffer + 2 * done + 1) (Z.shiftr (u16 (DR hw)) 8))
                    events1 Hclean Hnext ltac:(lia))
          as (s' & events' & Hrun & Hresult).
        exists s', events'. split.
        -- cbn [run]. rewrite Hstep. cbn [bind].
           replace (readBuffer + 2 * done + 2) with (readBuffer + 2 * (done + 1)) by lia.
           exact Hrun.
        -- replace (done + Z.succ (Z.of_nat (length (received interrupts))))
             with (done + 1 + Z.of_nat (length (received interrupts))) by lia.
           rewrite Hevents in Hresult. exact Hresult.
      * assert (Hnone : received interrupts = []).
        { destruct (received interrupts); [reflexivity |]. cbn [length] in Hbound.
          rewrite Nat2Z.inj_succ in Hbound. lia. }
        rewrite Hnone in *. cbn [length Z.of_nat storeHalfwords] in *.
        exists s1, events1. split.
        -- cbn [run]. rewrite Hstep. cbn [bind]. apply quiet_run. exact Hquiet.
        -- right. split; [lia |]. split; assumption.
    + destruct (reading_other_interrupt done s memory events hw Hreading Hovr Hrxne)
        as (s1 & events1 & Hstep & Hnext & Hevents).
      destruct (IH done s1 memory events1 Hclean Hnext Hbound)
        as (s' & events' & Hrun & Hresult).
      exists s', events'. split.
      * cbn [run]. rewrite Hstep. cbn [bind]. exact Hrun.
      * rewrite Hevents in Hresult. exact Hresult.
Qed.

End Halfwords.

Lemma storeHalfwords_below (words : list Z) :
  forall (memory : Memory) (address a : Z),
    a < address ->
    ChipSpiMasterLowLevel.storeHalfwords memory address words a = memory a.
Proof.
  induction words as [| word words IH]; intros memory address a Hbelow; [reflexivity |].
  cbn [ChipSpiMasterLowLevel.storeHalfwords]. rewrite IH by lia.
  unfold store.
  replace (a =? address + 1) with false by (symmetry; apply Z.eqb_neq; lia).
  replace (a =? address) with false by (symmetry; apply Z.eqb_neq; lia).
  reflexivity.
Qed.

Lemma storeHalfwords_holds (words : list Z) :
  forall (memory : Memory) (address : Z) (i : nat),
    (i < length words)%nat ->
    ChipSpiMasterLowLevel.storeHalfwords memory address words (address + 2 * Z.of_nat i)
    = u8 (nth i words 0) /\
    ChipSpiMasterLowLevel.storeHalfwords memory address words (address + 2 * Z.of_nat i + 1)
    = u8 (Z.shiftr (nth i words 0) 8).
Proof.
  induction words as [| word words IH]; intros memory address i Hi; [inversion Hi |].
  cbn [ChipSpiMasterLowLevel.storeHalfwords].
  destruct i as [| i].
  - cbn [nth Z.of_nat]. rewrite !storeHalfwords_below by lia.
    unfold store. rewrite Z.mul_0_r, Z.add_0_r, Z.eqb_refl.
    replace (address =? address + 1) with false by (symmetry; apply Z.eqb_neq; lia).
    rewrite Z.eqb_refl. split; reflexivity.
  - cbn [nth length] in *.
    replace (address + 2 * Z.of_nat (S i)) with (address + 2 + 2 * Z.of_nat i) by lia.
    apply IH. lia.
Qed.

(** C9.  The interrupt-based driver with 16-bit words, after [startTransfer]
    for 10 bytes with both buffers present, in any series of interrupts
    without overrun: every RXNE interrupt stores the halfword of the data
    register into the read buffer, low byte first, then high byte, and
    advances [readPosition_] by 2 (after [n < 5] of them it is [2 * n], the
    transfer is still in progress and the observer was not called); with the
    fifth RXNE interrupt the observer is called once, with 10 bytes
    transferred, and the read buffer holds the five halfwords received. *)
Theorem C9_five_halfwords :
  forall (s : ChipSpiMasterLowLevel.t) (spiMasterBase : SpiMasterBase)
         (writeBuffer readBuffer : Z) (memory : Memory)
         (interrupts : list ChipSpiMasterLowLevel.Hardware),
    ChipSpiMasterLowLevel.isStarted s = true ->
    ChipSpiMasterLowLevel.isTransferInProgress s = false ->
    ChipSpiMasterLowLevel.getWordLength (ChipSpiMasterLowLevel.CR2 s) = 16 ->
    ChipSpiMasterLowLevel.noOverrun interrupts = true ->
    (length (ChipSpiMasterLowLevel.received interrupts) <= 5)%nat ->
    let words := ChipSpiMasterLowLevel.received interrupts in
    let started :=
      ChipSpiMasterLowLevel.startTransfer s spiMasterBase (Some writeBuffer)
        (Some readBuffer) 10 in
    fst started = 0 /\
    exists s' events',
      ChipSpiMasterLowLevel.run ChipSpiMasterLowLevel.passive (snd started, memory, [])
        interrupts
      = Ok (s', ChipSpiMasterLowLevel.storeHalfwords memory readBuffer words, events') /\
      (forall i : nat,
          (i < length words)%nat ->
          ChipSpiMasterLowLevel.storeHalfwords memory readBuffer words
            (readBuffer + 2 * Z.of_nat i) = u8 (nth i words 0) /\
          ChipSpiMasterLowLevel.storeHalfwords memory readBuffer words
            (readBuffer + 2 * Z.of_nat i + 1) = u8 (Z.shiftr (nth i words 0) 8)) /\
      ((length words < 5)%nat ->
       ChipSpiMasterLowLevel.readPosition_ s' = 2 * Z.of_nat (length words) /\
       ChipSpiMasterLowLevel.isTransferInProgress s' = true /\
       ChipSpiMasterLowLevel.transferCompleteEvents events' = []) /\
      (length words = 5%nat ->
       ChipSpiMasterLowLevel.isTransferInProgress s' = false /\
       ChipSpiMasterLowLevel.transferCompleteEvents events'
       = [TransferCompleteEvent spiMasterBase 10]).
Proof.
  intros s spiMasterBase writeBuffer readBuffer memory interrupts Hstarted Hidle Hword
    Hclean Hcount words started.
  assert (Hstatus : fst started = 0).
  { unfold started. rewrite ChipSpiMasterLowLevel_startTransfer_status by assumption.
    rewrite Hword. reflexivity. }
  split; [exact Hstatus |].
  assert (Hreading : ChipSpiMasterLowLevel.reading spiMasterBase readBuffer 5 0 (snd started)).
  { unfold started, ChipSpiMasterLowLevel.startTransfer in *.
    rewrite Hstarted, Hidle, Hword in *. cbn in Hstatus |- *.
    unfold ChipSpiMasterLowLevel.reading.
    cbn [ChipSpiMasterLowLevel.spiMasterBase_ ChipSpiMasterLowLevel.size_
         ChipSpiMasterLowLevel.readBuffer_ ChipSpiMasterLowLevel.readPosition_
         ChipSpiMasterLowLevel.CR2].
    rewrite getWordLength_setBits by (vm_compute; split; [discriminate | reflexivity]).
    rewrite Hword.
    unfold SPI_CR2_RXNEIE. rewrite flagSet_setBits by lia.
    repeat split; try lia; try reflexivity.
    apply orb_true_iff. right. reflexivity. }
  assert (Hbound : 0 + Z.of_nat (length (ChipSpiMasterLowLevel.received interrupts)) <= 5)
    by lia.
  destruct (reading_run spiMasterBase readBuffer 5 interrupts 0 (snd started) memory []
              Hclean Hreading Hbound)
    as (s' & events' & Hrun & Hresult).
  fold words in Hrun, Hresult.
  replace (readBuffer + 2 * 0) with readBuffer in Hrun by lia.
  exists s', events'. split; [exact Hrun |].
  split; [intros i Hi; apply storeHalfwords_holds; exact Hi |].
  unfold ChipSpiMasterLowLevel.isTransferInProgress.
  destruct Hresult as [(Hless & Hnext & Hevents) | (Hall & Hquiet & Hevents)].
  - split; [| intros Hfive; lia].
    intros _. destruct Hnext as (_ & Hsize & _ & Hposition & _).
    rewrite Hsize, Hposition. split; [lia |]. split; [reflexivity | exact Hevents].
  - split; [intros Hfewer; lia |].
    intros _. destruct Hquiet as (Hsize & _). rewrite Hsize. split; [reflexivity |].
    exact Hevents.
Qed.

Lemma C9_five_halfwords_witness :
  let words := [18745; 14186; 10746; 27726; 31367] in
  exists s' events',
    ChipSpiMasterLowLevel.run ChipSpiMasterLowLevel.passive
      (ChipSpiMasterLowLevel.exampleTransfer 16 (Some 8192) (Some 4096) 10,
       ChipSpiMasterLowLevel.zeroMemory, [])
      (ChipSpiMasterLowLevel.duplex words)
    = Ok (s', ChipSpiMasterLowLevel.storeHalfwords ChipSpiMasterLowLevel.zeroMemory 4096 words,
          events') /\
    ChipSpiMasterLowLevel.isTransferInProgress s' = false /\
    ChipSpiMasterLowLevel.transferCompleteEvents events' = [TransferCompleteEvent 1%nat 10].
Proof.
  intros words.
  destruct (C9_five_halfwords (ChipSpiMasterLowLevel.exampleConfigured 16) 1%nat 8192 4096
              ChipSpiMasterLowLevel.zeroMemory (ChipSpiMasterLowLevel.duplex words)
              eq_refl eq_refl eq_refl eq_refl ltac:(vm_compute; lia))
    as (_ & s' & events' & Hrun & _ & _ & Hdone).
  exists s', events'. split; [exact Hrun |]. apply Hdone. reflexivity.
Defined.

(** The scenario of the unit test for 16-bit transfers of several items,
    evaluated: the words written to the data register, the observer call,
    and the bytes of the read buffer afterwards. *)
Example five_halfwords_evaluated :
  let txBuffer := [62112; 29882; 23330; 42140; 41477] in
  let rxData := [18745; 14186; 10746; 27726; 31367] in
  match
    ChipSpiMasterLowLevel.run ChipSpiMasterLowLevel.passive
      (ChipSpiMasterLowLevel.exampleTransfer 16 (Some 8192) (Some 4096) 10,
       ChipSpiMasterLowLevel.storeHalfwords ChipSpiMasterLowLevel.zeroMemory 8192 txBuffer,
       [])
      (ChipSpiMasterLowLevel.duplex rxData)
  with
  | Ok (s, memory, events) =>
      events = [WriteDr16 62112; WriteDr16 29882; WriteDr16 23330; WriteDr16 42140;
                WriteDr16 41477; TransferCompleteEvent 1%nat 10] /\
      map memory [4096; 4097; 4098; 4099; 4100; 4101; 4102; 4103; 4104; 4105]
      = [57; 73; 106; 55; 250; 41; 78; 108; 135; 122] /\
      ChipSpiMasterLowLevel.isTransferInProgress s = false
  | Crash _ => False
  end.
Proof.
  vm_compute. repeat split.
Qed.

(** X1.  The interrupt-based driver, any word length, any number of words,
    with or without buffers: in any series of interrupts without overrun
    every RXNE interrupt takes one word from the data register and stores
    it into the read buffer (low byte first; nothing is stored without a
    read buffer); while fewer words than requested were received the
    transfer stays in progress and the observer is not called, and with the
    last word the observer is called once with the full size. *)
Theorem X1_receive_words :
  forall (s : ChipSpiMasterLowLevel.t) (spiMasterBase : SpiMasterBase)
         (writeBuffer readBuffer : option Z) (count : Z) (memory : Memory)
         (interrupts : list ChipSpiMasterLowLevel.Hardware),
    ChipSpiMasterLowLevel.isStarted s = true ->
    ChipSpiMasterLowLevel.isTransferInProgress s = false ->
    let wide := 8 <? ChipSpiMasterLowLevel.getWordLength (ChipSpiMasterLowLevel.CR2 s) in
    let size := ChipSpiMasterLowLevel.bytesPerWord wide * count in
    0 < count -> size < SIZE_MODULUS ->
    ChipSpiMasterLowLevel.noOverrun interrupts = true ->
    let words := ChipSpiMasterLowLevel.receivedWords wide interrupts in
    Z.of_nat (length words) <= count ->
    let started :=
      ChipSpiMasterLowLevel.startTransfer s spiMasterBase writeBuffer readBuffer size in
    let memory' := ChipSpiMasterLowLevel.storeReceived wide memory readBuffer 0 words in
    fst started = 0 /\
    (exists s' events',
      ChipSpiMasterLowLevel.run ChipSpiMasterLowLevel.passive (snd started, memory, [])
        interrupts
      = Ok (s', memory', events') /\
      (Z.of_nat (length words) < count ->
       ChipSpiMasterLowLevel.readPosition_ s'
       = ChipSpiMasterLowLevel.bytesPerWord wide * Z.of_nat (length words) /\
       ChipSpiMasterLowLevel.isTransferInProgress s' = true /\
       ChipSpiMasterLowLevel.transferCompleteEvents events' = []) /\
      (Z.of_nat (length words) = count ->
       ChipSpiMasterLowLevel.isTransferInProgress s' = false /\
       ChipSpiMasterLowLevel.transferCompleteEvents events'
       = [TransferCompleteEvent spiMasterBase size])) /\
    match readBuffer with
    | Some buffer =>
        (forall i : nat,
            (i < length words)%nat ->
            memory' (buffer + ChipSpiMasterLowLevel.bytesPerWord wide * Z.of_nat i)
            = u8 (nth i words 0) /\
            (wide = true ->
             memory' (buffer + 2 * Z.of_nat i + 1) = u8 (Z.shiftr (nth i words 0) 8))) /\
        (forall a : Z,
            a < buffer \/
            buffer + ChipSpiMasterLowLevel.bytesPerWord wide * Z.of_nat (length words) <= a ->
            memory' a = memory a)
    | None => memory' = memory
    end.
Proof.
  intros s spiMasterBase writeBuffer readBuffer count memory interrupts Hstarted Hidle
    wide size Hcount Hsize Hclean words Hbound started memory'.
  destruct (startTransfer_exchanging s spiMasterBase writeBuffer readBuffer count
              Hstarted Hidle Hcount Hsize) as (Hstatus & Hexchanging & _).
  fold wide size started in Hstatus, Hexchanging.
  split; [exact Hstatus |]. split.
  - assert (Hbound' : 0 + Z.of_nat (length words) <= count)
      by (rewrite Z.add_0_l; exact Hbound).
    destruct (exchanging_run spiMasterBase writeBuffer readBuffer
                (ChipSpiMasterLowLevel.dummyData_ s) wide count interrupts 0 (snd started)
                memory [] Hclean Hexchanging Hbound')
      as (s' & events' & Hrun & Hresult).
    fold words memory' in Hrun, Hresult. rewrite Z.add_0_l in Hresult.
    exists s', events'. split; [exact Hrun |].
    unfold ChipSpiMasterLowLevel.isTransferInProgress.
    destruct Hresult as [(Hless & Hnext & Hevents) | (Hall & Hquiet & Hevents)].
    + split; [| intros Hfull; lia].
      intros _. destruct Hnext as (_ & _ & _ & _ & _ & Hsize' & Hposition & _ & _ & _ & _).
      rewrite Hsize', Hposition. split; [reflexivity |]. split; [| exact Hevents].
      apply negb_true_iff, Z.eqb_neq.
      unfold ChipSpiMasterLowLevel.bytesPerWord. destruct wide; lia.
    + split; [intros Hfewer; lia |].
      intros _. destruct Hquiet as (Hsize' & _). rewrite Hsize'. split; [reflexivity |].
      exact Hevents.
  - unfold memory', ChipSpiMasterLowLevel.storeReceived.
    destruct readBuffer as [buffer |]; [| reflexivity].
    rewrite Z.mul_0_r, Z.add_0_r. split.
    + intros i Hi. apply storeWords_holds. exact Hi.
    + intros a Houtside. apply storeWords_outside. exact Houtside.
Qed.

Lemma X1_receive_words_witness :
  exists s' events',
    ChipSpiMasterLowLevel.run ChipSpiMasterLowLevel.passive
      (ChipSpiMasterLowLevel.exampleTransfer 8 None (Some 4096) 3,
       ChipSpiMasterLowLevel.zeroMemory, [])
      [ChipSpiMasterLowLevel.mkHardware SPI_SR_RXNE 17;
       ChipSpiMasterLowLevel.mkHardware SPI_SR_TXE 0;
       ChipSpiMasterLowLevel.mkHardware (Z.lor SPI_SR_RXNE SPI_SR_TXE) 300]
    = Ok (s',
          ChipSpiMasterLowLevel.storeWords false ChipSpiMasterLowLevel.zeroMemory 4096 [17; 44],
          events') /\
    ChipSpiMasterLowLevel.readPosition_ s' = 2 /\
    ChipSpiMasterLowLevel.transferCompleteEvents events' = [].
Proof.
  destruct (X1_receive_words (ChipSpiMasterLowLevel.exampleConfigured 8) 1%nat None
              (Some 4096) 3 ChipSpiMasterLowLevel.zeroMemory
              [ChipSpiMasterLowLevel.mkHardware SPI_SR_RXNE 17;
               ChipSpiMasterLowLevel.mkHardware SPI_SR_TXE 0;
               ChipSpiMasterLowLevel.mkHardware (Z.lor SPI_SR_RXNE SPI_SR_TXE) 300]
              eq_refl eq_refl eq_refl eq_refl eq_refl ltac:(vm_compute; discriminate))
    as (_ & (s' & events' & Hrun & Hfewer & _) & _).
  exists s', events'. split; [exact Hrun |].
  destruct (Hfewer eq_refl) as (Hposition & _ & Hevents).
  split; [exact Hposition | exact Hevents].
Defined.

(** X2.  An overrun error during a reception: when the peripheral is no
    longer busy the transfer ends at once and the observer is told the
    bytes received so far; while it is busy the transfer goes on, with the
    TXE interrupt disabled and without a call of the observer. *)
Theorem X2_overrun :
  forall (s : ChipSpiMasterLowLevel.t) (spiMasterBase : SpiMasterBase)
         (writeBuffer readBuffer : option Z) (count : Z) (memory : Memory)
         (interrupts : list ChipSpiMasterLowLevel.Hardware)
         (hw : ChipSpiMasterLowLevel.Hardware),
    ChipSpiMasterLowLevel.isStarted s = true ->
    ChipSpiMasterLowLevel.isTransferInProgress s = false ->
    let wide := 8 <? ChipSpiMasterLowLevel.getWordLength (ChipSpiMasterLowLevel.CR2 s) in
    let size := ChipSpiMasterLowLevel.bytesPerWord wide * count in
    0 < count -> size < SIZE_MODULUS ->
    ChipSpiMasterLowLevel.noOverrun interrupts = true ->
    let words := ChipSpiMasterLowLevel.receivedWords wide interrupts in
    Z.of_nat (length words) < count ->
    flagSet (ChipSpiMasterLowLevel.SR hw) SPI_SR_OVR = true ->
    let started :=
      ChipSpiMasterLowLevel.startTransfer s spiMasterBase writeBuffer readBuffer size in
    let received := ChipSpiMasterLowLevel.bytesPerWord wide * Z.of_nat (length words) in
    exists s' events',
      ChipSpiMasterLowLevel.run ChipSpiMasterLowLevel.passive (snd started, memory, [])
        (interrupts ++ [hw])
      = Ok (s', ChipSpiMasterLowLevel.storeReceived wide memory readBuffer 0 words, events') /\
      if flagSet (ChipSpiMasterLowLevel.SR hw) SPI_SR_BSY then
        ChipSpiMasterLowLevel.isTransferInProgress s' = true /\
        ChipSpiMasterLowLevel.readPosition_ s' = received /\
        flagSet (ChipSpiMasterLowLevel.CR2 s') SPI_CR2_TXEIE = false /\
        ChipSpiMasterLowLevel.transferCompleteEvents events' = []
      else
        ChipSpiMasterLowLevel.isTransferInProgress s' = false /\
        ChipSpiMasterLowLevel.transferCompleteEvents events'
        = [TransferCompleteEvent spiMasterBase received].
Proof.
  intros s spiMasterBase writeBuffer readBuffer count memory interrupts hw Hstarted Hidle
    wide size Hcount Hsize Hclean words Hbound Hovr started received.
  destruct (startTransfer_exchanging s spiMasterBase writeBuffer readBuffer count
              Hstarted Hidle Hcount Hsize) as (_ & Hexchanging & _).
  fold wide size started in Hexchanging.
  assert (Hbound' : 0 + Z.of_nat (length words) <= count)
    by (rewrite Z.add_0_l; apply Z.lt_le_incl; exact Hbound).
  destruct (exchanging_run spiMasterBase writeBuffer readBuffer
              (ChipSpiMasterLowLevel.dummyData_ s) wide count interrupts 0 (snd started)
              memory [] Hclean Hexchanging Hbound')
    as (s1 & events1 & Hrun & Hresult).
  fold words in Hrun, Hresult. rewrite Z.add_0_l in Hresult.
  destruct Hresult as [(_ & Hnext & Hevents) | (Hall & _)];
    [| exfalso; apply (Z.lt_irrefl count); rewrite <- Hall at 1; exact Hbound].
  destruct (exchanging_overrun spiMasterBase writeBuffer readBuffer
              (ChipSpiMasterLowLevel.dummyData_ s) wide count _ s1
              (ChipSpiMasterLowLevel.storeReceived wide memory readBuffer 0 words)
              events1 hw Hnext Hovr)
    as (s' & Hstep & Hafter).
  exists s'. eexists. split.
  - rewrite run_app, Hrun. cbn [bind ChipSpiMasterLowLevel.run]. rewrite Hstep. reflexivity.
  - unfold ChipSpiMasterLowLevel.isTransferInProgress.
    destruct (flagSet (ChipSpiMasterLowLevel.SR hw) SPI_SR_BSY).
    + destruct Hafter as (Hafter & Htxeie & _).
      destruct Hafter as (_ & _ & _ & _ & _ & Hsize' & Hposition & _ & _ & Hdone & _).
      rewrite Hsize', Hposition. split; [| split; [reflexivity | split; [exact Htxeie |]]].
      * apply negb_true_iff, Z.eqb_neq.
        unfold ChipSpiMasterLowLevel.bytesPerWord. destruct wide; lia.
      * exact Hevents.
    + destruct Hafter as (Hsize' & _). rewrite Hsize'. split; [reflexivity |].
      rewrite transferCompleteEvents_app, Hevents. reflexivity.
Qed.

Lemma X2_overrun_witness :
  exists s' events',
    ChipSpiMasterLowLevel.run ChipSpiMasterLowLevel.passive
      (ChipSpiMasterLowLevel.exampleTransfer 16 None (Some 4096) 6,
       ChipSpiMasterLowLevel.zeroMemory, [])
      ([ChipSpiMasterLowLevel.mkHardware SPI_SR_TXE 0;
        ChipSpiMasterLowLevel.mkHardware SPI_SR_RXNE 4660]
       ++ [ChipSpiMasterLowLevel.mkHardware SPI_SR_OVR 0])
    = Ok (s',
          ChipSpiMasterLowLevel.storeWords true ChipSpiMasterLowLevel.zeroMemory 4096 [4660],
          events') /\
    ChipSpiMasterLowLevel.isTransferInProgress s' = false /\
    ChipSpiMasterLowLevel.transferCompleteEvents events' = [TransferCompleteEvent 1%nat 2].
Proof.
  exact (X2_overrun (ChipSpiMasterLowLevel.exampleConfigured 16) 1%nat None (Some 4096) 3
           ChipSpiMasterLowLevel.zeroMemory
           [ChipSpiMasterLowLevel.mkHardware SPI_SR_TXE 0;
            ChipSpiMasterLowLevel.mkHardware SPI_SR_RXNE 4660]
           (ChipSpiMasterLowLevel.mkHardware SPI_SR_OVR 0)
           eq_refl eq_refl eq_refl eq_refl eq_refl eq_refl eq_refl).
Defined.

(** ** What a transfer writes to memory, and what it sends *)

Section Frame.

Import ChipSpiMasterLowLevel.

Variables (spiMasterBase : SpiMasterBase) (writeBuffer readBuffer : option Z).
Variables (dummyData : Z) (wide : bool) (count : Z).

Local Abbreviation exchanging' :=
  (exchanging spiMasterBase writeBuffer readBuffer dummyData wide count).

Lemma storeReceived_outside (memory : Memory) (done word a : Z) :
  0 <= done < count ->
  outside readBuffer (bytesPerWord wide * count) a ->
  storeReceived wide memory readBuffer done [word] a = memory a.
Proof.
  intros Hdone Houtside. unfold storeReceived, outside in *.
  destruct readBuffer as [buffer |]; [| reflexivity].
  apply storeWords_outside. cbn [length Z.of_nat].
  destruct wide; cbn [bytesPerWord] in *; lia.
Qed.

(** Whatever the interrupts are, the handler runs to its end and writes
    only into the read buffer. *)
Lemma exchanging_run_outside (interrupts : list Hardware) :
  forall (done : Z) (s : ChipSpiMasterLowLevel.t) (memory : Memory) (events : list Event),
    exchanging' done s ->
    exists s' memory' events',
      run passive (s, memory, events) interrupts = Ok (s', memory', events') /\
      forall a, outside readBuffer (bytesPerWord wide * count) a -> memory' a = memory a.
Proof.
  induction interrupts as [| hw interrupts IH]; intros done s memory events Hexchanging.
  - exists s, memory, events. split; reflexivity.
  - pose proof Hexchanging as (_ & _ & _ & _ & _ & _ & _ & _ & _ & Hdone & _).
    cbn [run].
    destruct (flagSet (SR hw) SPI_SR_OVR) eqn:Hovr;
      [| destruct (flagSet (SR hw) SPI_SR_RXNE) eqn:Hrxne].
    + destruct (exchanging_overrun spiMasterBase writeBuffer readBuffer dummyData wide count
                  done s memory events hw Hexchanging Hovr) as (s1 & Hstep & Hafter).
      rewrite Hstep. cbn [bind].
      destruct (flagSet (SR hw) SPI_SR_BSY).
      * destruct Hafter as (Hnext & _). apply (IH done). exact Hnext.
      * rewrite quiet_run by exact Hafter. eexists _, _, _. split; reflexivity.
    + destruct (exchanging_rxne spiMasterBase writeBuffer readBuffer dummyData wide count
                  done s memory events hw Hexchanging Hovr Hrxne) as (s1 & Hstep & Hafter).
      rewrite Hstep. cbn [bind].
      destruct (done + 1 =? count).
      * rewrite quiet_run by exact Hafter. eexists _, _, _. split; [reflexivity |].
        intros a Houtside. apply storeReceived_outside; assumption.
      * destruct Hafter as (Hnext & _).
        destruct (IH (done + 1) s1
                    (storeReceived wide memory readBuffer done [wordRead wide hw])
                    events Hnext) as (s' & memory' & events' & Hrun & Hkept).
        exists s', memory', events'. split; [exact Hrun |].
        intros a Houtside. rewrite Hkept by exact Houtside.
        apply storeReceived_outside; assumption.
    + destruct (exchanging_other spiMasterBase writeBuffer readBuffer dummyData wide count
                  done s memory events hw Hexchanging Hovr Hrxne)
        as (s1 & events1 & Hstep & Hnext & _).
      rewrite Hstep. cbn [bind]. apply (IH done). exact Hnext.
Qed.

Lemma expectedWrite_agrees (memory memory0 : Memory) (index : Z) :
  (forall buffer a,
      writeBuffer = Some buffer ->
      buffer + bytesPerWord wide * index <= a < buffer + bytesPerWord wide * (index + 1) ->
      memory a = memory0 a) ->
  expectedWrite wide memory writeBuffer dummyData index
  = expectedWrite wide memory0 writeBuffer dummyData index.
Proof.
  intros Hagree. unfold expectedWrite.
  destruct writeBuffer as [buffer |]; [| reflexivity].
  destruct wide; cbn [bytesPerWord] in Hagree.
  - rewrite (Hagree buffer (buffer + 2 * index)) by (reflexivity || lia).
    rewrite (Hagree buffer (buffer + 2 * index + 1)) by (reflexivity || lia).
    reflexivity.
  - rewrite (Hagree buffer (buffer + index)) by (reflexivity || lia). reflexivity.
Qed.

Lemma receivedWords_duplex (words : list Z) :
  receivedWords wide (duplex words)
  = map (fun word => wordRead wide (mkHardware SPI_SR_RXNE word)) words.
Proof.
  induction words as [| word words IH]; [reflexivity |].
  cbn [duplex flat_map app map]. fold (duplex words).
  rewrite !receivedWords_cons. cbn [SR]. 
  change (flagSet SPI_SR_TXE SPI_SR_RXNE) with false.
  change (flagSet SPI_SR_RXNE SPI_SR_RXNE) with true.
  cbv iota. rewrite IH. reflexivity.
Qed.

(** A full-duplex transfer: before each received word the TXE interrupt
    sends the next word. *)
Lemma exchanging_duplex (memory0 : Memory) (words : list Z) :
  forall (done : Z) (s : ChipSpiMasterLowLevel.t) (memory : Memory) (events : list Event),
    exchanging' done s ->
    flagSet (CR2 s) SPI_CR2_TXEIE = true ->
    writePosition_ s = bytesPerWord wide * done ->
    done + Z.of_nat (length words) = count ->
    sendable writeBuffer readBuffer (bytesPerWord wide * count) ->
    (forall buffer a,
        writeBuffer = Some buffer ->
        buffer + bytesPerWord wide * done <= a < buffer + bytesPerWord wide * count ->
        memory a = memory0 a) ->
    exists s',
      run passive (s, memory, events) (duplex words)
      = Ok (s',
            storeReceived wide memory readBuffer done
              (map (fun word => wordRead wide (mkHardware SPI_SR_RXNE word)) words),
            events
            ++ expectedWrites wide memory0 writeBuffer dummyData done (length words)
            ++ [TransferCompleteEvent spiMasterBase (bytesPerWord wide * count)]) /\
      quiet s'.
Proof.
  induction words as [| word words IH];
    intros done s memory events Hexchanging Htxeie Hwritten Hlength Hsendable Hagree;
    pose proof Hexchanging as (_ & _ & _ & _ & _ & _ & _ & _ & _ & Hdone & _).
  - cbn [length Z.of_nat] in Hlength. lia.
  - cbn [length] in Hlength. rewrite Nat2Z.inj_succ in Hlength.
    cbn [duplex flat_map app run map length expectedWrites]. fold (duplex words).
    destruct (exchanging_txe spiMasterBase writeBuffer readBuffer dummyData wide count
                done done s memory events (mkHardware SPI_SR_TXE 0) Hexchanging
                eq_refl eq_refl eq_refl Htxeie Hwritten ltac:(lia))
      as (s1 & Hstep1 & Hnext1 & _ & Hwritten1).
    rewrite Hstep1. cbn [bind].
    rewrite (expectedWrite_agrees memory memory0 done).
    2:{ intros buffer a Hbuffer Ha. apply (Hagree buffer a Hbuffer).
        destruct wide; cbn [bytesPerWord] in *; lia. }
    destruct (exchanging_rxne spiMasterBase writeBuffer readBuffer dummyData wide count
                done s1 memory
                (events ++ [expectedWrite wide memory0 writeBuffer dummyData done])
                (mkHardware SPI_SR_RXNE word) Hnext1 eq_refl eq_refl)
      as (s2 & Hstep2 & Hafter).
    rewrite Hstep2. cbn [bind].
    rewrite (storeReceived_cons readBuffer wide memory done
               (wordRead wide (mkHardware SPI_SR_RXNE word))
               (map (fun word => wordRead wide (mkHardware SPI_SR_RXNE word)) words)).
    destruct (Z.eqb_spec (done + 1) count) as [Hlast | Hmore].
    + assert (Hnone : words = []) by (destruct words; [reflexivity | cbn [length] in Hlength; lia]).
      subst words. cbn [duplex flat_map run map length expectedWrites].
      exists s2. split; [| exact Hafter].
      rewrite <- app_assoc. cbn [app]. f_equal. f_equal. f_equal.
      unfold storeReceived. destruct readBuffer; reflexivity.
    + destruct Hafter as (Hnext2 & Htxeie2 & Hwritten2).
      destruct (IH (done + 1) s2
                  (storeReceived wide memory readBuffer done
                     [wordRead wide (mkHardware SPI_SR_RXNE word)])
                  (events ++ [expectedWrite wide memory0 writeBuffer dummyData done])
                  Hnext2 Htxeie2 ltac:(rewrite Hwritten2; exact Hwritten1) ltac:(lia)
                  Hsendable)
        as (s' & Hrun & Hquiet).
      * intros buffer a Hbuffer Ha.
        rewrite <- (Hagree buffer a Hbuffer)
          by (destruct wide; cbn [bytesPerWord] in *; lia).
        unfold storeReceived, sendable in *.
        destruct readBuffer as [readBuffer' |]; [| reflexivity].
        rewrite Hbuffer in Hsendable.
        apply storeWords_outside. cbn [length Z.of_nat].
        destruct wide; cbn [bytesPerWord] in *; lia.
      * exists s'. split; [| exact Hquiet].
        rewrite Hrun. rewrite <- app_assoc. reflexivity.
Qed.

End Frame.

(** X3.  Whatever interrupts arrive during a transfer that [startTransfer]
    accepted - in any order, with or without overrun errors, more than the
    transfer needs - the handler never fails and writes to no address
    outside the [size] bytes of the read buffer; without a read buffer it
    writes nowhere. *)
Theorem X3_writes_only_read_buffer :
  forall (s : ChipSpiMasterLowLevel.t) (spiMasterBase : SpiMasterBase)
         (writeBuffer readBuffer : option Z) (size : Z) (memory : Memory)
         (interrupts : list ChipSpiMasterLowLevel.Hardware),
    0 < size < SIZE_MODULUS ->
    let started :=
      ChipSpiMasterLowLevel.startTransfer s spiMasterBase writeBuffer readBuffer size in
    fst started = 0 ->
    exists s' memory' events',
      ChipSpiMasterLowLevel.run ChipSpiMasterLowLevel.passive (snd started, memory, [])
        interrupts
      = Ok (s', memory', events') /\
      forall a : Z,
        ChipSpiMasterLowLevel.outside readBuffer size a -> memory' a = memory a.
Proof.
  intros s spiMasterBase writeBuffer readBuffer size memory interrupts Hsize started
    Haccepted.
  destruct (startTransfer_accepted s spiMasterBase writeBuffer readBuffer size Haccepted)
    as (Hstarted & Hidle & Hmultiple).
  unfold ChipSpiMasterLowLevel.dataSize in Hmultiple.
  destruct (wide_dataSize _ s eq_refl) as [Hdata _]. rewrite Hdata in Hmultiple.
  set (wide := 8 <? ChipSpiMasterLowLevel.getWordLength (ChipSpiMasterLowLevel.CR2 s)) in *.
  assert (Hwords : size = ChipSpiMasterLowLevel.bytesPerWord wide
                          * (size / ChipSpiMasterLowLevel.bytesPerWord wide)).
  { apply Z_div_exact_full_2; [destruct wide; discriminate | exact Hmultiple]. }
  assert (Hcount : 0 < size / ChipSpiMasterLowLevel.bytesPerWord wide).
  { destruct wide; cbn [ChipSpiMasterLowLevel.bytesPerWord] in *; lia. }
  destruct (startTransfer_exchanging s spiMasterBase writeBuffer readBuffer
              (size / ChipSpiMasterLowLevel.bytesPerWord wide) Hstarted Hidle Hcount)
    as (_ & Hexchanging & _).
  { fold wide. rewrite <- Hwords. apply Hsize. }
  fold wide in Hexchanging. rewrite <- Hwords in Hexchanging. fold started in Hexchanging.
  destruct (exchanging_run_outside spiMasterBase writeBuffer readBuffer
              (ChipSpiMasterLowLevel.dummyData_ s) wide
              (size / ChipSpiMasterLowLevel.bytesPerWord wide) interrupts 0 (snd started)
              memory [] Hexchanging)
    as (s' & memory' & events' & Hrun & Hkept).
  rewrite <- Hwords in Hkept.
  exists s', memory', events'. split; [exact Hrun | exact Hkept].
Qed.

Lemma X3_writes_only_read_buffer_witness :
  exists s' memory' events',
    ChipSpiMasterLowLevel.run ChipSpiMasterLowLevel.passive
      (ChipSpiMasterLowLevel.exampleTransfer 16 (Some 8192) (Some 4096) 4,
       ChipSpiMasterLowLevel.zeroMemory, [])
      [ChipSpiMasterLowLevel.mkHardware SPI_SR_RXNE 4660;
       ChipSpiMasterLowLevel.mkHardware (Z.lor SPI_SR_OVR SPI_SR_BSY) 0;
       ChipSpiMasterLowLevel.mkHardware SPI_SR_RXNE 22136;
       ChipSpiMasterLowLevel.mkHardware SPI_SR_RXNE 39612]
    = Ok (s', memory', events') /\
    memory' 4095 = 0 /\ memory' 4100 = 0.
Proof.
  destruct (X3_writes_only_read_buffer (ChipSpiMasterLowLevel.exampleConfigured 16) 1%nat
              (Some 8192) (Some 4096) 4 ChipSpiMasterLowLevel.zeroMemory
              [ChipSpiMasterLowLevel.mkHardware SPI_SR_RXNE 4660;
               ChipSpiMasterLowLevel.mkHardware (Z.lor SPI_SR_OVR SPI_SR_BSY) 0;
               ChipSpiMasterLowLevel.mkHardware SPI_SR_RXNE 22136;
               ChipSpiMasterLowLevel.mkHardware SPI_SR_RXNE 39612]
              (conj eq_refl eq_refl) eq_refl)
    as (s' & memory' & events' & Hrun & Hkept).
  exists s', memory', events'. split; [exact Hrun |].
  split; apply Hkept; cbn; lia.
Defined.

(** X4.  A complete full-duplex transfer of any number of words of any
    word length: the interrupts of word [i] are TXE, then RXNE with the
    received word.  The driver sends the words of the write buffer in
    order, each once (the dummy data without a write buffer), stores the
    received words into the read buffer, and then calls the observer once
    with the full size.  The write buffer may be the read buffer itself. *)
Theorem X4_full_duplex :
  forall (s : ChipSpiMasterLowLevel.t) (spiMasterBase : SpiMasterBase)
         (writeBuffer readBuffer : option Z) (memory : Memory) (words : list Z),
    ChipSpiMasterLowLevel.isStarted s = true ->
    ChipSpiMasterLowLevel.isTransferInProgress s = false ->
    let wide := 8 <? ChipSpiMasterLowLevel.getWordLength (ChipSpiMasterLowLevel.CR2 s) in
    let size := ChipSpiMasterLowLevel.bytesPerWord wide * Z.of_nat (length words) in
    words <> [] ->
    size < SIZE_MODULUS ->
    ChipSpiMasterLowLevel.sendable writeBuffer readBuffer size ->
    let started :=
      ChipSpiMasterLowLevel.startTransfer s spiMasterBase writeBuffer readBuffer size in
    fst started = 0 /\
    exists s',
      ChipSpiMasterLowLevel.run ChipSpiMasterLowLevel.passive (snd started, memory, [])
        (ChipSpiMasterLowLevel.duplex words)
      = Ok (s',
            ChipSpiMasterLowLevel.storeReceived wide memory readBuffer 0
              (map (fun word =>
                      ChipSpiMasterLowLevel.wordRead wide
                        (ChipSpiMasterLowLevel.mkHardware SPI_SR_RXNE word)) words),
            ChipSpiMasterLowLevel.expectedWrites wide memory writeBuffer
              (ChipSpiMasterLowLevel.dummyData_ s) 0 (length words)
            ++ [TransferCompleteEvent spiMasterBase size]) /\
      ChipSpiMasterLowLevel.isTransferInProgress s' = false.
Proof.
  intros s spiMasterBase writeBuffer readBuffer memory words Hstarted Hidle wide size
    Hwords Hsize Hsendable started.
  assert (Hcount : 0 < Z.of_nat (length words)).
  { destruct words; [contradiction | cbn [length]; lia]. }
  destruct (startTransfer_exchanging s spiMasterBase writeBuffer readBuffer
              (Z.of_nat (length words)) Hstarted Hidle Hcount Hsize)
    as (Hstatus & Hexchanging & Htxeie & Hwritten).
  fold wide size started in Hstatus, Hexchanging, Htxeie, Hwritten.
  split; [exact Hstatus |].
  destruct (exchanging_duplex spiMasterBase writeBuffer readBuffer
              (ChipSpiMasterLowLevel.dummyData_ s) wide (Z.of_nat (length words))
              memory words 0 (snd started) memory [] Hexchanging Htxeie)
    as (s' & Hrun & Hquiet).
  - rewrite Hwritten, Z.mul_0_r. reflexivity.
  - apply Z.add_0_l.
  - exact Hsendable.
  - reflexivity.
  - exists s'. split; [exact Hrun |].
    unfold ChipSpiMasterLowLevel.isTransferInProgress.
    destruct Hquiet as (Hsize' & _). rewrite Hsize'. reflexivity.
Qed.

Lemma X4_full_duplex_witness :
  exists s',
    ChipSpiMasterLowLevel.run ChipSpiMasterLowLevel.passive
      (ChipSpiMasterLowLevel.exampleTransfer 8 (Some 4096) (Some 4096) 3,
       ChipSpiMasterLowLevel.storeWords false ChipSpiMasterLowLevel.zeroMemory 4096
         [161; 178; 195], [])
      (ChipSpiMasterLowLevel.duplex [17; 34; 51])
    = Ok (s',
          ChipSpiMasterLowLevel.storeWords false
            (ChipSpiMasterLowLevel.storeWords false ChipSpiMasterLowLevel.zeroMemory 4096
               [161; 178; 195])
            4096 [17; 34; 51],
          [WriteDr8 161; WriteDr8 178; WriteDr8 195; TransferCompleteEvent 1%nat 3]) /\
    ChipSpiMasterLowLevel.isTransferInProgress s' = false.
Proof.
  destruct (X4_full_duplex (ChipSpiMasterLowLevel.exampleConfigured 8) 1%nat
              (Some 4096) (Some 4096)
              (ChipSpiMasterLowLevel.storeWords false ChipSpiMasterLowLevel.zeroMemory
                 4096 [161; 178; 195])
              [17; 34; 51])
    as (_ & s' & Hrun & Hidle).
  - vm_compute. reflexivity.
  - vm_compute. reflexivity.
  - discriminate.
  - vm_compute. reflexivity.
  - left. vm_compute. discriminate.
  - exists s'. split; [| exact Hidle]. vm_compute in Hrun |- *. exact Hrun.
Defined.

(** ** The words sent in any series of interrupts *)

Section Sent.

Import ChipSpiMasterLowLevel.

Variables (spiMasterBase : SpiMasterBase) (writeBuffer readBuffer : option Z).
Variables (dummyData : Z) (wide : bool) (count : Z) (memory0 : Memory).

Local Abbreviation exchanging' :=
  (exchanging spiMasterBase writeBuffer readBuffer dummyData wide count).

Hypothesis buffers_separate : separate writeBuffer readBuffer (bytesPerWord wide * count).

Lemma expectedWrites_snoc (words : nat) :
  forall first : Z,
    expectedWrites wide memory0 writeBuffer dummyData first (S words)
    = expectedWrites wide memory0 writeBuffer dummyData first words
      ++ [expectedWrite wide memory0 writeBuffer dummyData (first + Z.of_nat words)].
Proof.
  induction words as [| words IH]; intros first.
  - cbn [expectedWrites app Z.of_nat]. rewrite Z.add_0_r. reflexivity.
  - change (expectedWrites wide memory0 writeBuffer dummyData first (S (S words)))
      with (expectedWrite wide memory0 writeBuffer dummyData first
            :: expectedWrites wide memory0 writeBuffer dummyData (first + 1) (S words)).
    rewrite (IH (first + 1)). cbn [expectedWrites app]. rewrite Nat2Z.inj_succ.
    replace (first + 1 + Z.of_nat words) with (first + Z.succ (Z.of_nat words)) by lia.
    reflexivity.
Qed.

Lemma dataRegisterWrites_app (events events' : list Event) :
  dataRegisterWrites (events ++ events')
  = dataRegisterWrites events ++ dataRegisterWrites events'.
Proof.
  apply filter_app.
Qed.

Lemma dataRegisterWrites_expectedWrite (memory : Memory) (index : Z) :
  dataRegisterWrites [expectedWrite wide memory writeBuffer dummyData index]
  = [expectedWrite wide memory writeBuffer dummyData index].
Proof.
  unfold expectedWrite. destruct wide; reflexivity.
Qed.

Local Abbreviation unwritten' := (unwritten writeBuffer wide count memory0).

Lemma unwritten_storeReceived (memory : Memory) (done word : Z) :
  0 <= done < count ->
  unwritten' memory ->
  unwritten' (storeReceived wide memory readBuffer done [word]).
Proof.
  intros Hdone Hunwritten buffer a Hbuffer Ha.
  rewrite <- (Hunwritten buffer a Hbuffer Ha).
  apply (storeReceived_outside readBuffer wide count); [exact Hdone |].
  unfold outside, separate in *. rewrite Hbuffer in buffers_separate.
  destruct readBuffer; [lia | exact I].
Qed.

Lemma exchanging_run_sent (interrupts : list Hardware) :
  forall (done : Z) (written : nat) (s : ChipSpiMasterLowLevel.t) (memory : Memory)
         (events : list Event),
    exchanging' done s ->
    writePosition_ s = bytesPerWord wide * Z.of_nat written ->
    Z.of_nat written <= done + 1 ->
    (flagSet (CR2 s) SPI_CR2_TXEIE = true -> Z.of_nat written <= done) ->
    unwritten' memory ->
    dataRegisterWrites events = expectedWrites wide memory0 writeBuffer dummyData 0 written ->
    exists s' memory' events' (sent : nat),
      run passive (s, memory, events) interrupts = Ok (s', memory', events') /\
      Z.of_nat sent <= count /\
      dataRegisterWrites events'
      = expectedWrites wide memory0 writeBuffer dummyData 0 sent.
Proof.
  induction interrupts as [| hw interrupts IH];
    intros done written s memory events Hexchanging Hposition Hwritten Henabled Hunwritten
      Hevents;
    pose proof Hexchanging as (_ & _ & _ & _ & _ & _ & _ & _ & _ & Hdone & _).
  - exists s, memory, events, written. split; [reflexivity |]. split; [lia | exact Hevents].
  - cbn [run].
    destruct (flagSet (SR hw) SPI_SR_OVR) eqn:Hovr;
      [| destruct (flagSet (SR hw) SPI_SR_RXNE) eqn:Hrxne].
    + destruct (exchanging_overrun spiMasterBase writeBuffer readBuffer dummyData wide count
                  done s memory events hw Hexchanging Hovr) as (s1 & Hstep & Hafter).
      rewrite Hstep. cbn [bind].
      destruct (flagSet (SR hw) SPI_SR_BSY).
      * destruct Hafter as (Hnext & Hdisabled & Hsame).
        apply (IH done written); try assumption.
        -- rewrite Hsame. exact Hposition.
        -- rewrite Hdisabled. discriminate.
      * rewrite quiet_run by exact Hafter. exists s1. eexists _, _, written.
        split; [reflexivity |]. split; [lia |].
        rewrite dataRegisterWrites_app, Hevents. apply app_nil_r.
    + destruct (exchanging_rxne spiMasterBase writeBuffer readBuffer dummyData wide count
                  done s memory events hw Hexchanging Hovr Hrxne) as (s1 & Hstep & Hafter).
      rewrite Hstep. cbn [bind].
      destruct (done + 1 =? count).
      * rewrite quiet_run by exact Hafter. exists s1. eexists _, _, written.
        split; [reflexivity |]. split; [lia |].
        rewrite dataRegisterWrites_app, Hevents. apply app_nil_r.
      * destruct Hafter as (Hnext & _ & Hsame).
        apply (IH (done + 1) written); try assumption.
        -- rewrite Hsame. exact Hposition.
        -- lia.
        -- intros _. exact Hwritten.
        -- apply unwritten_storeReceived; assumption.
    + destruct (flagSet (SR hw) SPI_SR_TXE && flagSet (CR2 s) SPI_CR2_TXEIE) eqn:Htxe.
      * apply andb_true_iff in Htxe. destruct Htxe as [Htxe Htxeie].
        destruct (exchanging_txe spiMasterBase writeBuffer readBuffer dummyData wide count
                    done (Z.of_nat written) s memory events hw Hexchanging Hovr Hrxne Htxe
                    Htxeie Hposition) as (s1 & Hstep & Hnext & Hdisabled & Hadvanced).
        { split; [lia | exact (Henabled Htxeie)]. }
        rewrite Hstep. cbn [bind].
        apply (IH done (S written)); try assumption.
        -- rewrite Hadvanced, Nat2Z.inj_succ. reflexivity.
        -- specialize (Henabled Htxeie). lia.
        -- rewrite Hdisabled. discriminate.
        -- rewrite dataRegisterWrites_app, Hevents, dataRegisterWrites_expectedWrite,
             expectedWrites_snoc, Z.add_0_l.
           f_equal. f_equal. apply expectedWrite_agrees.
           intros buffer a Hbuffer Ha. apply (Hunwritten buffer a Hbuffer).
           specialize (Henabled Htxeie).
           destruct wide; cbn [bytesPerWord] in *; lia.
      * rewrite exchanging_idle by assumption. cbn [bind].
        apply (IH done written); assumption.
Qed.

End Sent.

(** X5.  Whatever interrupts arrive during a transfer that [startTransfer]
    accepted, the driver writes to the data register the first words of
    the write buffer, in order and each once (the dummy data without a
    write buffer), and never more words than the transfer has.  The
    buffers must not overlap. *)
Theorem X5_sends_words_in_order :
  forall (s : ChipSpiMasterLowLevel.t) (spiMasterBase : SpiMasterBase)
         (writeBuffer readBuffer : option Z) (size : Z) (memory : Memory)
         (interrupts : list ChipSpiMasterLowLevel.Hardware),
    0 < size < SIZE_MODULUS ->
    ChipSpiMasterLowLevel.separate writeBuffer readBuffer size ->
    let wide := 8 <? ChipSpiMasterLowLevel.getWordLength (ChipSpiMasterLowLevel.CR2 s) in
    let started :=
      ChipSpiMasterLowLevel.startTransfer s spiMasterBase writeBuffer readBuffer size in
    fst started = 0 ->
    exists s' memory' events' (sent : nat),
      ChipSpiMasterLowLevel.run ChipSpiMasterLowLevel.passive (snd started, memory, [])
        interrupts
      = Ok (s', memory', events') /\
      ChipSpiMasterLowLevel.bytesPerWord wide * Z.of_nat sent <= size /\
      ChipSpiMasterLowLevel.dataRegisterWrites events'
      = ChipSpiMasterLowLevel.expectedWrites wide memory writeBuffer
          (ChipSpiMasterLowLevel.dummyData_ s) 0 sent.
Proof.
  intros s spiMasterBase writeBuffer readBuffer size memory interrupts Hsize Hseparate
    wide started Haccepted.
  destruct (startTransfer_accepted s spiMasterBase writeBuffer readBuffer size Haccepted)
    as (Hstarted & Hidle & Hmultiple).
  unfold ChipSpiMasterLowLevel.dataSize in Hmultiple.
  destruct (wide_dataSize _ s eq_refl) as [Hdata _]. rewrite Hdata in Hmultiple.
  fold wide in Hmultiple.
  assert (Hwords : size = ChipSpiMasterLowLevel.bytesPerWord wide
                          * (size / ChipSpiMasterLowLevel.bytesPerWord wide)).
  { apply Z_div_exact_full_2; [destruct wide; discriminate | exact Hmultiple]. }
  assert (Hcount : 0 < size / ChipSpiMasterLowLevel.bytesPerWord wide).
  { destruct wide; cbn [ChipSpiMasterLowLevel.bytesPerWord] in *; lia. }
  destruct (startTransfer_exchanging s spiMasterBase writeBuffer readBuffer
              (size / ChipSpiMasterLowLevel.bytesPerWord wide) Hstarted Hidle Hcount)
    as (_ & Hexchanging & _ & Hposition).
  { fold wide. rewrite <- Hwords. apply Hsize. }
  fold wide in Hexchanging, Hposition.
  rewrite <- Hwords in Hexchanging, Hposition. fold started in Hexchanging, Hposition.
  destruct (exchanging_run_sent spiMasterBase writeBuffer readBuffer
              (ChipSpiMasterLowLevel.dummyData_ s) wide
              (size / ChipSpiMasterLowLevel.bytesPerWord wide) memory
              ltac:(rewrite <- Hwords; exact Hseparate)
              interrupts 0 0%nat (snd started) memory [] Hexchanging)
    as (s' & memory' & events' & sent & Hrun & Hsent & Hevents).
  - rewrite Hposition. cbn [Z.of_nat]. rewrite Z.mul_0_r. reflexivity.
  - cbn [Z.of_nat]. lia.
  - intros _. reflexivity.
  - intros buffer a _ _. reflexivity.
  - reflexivity.
  - exists s', memory', events', sent. split; [exact Hrun |]. split; [| exact Hevents].
    rewrite Hwords. destruct wide; cbn [ChipSpiMasterLowLevel.bytesPerWord] in *; lia.
Qed.

Lemma X5_sends_words_in_order_witness :
  exists s' memory' events' (sent : nat),
    ChipSpiMasterLowLevel.run ChipSpiMasterLowLevel.passive
      (ChipSpiMasterLowLevel.exampleTransfer 16 None (Some 4096) 4,
       ChipSpiMasterLowLevel.zeroMemory, [])
      [ChipSpiMasterLowLevel.mkHardware SPI_SR_TXE 0;
       ChipSpiMasterLowLevel.mkHardware SPI_SR_TXE 0;
       ChipSpiMasterLowLevel.mkHardware SPI_SR_RXNE 4660;
       ChipSpiMasterLowLevel.mkHardware SPI_SR_TXE 0]
    = Ok (s', memory', events') /\
    2 * Z.of_nat sent <= 4 /\
    ChipSpiMasterLowLevel.dataRegisterWrites events'
    = ChipSpiMasterLowLevel.expectedWrites true ChipSpiMasterLowLevel.zeroMemory None 54549
        0 sent.
Proof.
  exact (X5_sends_words_in_order (ChipSpiMasterLowLevel.exampleConfigured 16) 1%nat None
           (Some 4096) 4 ChipSpiMasterLowLevel.zeroMemory
           [ChipSpiMasterLowLevel.mkHardware SPI_SR_TXE 0;
            ChipSpiMasterLowLevel.mkHardware SPI_SR_TXE 0;
            ChipSpiMasterLowLevel.mkHardware SPI_SR_RXNE 4660;
            ChipSpiMasterLowLevel.mkHardware SPI_SR_TXE 0]
           (conj eq_refl eq_refl) I eq_refl).
Defined.

(** * Further properties of the DMA channel handle *)

Section Handle.

(** X6.  [UniqueHandle::reserve] gives up the reservation the handle holds
    before it asks for the new one: when the new reservation fails the
    handle is left without a channel and the channel it held is free; a
    handle may reserve its own channel again, with another request or
    functor; channels other than the two are not touched. *)
Theorem X6_reserve_releases_first :
  forall (h : UniqueHandle.t) (channels : Channels) (old new : nat) (request : Z)
         (functor : DmaChannelFunctor),
    UniqueHandle.channel_ h = Some old ->
    let result := UniqueHandle.reserve h channels new request functor in
    let ret := fst (fst result) in
    let h' := snd (fst result) in
    let channels' := snd result in
    (ret <> 0 ->
     UniqueHandle.channel_ h' = None /\ functor_ (channels' old) = None) /\
    (ret = 0 ->
     UniqueHandle.channel_ h' = Some new /\
     functor_ (channels' new) = Some functor /\ request_ (channels' new) = request /\
     (old <> new -> functor_ (channels' old) = None)) /\
    (old = new -> request <= maxRequest -> ret = 0) /\
    (forall i, i <> old -> i <> new -> channels' i = channels i).
Proof.
  intros h channels old new request functor Hheld result ret h' channels'.
  subst result ret h' channels'.
  unfold UniqueHandle.reserve, UniqueHandle.release.
  rewrite Hheld. cbv beta iota.
  set (released := update channels old (DmaChannel.release (channels old))).
  assert (Hfree : functor_ (released old) = None).
  { unfold released. rewrite update_same. reflexivity. }
  unfold DmaChannel.reserve.
  destruct (functor_ (released new)) as [taken |] eqn:Htaken.
  - (* the new channel is reserved by somebody else *)
    cbn [fst snd negb]. change (EBUSY =? 0) with false. cbn [negb fst snd].
    assert (Hwhole : update released new (released new) old = released old).
    { unfold update at 1. destruct (Nat.eqb old new) eqn:Heq; [| reflexivity].
      apply Nat.eqb_eq in Heq. subst new. reflexivity. }
    split; [intros _; split; [reflexivity | rewrite Hwhole; exact Hfree] |].
    split; [discriminate |].
    split.
    + intros <- _. rewrite Hfree in Htaken. discriminate.
    + intros i Hold Hnew. rewrite update_other by exact Hnew.
      unfold released. apply update_other. exact Hold.
  - destruct (Z.ltb_spec maxRequest request) as [Hlarge | Hvalid].
    + cbn [fst snd]. change (EINVAL =? 0) with false. cbn [negb fst snd].
      assert (Hwhole : update released new (released new) old = released old).
      { unfold update at 1. destruct (Nat.eqb old new) eqn:Heq; [| reflexivity].
        apply Nat.eqb_eq in Heq. subst new. reflexivity. }
      split; [intros _; split; [reflexivity | rewrite Hwhole; exact Hfree] |].
      split; [discriminate |].
      split; [intros _ Hrequest; lia |].
      intros i Hold Hnew. rewrite update_other by exact Hnew.
      unfold released. apply update_other. exact Hold.
    + cbn [fst snd]. change (0 =? 0) with true. cbn [negb fst snd].
      split; [intros Hfailed; contradiction Hfailed; reflexivity |].
      split; [| split; [reflexivity |]].
      * intros _. rewrite update_same. cbn [functor_ request_].
        split; [reflexivity |]. split; [reflexivity |]. split; [reflexivity |].
        intros Hother. rewrite update_other by exact Hother. exact Hfree.
      * intros i Hold Hnew. rewrite update_other by exact Hnew.
        unfold released. apply update_other. exact Hold.
Qed.

Lemma X6_reserve_releases_first_witness :
  let channels := SpiMasterLowLevelDmaBased.channel3Taken in
  let held := snd (fst (UniqueHandle.reserve UniqueHandle.constructed channels 2 3
                          RxDmaChannelFunctor)) in
  let channels2 := snd (UniqueHandle.reserve UniqueHandle.constructed channels 2 3
                          RxDmaChannelFunctor) in
  let result := UniqueHandle.reserve held channels2 3 3 RxDmaChannelFunctor in
  fst (fst result) = EBUSY /\
  UniqueHandle.channel_ (snd (fst result)) = None /\
  functor_ (snd result 2%nat) = None.
Proof.
  intros channels held channels2 result.
  destruct (X6_reserve_releases_first held channels2 2%nat 3%nat 3 RxDmaChannelFunctor
              eq_refl) as (Hfailed & _).
  split; [reflexivity |]. apply Hfailed. discriminate.
Defined.

End Handle.

(** * Further properties of [ChipSpiMasterLowLevel::configure], [start] and [stop] *)

Section ConfiguredFrequency.

Import ChipSpiMasterLowLevel.

Lemma ceiling_le (peripheralFrequency clockFrequency divider : Z) :
  0 < clockFrequency ->
  (peripheralFrequency + clockFrequency - 1) / clockFrequency <= divider
  <-> peripheralFrequency <= divider * clockFrequency.
Proof.
  intros Hclock. split.
  - intros Hceiling.
    pose proof (Z.div_mod (peripheralFrequency + clockFrequency - 1) clockFrequency
                  ltac:(lia)) as Hdivision.
    pose proof (Z.mod_pos_bound (peripheralFrequency + clockFrequency - 1) clockFrequency
                  Hclock) as Hremainder.
    nia.
  - intros Hfrequency.
    assert ((peripheralFrequency + clockFrequency - 1) / clockFrequency < divider + 1);
      [| lia].
    apply Z.div_lt_upper_bound; [exact Hclock | nia].
Qed.

(** X7.  [configure] with a requested clock frequency other than 0, on a
    started and idle driver: when the peripheral clock divided by 256 is
    still faster than requested it fails with [EINVAL] and changes
    nothing; otherwise it succeeds and returns the peripheral clock divided
    by [2 ^ (br + 1)], which is never faster than requested and is the
    fastest such clock of the eight dividers. *)
Theorem X7_configure_frequency :
  forall (s : ChipSpiMasterLowLevel.t) (mode : SpiMode)
         (clockFrequency wordLength dummyData : Z) (lsbFirst : bool),
    isStarted s = true ->
    isTransferInProgress s = false ->
    minWordLength <= wordLength <= maxWordLength ->
    0 < clockFrequency < 2 ^ 32 ->
    0 <= peripheralFrequency s <= 2 ^ 31 ->
    if peripheralFrequency s <=? 256 * clockFrequency then
      exists br s',
        configure s mode clockFrequency wordLength lsbFirst dummyData
        = Ok (0, peripheralFrequency s / 2 ^ (br + 1), s') /\
        0 <= br <= 7 /\
        peripheralFrequency s / 2 ^ (br + 1) <= clockFrequency /\
        (forall br', 0 <= br' < br -> clockFrequency * 2 ^ (br' + 1) < peripheralFrequency s)
    else
      configure s mode clockFrequency wordLength lsbFirst dummyData = Ok (EINVAL, 0, s).
Proof.
  intros s mode clockFrequency wordLength dummyData lsbFirst Hstarted Hidle Hword Hclock
    Hperipheral.
  pose proof (configure_nonzero_frequency s mode clockFrequency wordLength dummyData
                lsbFirst Hstarted Hidle Hword Hclock Hperipheral) as Hconfigure.
  cbv zeta in Hconfigure.
  set (ceiling := (peripheralFrequency s + clockFrequency - 1) / clockFrequency) in *.
  pose proof (ceiling_le (peripheralFrequency s) clockFrequency) as Hceiling.
  fold ceiling in Hceiling.
  destruct (Z.leb_spec (peripheralFrequency s) (256 * clockFrequency)) as [Hreach | Hfast].
  - replace (256 <? ceiling) with false in Hconfigure
      by (symmetry; apply Z.ltb_ge; apply Hceiling; lia).
    destruct Hconfigure as (br & s' & Hresult & Hbr & Hdivider & Hsmallest).
    exists br, s'. split; [exact Hresult |]. split; [exact Hbr |].
    assert (Hpower : 0 < 2 ^ (br + 1)) by (apply Z.pow_pos_nonneg; lia).
    split.
    + apply Z.div_le_upper_bound; [exact Hpower |].
      apply Hceiling in Hdivider; lia.
    + intros br' Hbr'. specialize (Hsmallest br' Hbr').
      destruct (Z_lt_ge_dec (clockFrequency * 2 ^ (br' + 1)) (peripheralFrequency s))
        as [Hfaster | Hslower]; [exact Hfaster |].
      assert (ceiling <= 2 ^ (br' + 1)) by (apply Hceiling; lia). lia.
  - replace (256 <? ceiling) with true in Hconfigure; [exact Hconfigure |].
    symmetry. apply Z.ltb_lt.
    destruct (Z_lt_ge_dec 256 ceiling) as [Hlarge | Hsmall]; [exact Hlarge |].
    assert (peripheralFrequency s <= 256 * clockFrequency) by (apply Hceiling; lia). lia.
Qed.

Lemma X7_configure_frequency_witness :
  exists br s',
    configure exampleStarted cpol0cpha0 10000000 8 false 0
    = Ok (0, peripheralFrequency exampleStarted / 2 ^ (br + 1), s') /\
    0 <= br <= 7 /\
    peripheralFrequency exampleStarted / 2 ^ (br + 1) <= 10000000 /\
    (forall br', 0 <= br' < br -> 10000000 * 2 ^ (br' + 1) < peripheralFrequency exampleStarted).
Proof.
  assert (Hreach : (peripheralFrequency exampleStarted <=? 256 * 10000000) = true)
    by (vm_compute; reflexivity).
  pose proof (X7_configure_frequency exampleStarted cpol0cpha0 10000000 8 0 false
                ltac:(vm_compute; reflexivity) ltac:(vm_compute; reflexivity)
                ltac:(vm_compute; split; discriminate)
                ltac:(vm_compute; split; reflexivity)
                ltac:(vm_compute; split; discriminate)) as Hconfigure.
  rewrite Hreach in Hconfigure. exact Hconfigure.
Defined.

End ConfiguredFrequency.

Section Idle.

Import ChipSpiMasterLowLevel.

Lemma configured_CR2_low_bits (cr2 frxth field n : Z) :
  0 <= n < 8 ->
  Z.testbit
    (Z.lor (Z.lor (clearBits cr2 (Z.lor SPI_CR2_FRXTH SPI_CR2_DS))
              (Z.shiftl frxth SPI_CR2_FRXTH_Pos))
       (Z.shiftl field SPI_CR2_DS_Pos)) n
  = Z.testbit cr2 n.
Proof.
  intros Hn. unfold clearBits.
  rewrite !Z.lor_spec, Z.land_spec, Z.lnot_spec by lia.
  rewrite (Z.shiftl_spec_low frxth) by (unfold SPI_CR2_FRXTH_Pos; lia).
  rewrite (Z.shiftl_spec_low field) by (unfold SPI_CR2_DS_Pos; lia).
  replace (Z.testbit (Z.lor SPI_CR2_FRXTH SPI_CR2_DS) n) with false.
  - rewrite andb_true_r, !orb_false_r. reflexivity.
  - assert (Hcases : n = 0 \/ n = 1 \/ n = 2 \/ n = 3 \/ n = 4 \/ n = 5 \/ n = 6 \/ n = 7)
      by lia.
    destruct Hcases as [-> | [-> | [-> | [-> | [-> | [-> | [-> | ->]]]]]]]; reflexivity.
Qed.

(** X8.  A driver without a transfer and with the three transfer
    interrupts disabled - such as a constructed one - stays so through
    [start], [stop] and [configure], whatever their arguments and results,
    and its interrupt handler ignores every interrupt: it changes neither
    the driver nor the memory, writes nothing to the data register and does
    not call the observer. *)
Theorem X8_idle_driver_ignores_interrupts :
  forall s : ChipSpiMasterLowLevel.t,
    quiet s ->
    quiet (snd (start s)) /\
    quiet (snd (stop s)) /\
    (forall mode clockFrequency wordLength lsbFirst dummyData ret frequency s',
        configure s mode clockFrequency wordLength lsbFirst dummyData
        = Ok (ret, frequency, s') ->
        quiet s') /\
    (forall callback memory events interrupts,
        run callback (s, memory, events) interrupts = Ok (s, memory, events)).
Proof.
  intros s Hquiet. pose proof Hquiet as (Hsize & Herrie & Hrxneie & Htxeie).
  split; [| split; [| split]].
  - unfold start. destruct (isStarted s); [exact Hquiet |].
    unfold quiet. cbn [snd size_ CR2]. repeat split; try reflexivity; exact Hsize.
  - unfold stop. destruct (negb (isStarted s)); [exact Hquiet |].
    destruct (isTransferInProgress s); [exact Hquiet |].
    unfold quiet. cbn [snd size_ CR2]. repeat split; try reflexivity; exact Hsize.
  - intros mode clockFrequency wordLength lsbFirst dummyData ret frequency s'.
    unfold configure.
    destruct ((wordLength <? minWordLength) || (maxWordLength <? wordLength));
      [intros Hresult; injection Hresult as _ _ <-; exact Hquiet |].
    destruct (negb (isStarted s));
      [intros Hresult; injection Hresult as _ _ <-; exact Hquiet |].
    destruct (isTransferInProgress s);
      [intros Hresult; injection Hresult as _ _ <-; exact Hquiet |].
    cbv zeta. destruct (clockFrequency =? 0); [discriminate |].
    destruct (256 <? _);
      [intros Hresult; injection Hresult as _ _ <-; exact Hquiet |].
    intros Hresult.
    pose proof (f_equal (fun r => match r with
                                  | Ok (_, _, configured) => configured
                                  | Crash _ => s
                                  end) Hresult) as Hs'.
    cbv beta iota in Hs'. subst s'.
    unfold quiet, SPI_CR2_ERRIE, SPI_CR2_RXNEIE, SPI_CR2_TXEIE in *.
    cbn [size_ CR2]. rewrite !flagSet_testbit in * by lia.
    rewrite !configured_CR2_low_bits by lia.
    repeat split; assumption.
  - intros callback memory events interrupts. apply quiet_run. exact Hquiet.
Qed.

Lemma X8_idle_driver_ignores_interrupts_witness :
  run passive (exampleConfigured 16, zeroMemory, [])
    [mkHardware (Z.lor SPI_SR_RXNE SPI_SR_TXE) 4660; mkHardware SPI_SR_OVR 0]
  = Ok (exampleConfigured 16, zeroMemory, []).
Proof.
  destruct (X8_idle_driver_ignores_interrupts exampleStarted) as (_ & _ & Hconfigure & _).
  - vm_compute. repeat split.
  - destruct (X8_idle_driver_ignores_interrupts (exampleConfigured 16)) as (_ & _ & _ & Hrun).
    + apply (Hconfigure cpol0cpha0 10000000 16 false 54549 0 10000000).
      vm_compute. reflexivity.
    + apply Hrun.
Defined.

End Idle.

(** * Further properties of the DMA-based driver *)

Section Stop.

Import SpiMasterLowLevelDmaBased.

Lemma UniqueHandle_reserve_free (h : UniqueHandle.t) (channels : Channels) (channel : nat)
    (request : Z) (functor : DmaChannelFunctor) :
  UniqueHandle.channel_ h = None ->
  functor_ (channels channel) = None ->
  request <= maxRequest ->
  UniqueHandle.reserve h channels channel request functor
  = (0, UniqueHandle.mk (Some channel),
     update channels channel
       (snd (DmaChannel.reserve (channels channel) request functor))) /\
  fst (DmaChannel.reserve (channels channel) request functor) = 0.
Proof.
  intros Hempty Hfree Hrequest.
  unfold UniqueHandle.reserve, UniqueHandle.release. rewrite Hempty.
  unfold DmaChannel.reserve. rewrite Hfree.
  replace (maxRequest <? request) with false by (symmetry; apply Z.ltb_ge; lia).
  split; reflexivity.
Qed.

Lemma start_free (s : SpiMasterLowLevelDmaBased.t) (channels : Channels)
    (trace : list Operation) :
  isStarted s = false ->
  rxDmaChannelUniqueHandle_ s = UniqueHandle.mk None ->
  txDmaChannelUniqueHandle_ s = UniqueHandle.mk None ->
  functor_ (channels (rxDmaChannel_ s)) = None ->
  functor_ (channels (txDmaChannel_ s)) = None ->
  rxDmaChannel_ s <> txDmaChannel_ s ->
  rxDmaRequest_ s <= maxRequest ->
  txDmaRequest_ s <= maxRequest ->
  fst (start (s, channels, trace)) = 0.
Proof.
  intros Hstopped Hrx Htx HrxFree HtxFree Hdistinct HrxRequest HtxRequest.
  unfold start. rewrite Hstopped.
  destruct (UniqueHandle_reserve_free (rxDmaChannelUniqueHandle_ s) channels
              (rxDmaChannel_ s) (rxDmaRequest_ s) RxDmaChannelFunctor)
    as [HreserveRx _]; [rewrite Hrx; reflexivity | exact HrxFree | exact HrxRequest |].
  rewrite HreserveRx. cbv beta iota. change (negb (0 =? 0)) with false. cbv beta iota.
  cbn [txDmaChannelUniqueHandle_ txDmaChannel_ txDmaRequest_ set_rxDmaChannelUniqueHandle].
  destruct (UniqueHandle_reserve_free (txDmaChannelUniqueHandle_ s)
              (update channels (rxDmaChannel_ s)
                 (snd (DmaChannel.reserve (channels (rxDmaChannel_ s)) (rxDmaRequest_ s)
                         RxDmaChannelFunctor)))
              (txDmaChannel_ s) (txDmaRequest_ s) TxDmaChannelFunctor)
    as [HreserveTx _].
  - rewrite Htx. reflexivity.
  - rewrite update_other by (intros Hsame; apply Hdistinct; symmetry; exact Hsame).
    exact HtxFree.
  - exact HtxRequest.
  - rewrite HreserveTx. cbv beta iota. change (negb (0 =? 0)) with false. cbv beta iota.
    reflexivity.
Qed.

(** X9.  [stop] on a started, idle DMA-based driver that holds its two
    channels undoes [start]: it returns 0, releases the RX channel and then
    the TX channel (both are free afterwards and both handles empty, other
    channels are not touched), clears both control registers and leaves the
    driver stopped - and a following [start] reserves the channels again
    and returns 0. *)
Theorem X9_stop_releases_channels :
  forall (s : SpiMasterLowLevelDmaBased.t) (channels : Channels) (trace : list Operation),
    isStarted s = true ->
    isTransferInProgress s = false ->
    rxDmaChannelUniqueHandle_ s = UniqueHandle.mk (Some (rxDmaChannel_ s)) ->
    txDmaChannelUniqueHandle_ s = UniqueHandle.mk (Some (txDmaChannel_ s)) ->
    rxDmaChannel_ s <> txDmaChannel_ s ->
    rxDmaRequest_ s <= maxRequest ->
    txDmaRequest_ s <= maxRequest ->
    let stopped := stop (s, channels, trace) in
    let s' := fst (fst (snd stopped)) in
    let channels' := snd (fst (snd stopped)) in
    let trace' := snd (snd stopped) in
    fst stopped = 0 /\
    isStarted s' = false /\
    rxDmaChannelUniqueHandle_ s' = UniqueHandle.mk None /\
    txDmaChannelUniqueHandle_ s' = UniqueHandle.mk None /\
    CR1 (spiPeripheral_ s') = 0 /\ CR2 (spiPeripheral_ s') = 0 /\
    functor_ (channels' (rxDmaChannel_ s)) = None /\
    functor_ (channels' (txDmaChannel_ s)) = None /\
    (forall i, i <> rxDmaChannel_ s -> i <> txDmaChannel_ s -> channels' i = channels i) /\
    trace' = trace ++ [Release Rx; Release Tx] /\
    fst (start (snd stopped)) = 0.
Proof.
  intros s channels trace Hstarted Hidle Hrx Htx Hdistinct HrxRequest HtxRequest
    stopped s' channels' trace'.
  assert (Hstop :
    stopped
    = (0,
       (set_started
          (set_spiPeripheral
             (set_txDmaChannelUniqueHandle
                (set_rxDmaChannelUniqueHandle s (UniqueHandle.mk None))
                (UniqueHandle.mk None))
             (writeCr2 (writeCr1 (spiPeripheral_ s) 0) 0))
          false,
        update (update channels (rxDmaChannel_ s)
                  (DmaChannel.release (channels (rxDmaChannel_ s))))
          (txDmaChannel_ s)
          (DmaChannel.release
             (update channels (rxDmaChannel_ s)
                (DmaChannel.release (channels (rxDmaChannel_ s))) (txDmaChannel_ s))),
        (trace ++ [Release Rx]) ++ [Release Tx]))).
  { unfold stopped, stop. rewrite Hstarted, Hidle. cbn [negb].
    unfold UniqueHandle.release. rewrite Hrx. cbn [UniqueHandle.channel_].
    cbn [txDmaChannelUniqueHandle_ set_rxDmaChannelUniqueHandle]. rewrite Htx.
    cbn [UniqueHandle.channel_]. reflexivity. }
  subst s' channels' trace'. rewrite Hstop. cbn [fst snd].
  split; [reflexivity |]. split; [reflexivity |]. split; [reflexivity |].
  split; [reflexivity |]. split; [reflexivity |]. split; [reflexivity |].
  assert (HrxFree :
    functor_ (update (update channels (rxDmaChannel_ s)
                        (DmaChannel.release (channels (rxDmaChannel_ s))))
                (txDmaChannel_ s)
                (DmaChannel.release
                   (update channels (rxDmaChannel_ s)
                      (DmaChannel.release (channels (rxDmaChannel_ s))) (txDmaChannel_ s)))
                (rxDmaChannel_ s)) = None).
  { rewrite update_other by exact Hdistinct. rewrite update_same. reflexivity. }
  assert (HtxFree :
    functor_ (update (update channels (rxDmaChannel_ s)
                        (DmaChannel.release (channels (rxDmaChannel_ s))))
                (txDmaChannel_ s)
                (DmaChannel.release
                   (update channels (rxDmaChannel_ s)
                      (DmaChannel.release (channels (rxDmaChannel_ s))) (txDmaChannel_ s)))
                (txDmaChannel_ s)) = None).
  { rewrite update_same. reflexivity. }
  split; [exact HrxFree |]. split; [exact HtxFree |].
  split.
  { intros i HnotRx HnotTx. rewrite !update_other by assumption. reflexivity. }
  split; [rewrite <- app_assoc; reflexivity |].
  apply start_free; try assumption; reflexivity.
Qed.

Lemma X9_stop_releases_channels_witness :
  let stopped := stop exampleStarted in
  fst stopped = 0 /\
  functor_ (snd (fst (snd stopped)) 2%nat) = None /\
  functor_ (snd (fst (snd stopped)) 3%nat) = None /\
  fst (start (snd stopped)) = 0.
Proof.
  intros stopped.
  destruct (X9_stop_releases_channels (fst (fst exampleStarted)) (snd (fst exampleStarted))
              (snd exampleStarted))
    as (Hret & _ & _ & _ & _ & _ & HrxFree & HtxFree & _ & _ & Hagain).
  - vm_compute. reflexivity.
  - vm_compute. reflexivity.
  - vm_compute. reflexivity.
  - vm_compute. reflexivity.
  - vm_compute. discriminate.
  - vm_compute. discriminate.
  - vm_compute. discriminate.
  - repeat split; assumption.
Defined.

End Stop.
